(** * Verification of the text analyzer of the Informative Search extension

    A shallow embedding of [src/search/textAnalyzer.ts] (class
    [TextAnalyzer]) and of the [UsageCategory] enumeration of
    [src/search/searchTypes.ts], with the ECMAScript string and regular
    expression primitives the analyzer calls.

    Conventions.
    - A JavaScript string is a [string]: a sequence of code units, here the
      code units below 256.  White space ([trim], [\s]) is therefore TAB,
      LF, VT, FF, CR, SPACE and NBSP, the white space of that range.
    - A JavaScript integer ([columnIndex], [lineNumber], the result of
      [indexOf]) is a [Z].
    - A call that may throw returns a [result]. *)

From Stdlib Require Import Sorted.
From Stdlib Require Import Bool Arith ZArith List Ascii String Lia.
Import ListNotations.

Local Open Scope string_scope.
Local Open Scope list_scope.
Local Open Scope nat_scope.
Local Open Scope bool_scope.

(* ================================================================== *)
(** * Outcomes of calls that may throw *)

Inductive error : Type :=
| TypeError
| SyntaxError.

Inductive result (A : Type) : Type :=
| Ok (a : A)
| Throw (e : error).

Arguments Ok {A} a.
Arguments Throw {A} e.

Definition bind {A B : Type} (r : result A) (f : A -> result B) : result B :=
  match r with
  | Ok a => f a
  | Throw e => Throw e
  end.

Notation "x <- r ;; k" := (bind r (fun x => k))
  (at level 61, r at next level, right associativity).

(* ================================================================== *)
(** * ECMAScript string primitives *)

Module JS.

(** White space and line terminators among the code units below 256. *)
Definition isWhiteSpace (c : ascii) : bool :=
  let n := nat_of_ascii c in
  (n =? 9) || (n =? 10) || (n =? 11) || (n =? 12) || (n =? 13)
  || (n =? 32) || (n =? 160).

(** [String.prototype.trimStart] (alias [trimLeft]). *)
Fixpoint trimStart (s : string) : string :=
  match s with
  | EmptyString => EmptyString
  | String c s' => if isWhiteSpace c then trimStart s' else s
  end.

(** [String.prototype.trimEnd]. *)
Fixpoint trimEnd (s : string) : string :=
  match s with
  | EmptyString => EmptyString
  | String c s' =>
      match trimEnd s' with
      | EmptyString => if isWhiteSpace c then EmptyString else String c EmptyString
      | t => String c t
      end
  end.

(** [String.prototype.trim]. *)
Definition trim (s : string) : string := trimEnd (trimStart s).

Fixpoint take (n : nat) (s : string) : string :=
  match n, s with
  | S n', String c s' => String c (take n' s')
  | _, _ => EmptyString
  end.

Fixpoint drop (n : nat) (s : string) : string :=
  match n, s with
  | S n', String _ s' => drop n' s'
  | _, _ => s
  end.

(** An integer argument of [substring], clamped to [0 .. length s]. *)
Definition clamp (s : string) (i : Z) : nat :=
  Nat.min (Z.to_nat i) (length s).

(** [s.substring(a, b)]: both ends are clamped and swapped when out of
    order. *)
Definition substring (s : string) (a b : Z) : string :=
  let from := Nat.min (clamp s a) (clamp s b) in
  let to := Nat.max (clamp s a) (clamp s b) in
  take (to - from) (drop from s).

(** [s.substring(a)]: the end defaults to the length. *)
Definition substringFrom (s : string) (a : Z) : string :=
  substring s a (Z.of_nat (length s)).

(** [s.startsWith(p)]. *)
Fixpoint startsWith (s p : string) : bool :=
  match p, s with
  | EmptyString, _ => true
  | String a p', String b s' => Ascii.eqb a b && startsWith s' p'
  | String _ _, EmptyString => false
  end.

(** [s.endsWith(p)]: [p] is a suffix of [s]. *)
Fixpoint endsWith (s p : string) : bool :=
  String.eqb s p ||
  match s with
  | EmptyString => false
  | String _ s' => endsWith s' p
  end.

(** [s.indexOf(p)], scanning from offset [i] of the original string: the
    least position where [p] starts, or [-1]. *)
Fixpoint indexOfFrom (s p : string) (i : Z) : Z :=
  if startsWith s p then i
  else match s with
       | EmptyString => (-1)%Z
       | String _ s' => indexOfFrom s' p (i + 1)
       end.

Definition indexOf (s p : string) : Z := indexOfFrom s p 0.

(** [s.lastIndexOf(p)]: the greatest position where [p] starts, or [-1]. *)
Fixpoint lastIndexOfFrom (s p : string) (i : Z) : Z :=
  match s with
  | EmptyString => if startsWith s p then i else (-1)%Z
  | String _ s' =>
      let later := lastIndexOfFrom s' p (i + 1) in
      if (later =? -1)%Z then (if startsWith s p then i else (-1)%Z)
      else later
  end.

Definition lastIndexOf (s p : string) : Z := lastIndexOfFrom s p 0.

(** [s.includes(p)]. *)
Definition includes (s p : string) : bool := negb (indexOf s p =? -1)%Z.

(** [s[i] === c] for an index [i] that is a natural number. *)
Definition charIs (s : string) (i : nat) (c : ascii) : bool :=
  match String.get i s with
  | Some d => Ascii.eqb d c
  | None => false
  end.

(** [s.split(',')] for a one-character separator. *)
Fixpoint split (sep : ascii) (s : string) : list string :=
  match s with
  | EmptyString => [EmptyString]
  | String c s' =>
      if Ascii.eqb c sep then EmptyString :: split sep s'
      else match split sep s' with
           | [] => [String c EmptyString]
           | w :: ws => String c w :: ws
           end
  end.

(** [a[i]] for an integer [i]: [undefined] outside the array. *)
Definition arrayGet {A : Type} (a : list A) (i : Z) : option A :=
  if (i <? 0)%Z then None else nth_error a (Z.to_nat i).

(** [a.slice(start, end)]: a negative argument counts from the end. *)
Definition slice {A : Type} (a : list A) (start stop : Z) : list A :=
  let len := Z.of_nat (List.length a) in
  let relative x := if (x <? 0)%Z then Z.max (len + x) 0 else Z.min x len in
  let from := relative start in
  let to := relative stop in
  firstn (Z.to_nat (to - from)) (skipn (Z.to_nat from) a).

End JS.

(* ================================================================== *)
(** * ECMAScript regular expressions

    The fragment of the pattern language the analyzer's literals use, with
    the backtracking semantics of the language specification (greedy
    quantifiers, leftmost alternative first, capture groups).  Flags are
    never set in the source: matching is case sensitive, [^] and [$] are
    the ends of the input, [.] excludes line terminators. *)

Module RegExp.

(** A member of a character class [[...]]. *)
Inductive classItem : Type :=
| CChar (c : ascii)
| CRange (lo hi : ascii)
| CSpace                      (* \s *)
| CWord                       (* \w *)
| CDigit.                     (* \d *)

Inductive regex : Type :=
| Empty
| Char (c : ascii)
| Any                                            (* .  *)
| Class (negated : bool) (items : list classItem)
| Seq (r1 r2 : regex)
| Alt (r1 r2 : regex)                            (* r1|r2 *)
| Star (r : regex)                               (* r* *)
| Plus (r : regex)                               (* r+ *)
| Opt (r : regex)                                (* r? *)
| Group (n : nat) (r : regex)                    (* the n-th (...) *)
| Bol                                            (* ^ *)
| Eol.                                           (* $ *)

Definition between (lo hi : nat) (c : ascii) : bool :=
  (lo <=? nat_of_ascii c) && (nat_of_ascii c <=? hi).

Definition isDigit (c : ascii) : bool := between 48 57 c.

Definition isWordChar (c : ascii) : bool :=
  between 97 122 c || between 65 90 c || isDigit c || (nat_of_ascii c =? 95).

Definition isLineTerminator (c : ascii) : bool :=
  (nat_of_ascii c =? 10) || (nat_of_ascii c =? 13).

Definition inItem (c : ascii) (it : classItem) : bool :=
  match it with
  | CChar d => Ascii.eqb c d
  | CRange lo hi => between (nat_of_ascii lo) (nat_of_ascii hi) c
  | CSpace => JS.isWhiteSpace c
  | CWord => isWordChar c
  | CDigit => isDigit c
  end.

Definition inClass (negated : bool) (items : list classItem) (c : ascii)
  : bool :=
  xorb negated (existsb (inItem c) items).

(** Captures: the text last captured by each group, most recent first. *)
Definition captures : Type := list (nat * string).

Fixpoint lookup (n : nat) (caps : captures) : option string :=
  match caps with
  | [] => None
  | (m, v) :: caps' => if m =? n then Some v else lookup n caps'
  end.

(** The indices of the groups inside a pattern. *)
Fixpoint groupsOf (r : regex) : list nat :=
  match r with
  | Seq r1 r2 | Alt r1 r2 => groupsOf r1 ++ groupsOf r2
  | Star r1 | Plus r1 | Opt r1 => groupsOf r1
  | Group n r1 => n :: groupsOf r1
  | _ => []
  end.

(** Entering an iteration of a quantifier resets the groups inside it. *)
Definition clear (ns : list nat) (caps : captures) : captures :=
  filter (fun p => negb (existsb (Nat.eqb (fst p)) ns)) caps.

(** A matcher state is the text not consumed yet and the captures; a
    continuation decides whether the rest of the pattern matches. *)
Definition answer : Type := option (string * captures).
Definition cont : Type := string -> captures -> answer.
Definition matcher : Type := string -> captures -> cont -> answer.

Definition orElse (a : answer) (b : answer) : answer :=
  match a with
  | Some _ => a
  | None => b
  end.

(** Has an iteration that started at [rest] and ended at [rest'] consumed
    a character? *)
Definition progress (rest rest' : string) : bool :=
  length rest' <? length rest.

(** Greedy iteration, zero or more times: another iteration first, and
    the continuation when that fails.  An iteration that consumes nothing
    is rejected, so [fuel] above the length of the text is never
    exhausted. *)
Fixpoint repeatGreedy (m : matcher) (ns : list nat) (fuel : nat)
  (rest : string) (caps : captures) (k : cont) : answer :=
  match fuel with
  | 0 => k rest caps
  | S fuel' =>
      orElse
        (m rest (clear ns caps)
           (fun rest' caps' =>
              if progress rest rest'
              then repeatGreedy m ns fuel' rest' caps' k
              else None))
        (k rest caps)
  end.

Definition single (ok : ascii -> bool) : matcher :=
  fun rest caps k =>
    match rest with
    | String c rest' => if ok c then k rest' caps else None
    | EmptyString => None
    end.

(** The matcher of a pattern, over an input of [len] characters. *)
Fixpoint rmatch (len : nat) (r : regex) : matcher :=
  match r with
  | Empty => fun rest caps k => k rest caps
  | Char c => single (Ascii.eqb c)
  | Any => single (fun c => negb (isLineTerminator c))
  | Class negated items => single (inClass negated items)
  | Seq r1 r2 =>
      fun rest caps k =>
        rmatch len r1 rest caps
          (fun rest' caps' => rmatch len r2 rest' caps' k)
  | Alt r1 r2 =>
      fun rest caps k =>
        orElse (rmatch len r1 rest caps k) (rmatch len r2 rest caps k)
  | Star r1 =>
      fun rest caps k =>
        repeatGreedy (rmatch len r1) (groupsOf r1) (S (length rest))
          rest caps k
  | Plus r1 =>
      fun rest caps k =>
        rmatch len r1 rest (clear (groupsOf r1) caps)
          (fun rest' caps' =>
             repeatGreedy (rmatch len r1) (groupsOf r1) (S (length rest'))
               rest' caps' k)
  | Opt r1 =>
      fun rest caps k =>
        orElse
          (rmatch len r1 rest (clear (groupsOf r1) caps)
             (fun rest' caps' =>
                if progress rest rest' then k rest' caps' else None))
          (k rest caps)
  | Group n r1 =>
      fun rest caps k =>
        rmatch len r1 rest caps
          (fun rest' caps' =>
             k rest'
               ((n, JS.take (length rest - length rest') rest) :: caps'))
  | Bol => fun rest caps k => if length rest =? len then k rest caps else None
  | Eol => fun rest caps k =>
             match rest with
             | EmptyString => k rest caps
             | String _ _ => None
             end
  end.

(** The array a successful match returns: [m[0]] is the matched text,
    [m[n]] the capture of group [n], [undefined] when the group took no
    part in the match. *)
Record matchArray : Type := {
  matched : string;
  groups : captures
}.

Definition group (m : matchArray) (n : nat) : option string :=
  match n with
  | 0 => Some (matched m)
  | S _ => lookup n (groups m)
  end.

(** The search tries every start position from the left. *)
Fixpoint execFrom (len : nat) (r : regex) (rest : string)
  : option matchArray :=
  match rmatch len r rest [] (fun rest' caps => Some (rest', caps)) with
  | Some (rest', caps) =>
      Some {| matched := JS.take (length rest - length rest') rest;
              groups := caps |}
  | None =>
      match rest with
      | EmptyString => None
      | String _ rest' => execFrom len r rest'
      end
  end.

(** [s.match(r)] for a pattern without the global flag. *)
Definition exec (r : regex) (s : string) : option matchArray :=
  execFrom (length s) r s.

(** [r.test(s)] *)
Definition test (r : regex) (s : string) : bool :=
  match exec r s with
  | Some _ => true
  | None => false
  end.

(** ** Pattern sources

    [parse] reads the source text of a pattern.  It covers literal
    characters, [.], [^], [$], [|], capture groups, the greedy quantifiers
    [*] [+] [?], character classes with ranges, the class escapes
    [\s \w \d \S \W \D] and escaped punctuation.  A source the language
    rejects is [PSyntaxError]; a source that uses anything else of the
    pattern language is [PUnmodelled]. *)

Inductive presult (A : Type) : Type :=
| POk (a : A)
| PSyntaxError
| PUnmodelled.

Arguments POk {A} a.
Arguments PSyntaxError {A}.
Arguments PUnmodelled {A}.

Definition isAlnum (c : ascii) : bool :=
  between 97 122 c || between 65 90 c || isDigit c.

(** The atom a backslash and [c] stand for, outside a class. *)
Definition atomEscape (c : ascii) : presult regex :=
  if Ascii.eqb c "s" then POk (Class false [CSpace])
  else if Ascii.eqb c "w" then POk (Class false [CWord])
  else if Ascii.eqb c "d" then POk (Class false [CDigit])
  else if Ascii.eqb c "S" then POk (Class true [CSpace])
  else if Ascii.eqb c "W" then POk (Class true [CWord])
  else if Ascii.eqb c "D" then POk (Class true [CDigit])
  else if isAlnum c then PUnmodelled
  else POk (Char c).

(** The class member a backslash and [c] stand for, inside a class. *)
Definition classEscape (c : ascii) : presult classItem :=
  if Ascii.eqb c "s" then POk CSpace
  else if Ascii.eqb c "w" then POk CWord
  else if Ascii.eqb c "d" then POk CDigit
  else if isAlnum c then PUnmodelled
  else POk (CChar c).

(** Does the text start a range with the member just read ([-] followed
    by something other than the closing bracket)? *)
Definition startsRange (s : string) : bool :=
  match s with
  | String "-" (String c _) => negb (Ascii.eqb c "]")
  | _ => false
  end.

(** The members of a class up to its closing bracket, and the text after
    the bracket. *)
Fixpoint parseClassItems (s : string) (acc : list classItem)
  : presult (list classItem * string) :=
  match s with
  | EmptyString => PSyntaxError
  | String c rest =>
      if Ascii.eqb c "]" then POk (rev acc, rest)
      else if Ascii.eqb c "\" then
        match rest with
        | EmptyString => PSyntaxError
        | String e rest' =>
            match classEscape e with
            | POk it =>
                if startsRange rest' then PUnmodelled
                else parseClassItems rest' (it :: acc)
            | PSyntaxError => PSyntaxError
            | PUnmodelled => PUnmodelled
            end
        end
      else
        match rest with
        | String "-" (String hi rest') =>
            if Ascii.eqb hi "]" then parseClassItems rest (CChar c :: acc)
            else if Ascii.eqb hi "\" then PUnmodelled
            else if nat_of_ascii hi <? nat_of_ascii c then PSyntaxError
            else parseClassItems rest' (CRange c hi :: acc)
        | _ => parseClassItems rest (CChar c :: acc)
        end
  end.

(** An open group: its index and what was read before it at the enclosing
    level. *)
Record frame : Type := {
  fIndex : nat;
  fAlts : list regex;
  fCur : list regex
}.

(** What the last term read allows next: nothing to repeat, an atom that
    may take a quantifier, or a quantifier that [?] would make lazy. *)
Inductive lastKind : Type :=
| LNone
| LAtom
| LQuantified.

(** The parser state: the open groups, the finished alternatives of the
    current level and the terms of the current alternative (both latest
    first), and the index of the next group. *)
Record pstate : Type := {
  stack : list frame;
  alts : list regex;
  cur : list regex;
  last : lastKind;
  nextGroup : nat
}.

Fixpoint seqOf (ts : list regex) : regex :=
  match ts with
  | [] => Empty
  | [t] => t
  | t :: ts' => Seq t (seqOf ts')
  end.

Definition closeLevel (alts cur : list regex) : regex :=
  fold_left (fun acc a => Alt a acc) alts (seqOf (rev cur)).

Definition addTerm (st : pstate) (t : regex) (l : lastKind) : pstate :=
  {| stack := stack st; alts := alts st; cur := t :: cur st;
     last := l; nextGroup := nextGroup st |}.

Definition quantify (q : regex -> regex) (lazy : bool) (st : pstate)
  : presult pstate :=
  match last st, cur st with
  | LAtom, t :: ts =>
      POk {| stack := stack st; alts := alts st; cur := q t :: ts;
             last := LQuantified; nextGroup := nextGroup st |}
  | LQuantified, _ => if lazy then PUnmodelled else PSyntaxError
  | _, _ => PSyntaxError
  end.

Definition continue {A : Type} (r : presult pstate)
  (k : pstate -> presult A) : presult A :=
  match r with
  | POk st => k st
  | PSyntaxError => PSyntaxError
  | PUnmodelled => PUnmodelled
  end.

(** One step per character (a class or an escape is read whole), so fuel
    above the length of the source is never exhausted. *)
Fixpoint parseFrom (fuel : nat) (s : string) (st : pstate) : presult regex :=
  match fuel with
  | 0 => PUnmodelled
  | S fuel' =>
      match s with
      | EmptyString =>
          match stack st with
          | [] => POk (closeLevel (alts st) (cur st))
          | _ :: _ => PSyntaxError
          end
      | String c rest =>
          if Ascii.eqb c "(" then
            match rest with
            | String "?" _ => PUnmodelled
            | _ =>
                parseFrom fuel' rest
                  {| stack := {| fIndex := nextGroup st; fAlts := alts st;
                                 fCur := cur st |} :: stack st;
                     alts := []; cur := []; last := LNone;
                     nextGroup := S (nextGroup st) |}
            end
          else if Ascii.eqb c ")" then
            match stack st with
            | [] => PSyntaxError
            | fr :: stk =>
                parseFrom fuel' rest
                  {| stack := stk; alts := fAlts fr;
                     cur := Group (fIndex fr) (closeLevel (alts st) (cur st))
                            :: fCur fr;
                     last := LAtom; nextGroup := nextGroup st |}
            end
          else if Ascii.eqb c "|" then
            parseFrom fuel' rest
              {| stack := stack st;
                 alts := seqOf (rev (cur st)) :: alts st;
                 cur := []; last := LNone; nextGroup := nextGroup st |}
          else if Ascii.eqb c "*" then
            continue (quantify Star false st) (parseFrom fuel' rest)
          else if Ascii.eqb c "+" then
            continue (quantify Plus false st) (parseFrom fuel' rest)
          else if Ascii.eqb c "?" then
            continue (quantify Opt true st) (parseFrom fuel' rest)
          else if Ascii.eqb c "^" then
            parseFrom fuel' rest (addTerm st Bol LNone)
          else if Ascii.eqb c "$" then
            parseFrom fuel' rest (addTerm st Eol LNone)
          else if Ascii.eqb c "." then
            parseFrom fuel' rest (addTerm st Any LAtom)
          else if Ascii.eqb c "[" then
            let (negated, body) :=
              match rest with
              | String "^" body => (true, body)
              | _ => (false, rest)
              end in
            match parseClassItems body [] with
            | POk (items, rest') =>
                parseFrom fuel' rest' (addTerm st (Class negated items) LAtom)
            | PSyntaxError => PSyntaxError
            | PUnmodelled => PUnmodelled
            end
          else if Ascii.eqb c "\" then
            match rest with
            | EmptyString => PSyntaxError
            | String e rest' =>
                match atomEscape e with
                | POk t => parseFrom fuel' rest' (addTerm st t LAtom)
                | PSyntaxError => PSyntaxError
                | PUnmodelled => PUnmodelled
                end
            end
          else if Ascii.eqb c "{" then PUnmodelled
          else parseFrom fuel' rest (addTerm st (Char c) LAtom)
      end
  end.

Definition parse (src : string) : presult regex :=
  parseFrom (S (length src)) src
    {| stack := []; alts := []; cur := []; last := LNone; nextGroup := 1 |}.

Definition parses (src : string) : Prop :=
  match parse src with
  | POk _ => True
  | _ => False
  end.

(** A pattern literal [/src/] of the program text: a literal that does not
    parse is rejected when the program is loaded, so a literal carries the
    evidence that it parses. *)
Definition literal (src : string) : parses src -> regex :=
  match parse src as p
        return match p with POk _ => True | _ => False end -> regex with
  | POk r => fun _ => r
  | PSyntaxError => fun H => match H with end
  | PUnmodelled => fun H => match H with end
  end.

End RegExp.

(* ================================================================== *)
(** * The data model: [searchTypes.ts] *)

Inductive UsageCategory : Type :=
| IMPORT
| EXPORT
| FUNCTION_DEFINITION
| FUNCTION_CALL
| VARIABLE_DECLARATION
| VARIABLE_USAGE
| COMPONENT_USAGE
| TYPE_DEFINITION
| INTERFACE_DEFINITION
| CLASS_DEFINITION
| PROPERTY_ACCESS
| COMMENT
| STRING_LITERAL
| OTHER.

(** [MatchContext].  An absent optional field is [None]; so is a value
    [undefined] where the code stores one. *)
Module MatchContext.
Record t : Type := {
  functionName : option string;
  className : option string;
  isInComment : bool;
  isInString : bool;
  surroundingLines : option (list string);
  importedItems : option (list (option string));
  functionArguments : option (list string)
}.
End MatchContext.

(** A pattern literal of the source, written as in the source. *)
Notation "'RE' src" := (RegExp.literal src I) (at level 10, src at level 9).

(** [patterns.some(pattern => pattern.test(line))] *)
Definition somePattern (patterns : list RegExp.regex) (line : string) : bool :=
  existsb (fun pattern => RegExp.test pattern line) patterns.

(* ================================================================== *)
(** * The comment and string detectors *)

(** [isInComment(lineText, columnIndex)] *)
Definition isInComment (lineText : string) (columnIndex : Z) : bool :=
  let singleLineComment := JS.indexOf lineText "//" in
  if negb (singleLineComment =? -1)%Z && (singleLineComment <=? columnIndex)%Z
  then true
  else
    let beforeText := JS.substring lineText 0 columnIndex in
    let afterText := JS.substringFrom lineText columnIndex in
    let multiLineStart := JS.lastIndexOf beforeText "/*" in
    let multiLineEnd := JS.indexOf afterText "*/" in
    if negb (multiLineStart =? -1)%Z && negb (multiLineEnd =? -1)%Z
    then true
    else if JS.startsWith (JS.trim lineText) "#" then true
    else false.

(** The three counters of [isInString]. *)
Record quoteCounts : Type := {
  singleQuotes : nat;
  doubleQuotes : nat;
  backticks : nat
}.

Definition backslash : ascii := ascii_of_nat 92.
Definition singleQuote : ascii := ascii_of_nat 39.
Definition doubleQuote : ascii := ascii_of_nat 34.
Definition backtick : ascii := ascii_of_nat 96.

(** [i === 0 || beforeText[i - 1] !== '\\'] *)
Definition notEscaped (beforeText : string) (i : nat) : bool :=
  (i =? 0) || negb (JS.charIs beforeText (i - 1) backslash).

(** The body of the [for] loop of [isInString], at index [i]. *)
Definition isInString_step (beforeText : string) (q : quoteCounts) (i : nat)
  : quoteCounts :=
  if JS.charIs beforeText i singleQuote && notEscaped beforeText i then
    {| singleQuotes := S (singleQuotes q);
       doubleQuotes := doubleQuotes q;
       backticks := backticks q |}
  else if JS.charIs beforeText i doubleQuote && notEscaped beforeText i then
    {| singleQuotes := singleQuotes q;
       doubleQuotes := S (doubleQuotes q);
       backticks := backticks q |}
  else if JS.charIs beforeText i backtick && notEscaped beforeText i then
    {| singleQuotes := singleQuotes q;
       doubleQuotes := doubleQuotes q;
       backticks := S (backticks q) |}
  else q.

(** [for (let i = 0; i < beforeText.length; i++)] from zeroed counters. *)
Definition isInString_counts (beforeText : string) : quoteCounts :=
  fold_left (isInString_step beforeText) (seq 0 (length beforeText))
    {| singleQuotes := 0; doubleQuotes := 0; backticks := 0 |}.

(** [isInString(lineText, columnIndex)] *)
Definition isInString (lineText : string) (columnIndex : Z) : bool :=
  let beforeText := JS.substring lineText 0 columnIndex in
  let q := isInString_counts beforeText in
  (singleQuotes q mod 2 =? 1) || (doubleQuotes q mod 2 =? 1)
  || (backticks q mod 2 =? 1).

(* ================================================================== *)
(** * The pattern tests of the classifier *)

(** [isImportStatement(line, searchTerm)] *)
Definition isImportStatement (line searchTerm : string) : bool :=
  let patterns := [
    RE "^import\s+.*from\s+";
    RE "^import\s+.*=\s+require";
    RE "^const\s+.*=\s+require";
    RE "^from\s+.*import";
    RE "^#include\s+";
    RE "^using\s+"
  ] in
  somePattern patterns line.

(** [isExportStatement(line, searchTerm)] *)
Definition isExportStatement (line searchTerm : string) : bool :=
  let patterns := [
    RE "^export\s+(default\s+)?";
    RE "^export\s*\{";
    RE "^module\.exports\s*="
  ] in
  somePattern patterns line.

(** [isFunctionDefinition(line, searchTerm, beforeMatch, afterMatch,
    languageId)] *)
Definition isFunctionDefinition
  (line searchTerm beforeMatch afterMatch languageId : string) : bool :=
  let jsPatterns := [
    RE "^function\s+";
    RE "^const\s+.*=\s*\(.*\)\s*=>";
    RE "^const\s+.*=\s*function";
    RE "^.*:\s*\(.*\)\s*=>";
    RE "^async\s+function\s+"
  ] in
  let pyPatterns := [
    RE "^def\s+";
    RE "^async\s+def\s+"
  ] in
  let javaPatterns := [
    RE "^\s*(public|private|protected|static).*\s+\w+\s*\("
  ] in
  let patterns :=
    if String.eqb languageId "python" then pyPatterns
    else if String.eqb languageId "java" || String.eqb languageId "csharp"
         then javaPatterns
         else jsPatterns in
  if JS.startsWith afterMatch "(" then true
  else somePattern patterns line.

(** [isVariableDeclaration(line, searchTerm, beforeMatch, afterMatch,
    languageId)] *)
Definition isVariableDeclaration
  (line searchTerm beforeMatch afterMatch languageId : string) : bool :=
  let jsPatterns := [
    RE "^(const|let|var)\s+";
    RE "^.*:\s*[A-Za-z]"
  ] in
  let pyPatterns := [
    RE "^\s*\w+\s*="
  ] in
  let patterns :=
    if String.eqb languageId "python" then pyPatterns else jsPatterns in
  if JS.startsWith afterMatch "=" || JS.startsWith afterMatch ":" then true
  else somePattern patterns line.

(** [isFunctionCall(line, searchTerm, afterMatch)] *)
Definition isFunctionCall (line searchTerm afterMatch : string) : bool :=
  JS.startsWith (JS.trimStart afterMatch) "(".

(** [isTypeDefinition(line, searchTerm, beforeMatch, languageId)] *)
Definition isTypeDefinition
  (line searchTerm beforeMatch languageId : string) : bool :=
  if negb (String.eqb languageId "typescript")
     && negb (String.eqb languageId "typescriptreact")
  then false
  else
    let patterns := [
      RE "^type\s+";
      RE "^export\s+type\s+"
    ] in
    somePattern patterns line.

(** [isInterfaceDefinition(line, searchTerm, beforeMatch, languageId)] *)
Definition isInterfaceDefinition
  (line searchTerm beforeMatch languageId : string) : bool :=
  if negb (String.eqb languageId "typescript")
     && negb (String.eqb languageId "typescriptreact")
  then false
  else
    let patterns := [
      RE "^interface\s+";
      RE "^export\s+interface\s+"
    ] in
    somePattern patterns line.

(** [isClassDefinition(line, searchTerm, beforeMatch, languageId)] *)
Definition isClassDefinition
  (line searchTerm beforeMatch languageId : string) : bool :=
  let patterns := [
    RE "^class\s+";
    RE "^export\s+class\s+";
    RE "^abstract\s+class\s+";
    RE "^public\s+class\s+";
    RE "^private\s+class\s+"
  ] in
  somePattern patterns line.

(** [isPropertyAccess(line, searchTerm, beforeMatch, afterMatch)] *)
Definition isPropertyAccess
  (line searchTerm beforeMatch afterMatch : string) : bool :=
  if JS.endsWith beforeMatch "." || JS.startsWith afterMatch "." then true
  else if JS.endsWith beforeMatch "[" && JS.startsWith afterMatch "]" then true
  else false.

(** [isVariableUsage(line, searchTerm, beforeMatch, afterMatch)] *)
Definition isVariableUsage
  (line searchTerm beforeMatch afterMatch : string) : bool :=
  let isNotDeclaration :=
    match RegExp.exec (RE "^(const|let|var|function)\s*$") beforeMatch with
    | Some _ => false
    | None => true
    end in
  let isNotFunctionCall :=
    negb (JS.startsWith (JS.trimStart afterMatch) "(") in
  let isNotPropertyAccess :=
    negb (JS.endsWith beforeMatch ".") && negb (JS.endsWith beforeMatch "[") in
  isNotDeclaration && isNotFunctionCall && isNotPropertyAccess.

(* ================================================================== *)
(** * Patterns built at run time, and the classifier *)

(** A pattern object: one the model compiled, or one of the engine for a
    source outside the modelled fragment. *)
Inductive RegExpObject : Type :=
| Compiled (r : RegExp.regex)
| HostCompiled (accepts : string -> bool).

Definition testObject (pattern : RegExpObject) (line : string) : bool :=
  match pattern with
  | Compiled r => RegExp.test r line
  | HostCompiled accepts => accepts line
  end.

Section Classifier.

(** The engine on the pattern sources outside the modelled fragment: the
    constructor throws, or yields the pattern's [test]. *)
Variable hostRegExp : string -> result (string -> bool).

(** [new RegExp(source)] *)
Definition newRegExp (source : string) : result RegExpObject :=
  match RegExp.parse source with
  | RegExp.POk r => Ok (Compiled r)
  | RegExp.PSyntaxError => Throw SyntaxError
  | RegExp.PUnmodelled =>
      accepts <- hostRegExp source ;; Ok (HostCompiled accepts)
  end.

(** [isComponentUsage(line, searchTerm, languageId)] *)
Definition isComponentUsage (line searchTerm languageId : string)
  : result bool :=
  if negb (String.eqb languageId "typescriptreact")
     && negb (String.eqb languageId "javascriptreact")
     && negb (String.eqb languageId "vue")
  then Ok false
  else
    p1 <- newRegExp ("<" ++ searchTerm ++ "[\s/>]")%string ;;
    p2 <- newRegExp ("</" ++ searchTerm ++ ">")%string ;;
    let reactPatterns := [p1; p2] in
    Ok (existsb (fun pattern => testObject pattern line) reactPatterns).

(** [categorizeMatch(lineText, columnIndex, searchTerm, context, allLines,
    lineNumber, languageId)] *)
Definition categorizeMatch
  (lineText : string) (columnIndex : Z) (searchTerm : string)
  (context : MatchContext.t) (allLines : list string) (lineNumber : Z)
  (languageId : string) : result UsageCategory :=
  let trimmedLine := JS.trim lineText in
  let beforeMatch := JS.trim (JS.substring lineText 0 columnIndex) in
  let afterMatch :=
    JS.trim
      (JS.substringFrom lineText
         (columnIndex + Z.of_nat (length searchTerm))) in
  if MatchContext.isInComment context then Ok COMMENT
  else if MatchContext.isInString context then Ok STRING_LITERAL
  else if isImportStatement trimmedLine searchTerm then Ok IMPORT
  else if isExportStatement trimmedLine searchTerm then Ok EXPORT
  else if isFunctionDefinition trimmedLine searchTerm beforeMatch afterMatch
            languageId
       then Ok FUNCTION_DEFINITION
  else if isVariableDeclaration trimmedLine searchTerm beforeMatch afterMatch
            languageId
       then Ok VARIABLE_DECLARATION
  else if isFunctionCall trimmedLine searchTerm afterMatch
       then Ok FUNCTION_CALL
  else
    component <- isComponentUsage trimmedLine searchTerm languageId ;;
    if component then Ok COMPONENT_USAGE
    else if isTypeDefinition trimmedLine searchTerm beforeMatch languageId
         then Ok TYPE_DEFINITION
    else if isInterfaceDefinition trimmedLine searchTerm beforeMatch
              languageId
         then Ok INTERFACE_DEFINITION
    else if isClassDefinition trimmedLine searchTerm beforeMatch languageId
         then Ok CLASS_DEFINITION
    else if isPropertyAccess trimmedLine searchTerm beforeMatch afterMatch
         then Ok PROPERTY_ACCESS
    else if isVariableUsage trimmedLine searchTerm beforeMatch afterMatch
         then Ok VARIABLE_USAGE
    else Ok OTHER.

End Classifier.

(* ================================================================== *)
(** * The literal search path of the search provider *)

(** A character of the class [[.*+?^${}()|[\]\\]] of
    [createSearchPattern]. *)
Definition isRegExpSpecial (c : ascii) : bool :=
  existsb (Ascii.eqb c)
    ["."; "*"; "+"; "?"; "^"; "$"; "{"; "}"; "("; ")"; "|"; "["; "]"; "\"]%char.

(** [pattern.replace(/[.*+?^${}()|[\]\\]/g, '\\$&')] of
    [createSearchPattern]: a backslash before every special character. *)
Fixpoint escapeRegExp (pattern : string) : string :=
  match pattern with
  | EmptyString => EmptyString
  | String c rest =>
      if isRegExpSpecial c then String "\" (String c (escapeRegExp rest))
      else String c (escapeRegExp rest)
  end.

(* ================================================================== *)
(** * Context extraction *)

(** [getSurroundingLines(allLines, lineNumber, radius)] *)
Definition getSurroundingLines (allLines : list string)
  (lineNumber radius : Z) : list string :=
  let start := Z.max 0 (lineNumber - radius) in
  let stop :=
    Z.min (Z.of_nat (List.length allLines)) (lineNumber + radius + 1) in
  JS.slice allLines start stop.

(** One iteration of the loop of [getFunctionContext] on the trimmed
    line: [Some v] when the iteration returns [v], [None] when it falls
    through to the next index. *)
Definition getFunctionContext_body (line : string) : option (option string) :=
  match RegExp.exec (RE "^(async\s+)?function\s+(\w+)\s*\(") line with
  | Some functionMatch => Some (RegExp.group functionMatch 2)
  | None =>
      match RegExp.exec (RE "^(const|let|var)\s+(\w+)\s*=\s*.*=>") line with
      | Some arrowMatch => Some (RegExp.group arrowMatch 2)
      | None =>
          match RegExp.exec (RE "^(\w+)\s*\(") line with
          | Some methodMatch =>
              if negb (JS.includes line "if") && negb (JS.includes line "for")
                 && negb (JS.includes line "while")
              then Some (RegExp.group methodMatch 1)
              else None
          | None => None
          end
      end
  end.

(** [for (let i = lineNumber; i >= 0; i--)] of [getFunctionContext], from
    index [i]: [None] when the fuel runs out before the loop ends.
    [allLines[i].trim()] throws when [allLines[i]] is [undefined]. *)
Fixpoint getFunctionContext_loop (fuel : nat) (allLines : list string)
  (i : Z) : option (result (option string)) :=
  match fuel with
  | 0 => None
  | S fuel' =>
      if (i >=? 0)%Z then
        match JS.arrayGet allLines i with
        | None => Some (Throw TypeError)
        | Some text =>
            match getFunctionContext_body (JS.trim text) with
            | Some name => Some (Ok name)
            | None => getFunctionContext_loop fuel' allLines (i - 1)
            end
        end
      else Some (Ok None)
  end.

(** Fuel for a backward scan from [lineNumber]: one unit per index from
    [lineNumber] down to [0], and one for the exit test. *)
Definition scanFuel (lineNumber : Z) : nat := S (Z.to_nat (lineNumber + 1)).

(** [getFunctionContext(allLines, lineNumber)] *)
Definition getFunctionContext (allLines : list string) (lineNumber : Z)
  : result (option string) :=
  match getFunctionContext_loop (scanFuel lineNumber) allLines lineNumber with
  | Some r => r
  | None => Ok None
  end.

(** One iteration of the loop of [getClassContext] on the trimmed line. *)
Definition getClassContext_body (line : string) : option (option string) :=
  match RegExp.exec (RE "^(export\s+)?(abstract\s+)?class\s+(\w+)") line with
  | Some classMatch => Some (RegExp.group classMatch 3)
  | None => None
  end.

(** The loop of [getClassContext], from index [i]. *)
Fixpoint getClassContext_loop (fuel : nat) (allLines : list string)
  (i : Z) : option (result (option string)) :=
  match fuel with
  | 0 => None
  | S fuel' =>
      if (i >=? 0)%Z then
        match JS.arrayGet allLines i with
        | None => Some (Throw TypeError)
        | Some text =>
            match getClassContext_body (JS.trim text) with
            | Some name => Some (Ok name)
            | None => getClassContext_loop fuel' allLines (i - 1)
            end
        end
      else Some (Ok None)
  end.

(** [getClassContext(allLines, lineNumber)] *)
Definition getClassContext (allLines : list string) (lineNumber : Z)
  : result (option string) :=
  match getClassContext_loop (scanFuel lineNumber) allLines lineNumber with
  | Some r => r
  | None => Ok None
  end.

(** [extractImportedItems(line)].  An element is [m[1]] of a match, so a
    string or [undefined]; [undefined.split] throws. *)
Definition extractImportedItems (line : string)
  : result (list (option string)) :=
  let items := [] in
  match RegExp.exec (RE "import\s*\{\s*([^}]+)\s*\}") line with
  | Some namedMatch =>
      match RegExp.group namedMatch 1 with
      | Some inner =>
          Ok (map (fun item => Some (JS.trim item)) (JS.split "," inner))
      | None => Throw TypeError
      end
  | None =>
      let items :=
        match RegExp.exec (RE "import\s+(\w+)\s+from") line with
        | Some defaultMatch => items ++ [RegExp.group defaultMatch 1]
        | None => items
        end in
      let items :=
        match RegExp.exec (RE "import\s+\*\s+as\s+(\w+)\s+from") line with
        | Some namespaceMatch => items ++ [RegExp.group namespaceMatch 1]
        | None => items
        end in
      Ok items
  end.

(** [getMatchContext(lineText, columnIndex, allLines, lineNumber)] *)
Definition getMatchContext (lineText : string) (columnIndex : Z)
  (allLines : list string) (lineNumber : Z) : result MatchContext.t :=
  let inComment := isInComment lineText columnIndex in
  let inString := isInString lineText columnIndex in
  let surrounding := getSurroundingLines allLines lineNumber 2 in
  fn <- getFunctionContext allLines lineNumber ;;
  cls <- getClassContext allLines lineNumber ;;
  imported <-
    (if isImportStatement (JS.trim lineText) ""
     then items <- extractImportedItems lineText ;; Ok (Some items)
     else Ok None) ;;
  Ok {| MatchContext.functionName := fn;
        MatchContext.className := cls;
        MatchContext.isInComment := inComment;
        MatchContext.isInString := inString;
        MatchContext.surroundingLines := Some surrounding;
        MatchContext.importedItems := imported;
        MatchContext.functionArguments := None |}.

(* ================================================================== *)
(** * Specification-level definitions

    The properties of the detectors as the specification words them, to be
    compared with the definitions above. *)

(** The quote at index [i] of [line] is one the counter of [quote] counts
    for [column]: it lies strictly before [column], and is not immediately
    preceded by a backslash (nothing precedes index 0). *)
Definition countedQuote (line : string) (quote : ascii) (column : Z)
  (i : nat) : Prop :=
  (Z.of_nat i < column)%Z /\
  String.get i line = Some quote /\
  (i = 0 \/ String.get (i - 1) line <> Some backslash).

Definition countedQuoteb (line : string) (quote : ascii) (column : Z)
  (i : nat) : bool :=
  (Z.of_nat i <? column)%Z && JS.charIs line i quote
  && ((i =? 0) || negb (JS.charIs line (i - 1) backslash)).

(** The value of the counter of [quote]: how many indices of [line] hold
    a counted quote. *)
Definition quoteCount (line : string) (quote : ascii) (column : Z) : nat :=
  List.length (filter (countedQuoteb line quote column) (seq 0 (length line))).

(** [p] occurs in [s] starting at index [k]. *)
Definition occursAt (p s : string) (k : nat) : Prop :=
  exists pre post, s = (pre ++ p ++ post)%string /\ length pre = k.

(** [k] is where the first occurrence of [p] in [s] starts. *)
Definition firstOccurrence (p s : string) (k : nat) : Prop :=
  occursAt p s k /\ forall j, j < k -> ~ occursAt p s j.

(** [p] occurs somewhere in [s]. *)
Definition contains (p s : string) : Prop := exists k, occursAt p s k.

(** A matcher consults its continuation only on texts no longer than the
    one it was given. *)
Definition respectsSuffix (m : RegExp.matcher) : Prop :=
  forall rest caps (k k' : RegExp.cont),
    (forall rest' caps',
        length rest' <= length rest -> k rest' caps' = k' rest' caps') ->
    m rest caps k = m rest caps k'.

(** The parser state after reading the characters of [term] as literal
    atoms. *)
Fixpoint pushChars (term : string) (st : RegExp.pstate) : RegExp.pstate :=
  match term with
  | EmptyString => st
  | String c rest =>
      pushChars rest (RegExp.addTerm st (RegExp.Char c) RegExp.LAtom)
  end.

(** Group [n] is set by every match of the pattern: it lies on every path
    through the pattern, outside [*] and [?], and no later quantifier
    resets it. *)
Fixpoint alwaysSets (n : nat) (r : RegExp.regex) : bool :=
  match r with
  | RegExp.Group m r1 => (m =? n) || alwaysSets n r1
  | RegExp.Seq r1 r2 =>
      (alwaysSets n r1 && negb (existsb (Nat.eqb n) (RegExp.groupsOf r2)))
      || alwaysSets n r2
  | RegExp.Alt r1 r2 => alwaysSets n r1 && alwaysSets n r2
  | RegExp.Plus r1 => alwaysSets n r1
  | _ => false
  end.

(** Group [n] is set in the captures. *)
Definition hasGroup (n : nat) (caps : RegExp.captures) : Prop :=
  RegExp.lookup n caps <> None.

(** What a matcher guarantees about group [n] when it succeeds: the
    continuation was run on captures where [n] is set if [sure], and still
    set if it was set before and the matcher has no group [n]. *)
Definition matcherSets (n : nat) (m : RegExp.matcher) (sure : bool)
  (ns : list nat) : Prop :=
  forall rest caps k a,
    m rest caps k = Some a ->
    exists rest' caps',
      k rest' caps' = Some a /\
      (sure = true -> hasGroup n caps') /\
      (hasGroup n caps -> ~ In n ns -> hasGroup n caps').

(** The shape the two backward scans share: [body] decides on the trimmed
    text of a line whether the scan returns there. *)
Fixpoint scanBack (body : string -> option (option string)) (fuel : nat)
  (allLines : list string) (i : Z) : option (result (option string)) :=
  match fuel with
  | 0 => None
  | S fuel' =>
      if (i >=? 0)%Z then
        match JS.arrayGet allLines i with
        | None => Some (Throw TypeError)
        | Some text =>
            match body (JS.trim text) with
            | Some name => Some (Ok name)
            | None => scanBack body fuel' allLines (i - 1)
            end
        end
      else Some (Ok None)
  end.

(** The trimmed text of a line names a function, as the specification
    lists the patterns: an optional [async] and [function <name>(]; else
    [const|let|var <name> = ... =>]; else [<name>(] at the start of a line
    that contains none of [if], [for], [while]. *)
Definition functionLine (trimmed name : string) : Prop :=
  (exists m,
      RegExp.exec (RE "^(async\s+)?function\s+(\w+)\s*\(") trimmed = Some m /\
      RegExp.group m 2 = Some name)
  \/
  (RegExp.exec (RE "^(async\s+)?function\s+(\w+)\s*\(") trimmed = None /\
   exists m,
      RegExp.exec (RE "^(const|let|var)\s+(\w+)\s*=\s*.*=>") trimmed = Some m /\
      RegExp.group m 2 = Some name)
  \/
  (RegExp.exec (RE "^(async\s+)?function\s+(\w+)\s*\(") trimmed = None /\
   RegExp.exec (RE "^(const|let|var)\s+(\w+)\s*=\s*.*=>") trimmed = None /\
   (exists m,
      RegExp.exec (RE "^(\w+)\s*\(") trimmed = Some m /\
      RegExp.group m 1 = Some name) /\
   ~ contains "if" trimmed /\ ~ contains "for" trimmed /\
   ~ contains "while" trimmed).

(** The trimmed text of a line names a class. *)
Definition classLine (trimmed name : string) : Prop :=
  exists m,
    RegExp.exec (RE "^(export\s+)?(abstract\s+)?class\s+(\w+)") trimmed
    = Some m /\
    RegExp.group m 3 = Some name.

(** Scanning from [lineNumber] down to 0, line [j] is the first whose
    trimmed text satisfies [names], and it yields [name]. *)
Definition firstNamingLine (names : string -> string -> Prop)
  (allLines : list string) (lineNumber j : Z) (name : string) : Prop :=
  (0 <= j <= lineNumber)%Z /\
  (exists text, JS.arrayGet allLines j = Some text /\
                names (JS.trim text) name) /\
  forall j', (j < j' <= lineNumber)%Z ->
  forall text', JS.arrayGet allLines j' = Some text' ->
  forall name', ~ names (JS.trim text') name'.

(** No line from [lineNumber] down to 0 satisfies [names]. *)
Definition noNamingLine (names : string -> string -> Prop)
  (allLines : list string) (lineNumber : Z) : Prop :=
  forall j, (0 <= j <= lineNumber)%Z ->
  forall text, JS.arrayGet allLines j = Some text ->
  forall name, ~ names (JS.trim text) name.

(** The first named-import brace group of [line] holds [inner]. *)
Definition namedImportGroup (line inner : string) : Prop :=
  exists m,
    RegExp.exec (RE "import\s*\{\s*([^}]+)\s*\}") line = Some m /\
    RegExp.group m 1 = Some inner.

(** [line] matches the default-import pattern, which captures [name]. *)
Definition defaultImport (line name : string) : Prop :=
  exists m,
    RegExp.exec (RE "import\s+(\w+)\s+from") line = Some m /\
    RegExp.group m 1 = Some name.

(** [line] matches the namespace-import pattern, which captures [name]. *)
Definition namespaceImport (line name : string) : Prop :=
  exists m,
    RegExp.exec (RE "import\s+\*\s+as\s+(\w+)\s+from") line = Some m /\
    RegExp.group m 1 = Some name.

(** The comma-split, trimmed contents of a brace group. *)
Definition splitTrimmed (inner : string) : list (option string) :=
  map (fun item => Some (JS.trim item)) (JS.split "," inner).

(** The result of [extractImportedItems] comes from one branch only, as
    the specification has it: from the brace group when there is one, and
    otherwise from nothing, from the default-import pattern alone or from
    the namespace-import pattern alone. *)
Definition oneBranchOnly (line : string) : Prop :=
  (exists inner,
      namedImportGroup line inner /\
      extractImportedItems line = Ok (splitTrimmed inner))
  \/
  ((forall inner, ~ namedImportGroup line inner) /\
   (extractImportedItems line = Ok []
    \/ (exists name, defaultImport line name /\
                     extractImportedItems line = Ok [Some name])
    \/ (exists name, namespaceImport line name /\
                     extractImportedItems line = Ok [Some name]))).

(* ================================================================== *)
(** * Concrete inputs used by the statements below *)

(** An engine that rejects every source outside the modelled fragment. *)
Definition rejectingHost : string -> result (string -> bool) :=
  fun _ => Throw SyntaxError.

(** A context with both flags cleared and no optional field. *)
Definition plainContext : MatchContext.t :=
  {| MatchContext.functionName := None;
     MatchContext.className := None;
     MatchContext.isInComment := false;
     MatchContext.isInString := false;
     MatchContext.surroundingLines := None;
     MatchContext.importedItems := None;
     MatchContext.functionArguments := None |}.

(** The context [plainContext] with the two flags set as given. *)
Definition flaggedContext (inComment inString : bool) : MatchContext.t :=
  {| MatchContext.functionName := None;
     MatchContext.className := None;
     MatchContext.isInComment := inComment;
     MatchContext.isInString := inString;
     MatchContext.surroundingLines := None;
     MatchContext.importedItems := None;
     MatchContext.functionArguments := None |}.

(* ================================================================== *)
(** * Further definitions for the properties of the whole analyzer *)

(** The language identifiers some test of the classifier compares
    [languageId] with. *)
Definition recognizedLanguages : list string :=
  ["python"; "java"; "csharp"; "typescript"; "typescriptreact";
   "javascriptreact"; "vue"].

Definition recognizedLanguage (languageId : string) : bool :=
  existsb (String.eqb languageId) recognizedLanguages.

(** ** What a pattern matches

    [Matches len r a b]: on an input of [len] characters, the pattern [r]
    matches the text that leads from the suffix [a] of the input to its
    suffix [b].  This is the language of the pattern; the matcher explores
    it in a fixed order. *)
Inductive Matches (len : nat) : RegExp.regex -> string -> string -> Prop :=
| MEmpty (a : string) : Matches len RegExp.Empty a a
| MChar (c : ascii) (a : string) :
    Matches len (RegExp.Char c) (String c a) a
| MAny (c : ascii) (a : string) :
    RegExp.isLineTerminator c = false ->
    Matches len RegExp.Any (String c a) a
| MClass (negated : bool) (items : list RegExp.classItem) (c : ascii)
    (a : string) :
    RegExp.inClass negated items c = true ->
    Matches len (RegExp.Class negated items) (String c a) a
| MSeq (r1 r2 : RegExp.regex) (a b c : string) :
    Matches len r1 a b -> Matches len r2 b c ->
    Matches len (RegExp.Seq r1 r2) a c
| MAltL (r1 r2 : RegExp.regex) (a b : string) :
    Matches len r1 a b -> Matches len (RegExp.Alt r1 r2) a b
| MAltR (r1 r2 : RegExp.regex) (a b : string) :
    Matches len r2 a b -> Matches len (RegExp.Alt r1 r2) a b
| MStarDone (r : RegExp.regex) (a : string) :
    Matches len (RegExp.Star r) a a
| MStarMore (r : RegExp.regex) (a b c : string) :
    Matches len r a b -> Matches len (RegExp.Star r) b c ->
    Matches len (RegExp.Star r) a c
| MPlus (r : RegExp.regex) (a b c : string) :
    Matches len r a b -> Matches len (RegExp.Star r) b c ->
    Matches len (RegExp.Plus r) a c
| MOptNone (r : RegExp.regex) (a : string) :
    Matches len (RegExp.Opt r) a a
| MOptSome (r : RegExp.regex) (a b : string) :
    Matches len r a b -> Matches len (RegExp.Opt r) a b
| MGroup (n : nat) (r : RegExp.regex) (a b : string) :
    Matches len r a b -> Matches len (RegExp.Group n r) a b
| MBol (a : string) : length a = len -> Matches len RegExp.Bol a a
| MEol : Matches len RegExp.Eol EmptyString EmptyString.

(** The pattern that reads the characters of [w] and then [r]. *)
Fixpoint litThen (w : string) (r : RegExp.regex) : RegExp.regex :=
  match w with
  | EmptyString => r
  | String c w' => RegExp.Seq (RegExp.Char c) (litThen w' r)
  end.

(** The pattern [^export\s+] followed by [r]. *)
Definition exportThen (r : RegExp.regex) : RegExp.regex :=
  RegExp.Seq RegExp.Bol
    (litThen "export"
       (RegExp.Seq (RegExp.Plus (RegExp.Class false [RegExp.CSpace])) r)).

(** The continuation at the end of a pattern: the match is accepted. *)
Definition acceptAll : RegExp.cont := fun rest caps => Some (rest, caps).

(** [k'] accepts wherever [k] does. *)
Definition contWeaker (k k' : RegExp.cont) : Prop :=
  forall rest caps, k rest caps <> None -> k' rest caps <> None.

(** Every character of the text is white space. *)
Fixpoint allWhite (s : string) : bool :=
  match s with
  | EmptyString => true
  | String c s' => JS.isWhiteSpace c && allWhite s'
  end.

(** The last character of the text is white space. *)
Fixpoint endsWhite (s : string) : bool :=
  match s with
  | EmptyString => false
  | String c EmptyString => JS.isWhiteSpace c
  | String _ s' => endsWhite s'
  end.

(** The keywords of the declaration test of [isVariableUsage]. *)
Definition declarationKeywords : list string :=
  ["const"; "let"; "var"; "function"].

(* ================================================================== *)
(** * The search provider: [searchProvider.ts]

    The functions of [SearchProvider] around the analyzer: the pattern of
    a search, the matches of a line, the analysis of one match. *)

(** [SearchConfiguration] *)
Record SearchConfiguration : Type := {
  includePatterns : list string;
  excludePatterns : list string;
  includeComments : bool;
  includeStringLiterals : bool;
  caseSensitive : bool;
  useRegex : bool;
  maxResultsPerCategory : Z
}.

(** A pattern object with flags, given by the source and the flags it
    was built from. *)
Record SearchPattern : Type := {
  patternSource : string;
  patternFlags : string
}.

Section SearchPatterns.

Variable hostRegExp : string -> result (string -> bool).

(** [createSearchPattern(searchTerm, config)].  Whether
    [new RegExp(pattern, flags)] throws depends on the source alone: the
    flags [g] and [gi] are valid and leave the syntax unchanged. *)
Definition createSearchPattern (searchTerm : string)
  (config : SearchConfiguration) : result SearchPattern :=
  let pattern :=
    if negb (useRegex config) then escapeRegExp searchTerm
    else searchTerm in
  let flags := if caseSensitive config then "g" else "gi" in
  match newRegExp hostRegExp pattern with
  | Ok _ => Ok {| patternSource := pattern; patternFlags := flags |}
  | Throw _ =>
      let escapedTerm := escapeRegExp searchTerm in
      _ <- newRegExp hostRegExp escapedTerm ;;
      Ok {| patternSource := escapedTerm; patternFlags := flags |}
  end.

End SearchPatterns.

(** The pattern that reads exactly the characters of [term]. *)
Definition literalOf (term : string) : RegExp.regex :=
  RegExp.seqOf (map RegExp.Char (list_ascii_of_string term)).

(** An element of the array [findMatches] returns. *)
Record FoundMatch : Type := {
  index : nat;
  matchText : string
}.

Section FindMatches.

(** The search of a pattern object with the flag [g] in a line: the
    leftmost match that starts at or after a position, as its start and
    its end. *)
Variable searchFrom : string -> nat -> option (nat * nat).

(** [pattern.exec(line)] with [pattern.lastIndex = lastIndex]: the match
    and the new [lastIndex]. *)
Definition execGlobal (line : string) (lastIndex : nat)
  : option FoundMatch * nat :=
  if length line <? lastIndex then (None, 0)
  else
    match searchFrom line lastIndex with
    | None => (None, 0)
    | Some (start, stop) =>
        (Some {| index := start;
                 matchText :=
                   JS.substring line (Z.of_nat start) (Z.of_nat stop) |},
         stop)
    end.

(** The [while] loop of [findMatches]: [None] when the fuel runs out. *)
Fixpoint findMatches_loop (fuel : nat) (line : string) (lastIndex : nat)
  (matches : list FoundMatch) : option (list FoundMatch) :=
  match fuel with
  | 0 => None
  | S fuel' =>
      match execGlobal line lastIndex with
      | (None, _) => Some matches
      | (Some found, lastIndex') =>
          let matches' := matches ++ [found] in
          let lastIndex'' :=
            if index found =? lastIndex' then lastIndex' + 1
            else lastIndex' in
          findMatches_loop fuel' line lastIndex'' matches'
      end
  end.

(** [findMatches(line, pattern, config)]: [pattern.lastIndex] is reset,
    and every iteration moves it forward, so the fuel covers the loop. *)
Definition findMatches (line : string) : list FoundMatch :=
  match findMatches_loop (length line + 2) line 0 [] with
  | Some matches => matches
  | None => []
  end.

End FindMatches.

(** The search of a compiled pattern, case sensitive, from position
    [pos] of the input, where [rest] starts. *)
Fixpoint searchAt (len : nat) (r : RegExp.regex) (rest : string)
  (pos from : nat) : option (nat * nat) :=
  match
    (if from <=? pos then RegExp.rmatch len r rest [] acceptAll else None)
  with
  | Some (rest', _) => Some (pos, pos + (length rest - length rest'))
  | None =>
      match rest with
      | EmptyString => None
      | String _ rest1 => searchAt len r rest1 (S pos) from
      end
  end.

Definition regexSearch (r : RegExp.regex) (line : string) (from : nat)
  : option (nat * nat) :=
  searchAt (length line) r line 0 from.

(** What the language specification guarantees of a search: the match
    starts at or after the position asked for and ends inside the
    line. *)
Definition searchContract (searchFrom : string -> nat -> option (nat * nat))
  : Prop :=
  forall line from start stop,
    searchFrom line from = Some (start, stop) ->
    from <= start /\ start <= stop /\ stop <= length line.

(** [vscode.Position] and [vscode.Range], as the values they hold. *)
Record Position : Type := {
  positionLine : nat;
  positionCharacter : nat
}.

Record Range : Type := {
  rangeStart : Position;
  rangeEnd : Position
}.

(** What the provider reads of a [vscode.TextDocument]: its [uri], its
    [languageId] and the result of [getText()]. *)
Record TextDocument : Type := {
  documentUri : string;
  documentLanguageId : string;
  documentText : string
}.

(** [SearchMatch] *)
Module SearchMatch.
Record t : Type := {
  searchTerm : string;
  file : string;
  line : nat;
  column : nat;
  lineText : string;
  category : UsageCategory;
  context : MatchContext.t;
  range : Range
}.
End SearchMatch.

Section AnalyzeMatch.

Variable hostRegExp : string -> result (string -> bool).

(** [analyzeMatch(document, lineNumber, columnIndex, searchTerm,
    lineText, allLines, config)].  Its one caller passes the index of a
    line and the [index] of a match of that line, so the two are natural
    numbers.  [Ok None] is the result [null]. *)
Definition analyzeMatch (document : TextDocument)
  (lineNumber columnIndex : nat) (searchTerm lineText : string)
  (allLines : list string) (config : SearchConfiguration)
  : result (option SearchMatch.t) :=
  context <-
    getMatchContext lineText (Z.of_nat columnIndex) allLines
      (Z.of_nat lineNumber) ;;
  if negb (includeComments config) && MatchContext.isInComment context
  then Ok None
  else if negb (includeStringLiterals config)
          && MatchContext.isInString context
  then Ok None
  else
    category <-
      categorizeMatch hostRegExp lineText (Z.of_nat columnIndex) searchTerm
        context allLines (Z.of_nat lineNumber)
        (documentLanguageId document) ;;
    let startPosition :=
      {| positionLine := lineNumber; positionCharacter := columnIndex |} in
    let endPosition :=
      {| positionLine := lineNumber;
         positionCharacter := columnIndex + length searchTerm |} in
    let range :=
      {| rangeStart := startPosition; rangeEnd := endPosition |} in
    Ok (Some {| SearchMatch.searchTerm := searchTerm;
                SearchMatch.file := documentUri document;
                SearchMatch.line := lineNumber;
                SearchMatch.column := columnIndex;
                SearchMatch.lineText := lineText;
                SearchMatch.category := category;
                SearchMatch.context := context;
                SearchMatch.range := range |}).

End AnalyzeMatch.

(** The configuration [DEFAULT_SEARCH_CONFIG] of [searchTypes.ts]. *)
Definition DEFAULT_SEARCH_CONFIG : SearchConfiguration :=
  {| includePatterns :=
       ["**/*.{js,ts,jsx,tsx,vue,py,java,c,cpp,cs,php,rb,go,rs}"];
     excludePatterns :=
       ["**/node_modules/**"; "**/dist/**"; "**/build/**"; "**/*.min.js"];
     includeComments := true;
     includeStringLiterals := false;
     caseSensitive := false;
     useRegex := false;
     maxResultsPerCategory := 100 |}.

(* ================================================================== *)
(** * The previews of a line: [searchResultItem.ts], [treeViewProvider.ts] *)

Module SearchResultItem.

(** [SearchResultItem.formatLinePreview(lineText, maxLength)], for an
    integer [maxLength].  [lastSpace > maxLength * 0.75] compares an
    integer with three quarters of an integer, which is
    [4 * lastSpace > 3 * maxLength]. *)
Definition formatLinePreview (lineText : string) (maxLength : Z) : string :=
  let trimmed := JS.trim lineText in
  if (Z.of_nat (length trimmed) <=? maxLength)%Z then trimmed
  else
    let truncated := JS.substring trimmed 0 maxLength in
    let lastSpace := JS.lastIndexOf truncated " " in
    if (3 * maxLength <? 4 * lastSpace)%Z
    then (JS.substring truncated 0 lastSpace ++ "...")%string
    else (truncated ++ "...")%string.

End SearchResultItem.

Module TreeViewProvider.

(** [SearchTreeViewProvider.formatLinePreview(lineText, maxLength)] *)
Definition formatLinePreview (lineText : string) (maxLength : Z) : string :=
  let trimmed := JS.trim lineText in
  if (Z.of_nat (length trimmed) <=? maxLength)%Z then trimmed
  else (JS.substring trimmed 0 (maxLength - 3) ++ "...")%string.

End TreeViewProvider.

(* ================================================================== *)
(** * The results of a search: [searchTypes.ts], [searchProvider.ts] *)

(** [Object.values(UsageCategory)]: the categories in the order of the
    enumeration. *)
Definition allCategories : list UsageCategory :=
  [IMPORT; EXPORT; FUNCTION_DEFINITION; FUNCTION_CALL; VARIABLE_DECLARATION;
   VARIABLE_USAGE; COMPONENT_USAGE; TYPE_DEFINITION; INTERFACE_DEFINITION;
   CLASS_DEFINITION; PROPERTY_ACCESS; COMMENT; STRING_LITERAL; OTHER].

(** The position of a category in the enumeration. *)
Definition categoryIndex (category : UsageCategory) : nat :=
  match category with
  | IMPORT => 0
  | EXPORT => 1
  | FUNCTION_DEFINITION => 2
  | FUNCTION_CALL => 3
  | VARIABLE_DECLARATION => 4
  | VARIABLE_USAGE => 5
  | COMPONENT_USAGE => 6
  | TYPE_DEFINITION => 7
  | INTERFACE_DEFINITION => 8
  | CLASS_DEFINITION => 9
  | PROPERTY_ACCESS => 10
  | COMMENT => 11
  | STRING_LITERAL => 12
  | OTHER => 13
  end.

(** [a === b] on categories. *)
Definition categoryEqb (a b : UsageCategory) : bool :=
  categoryIndex a =? categoryIndex b.

(** A [Map] or an object keyed by a category: its entries in insertion
    order, one entry per key. *)
Definition CategoryMap (V : Type) : Type := list (UsageCategory * V).

(** [map.get(key)] *)
Fixpoint mapGet {V : Type} (key : UsageCategory) (m : CategoryMap V)
  : option V :=
  match m with
  | [] => None
  | (k, v) :: m' => if categoryEqb k key then Some v else mapGet key m'
  end.

(** [map.set(key, value)]: the value of an existing key is replaced in
    place, a new key is added at the end. *)
Fixpoint mapSet {V : Type} (key : UsageCategory) (value : V)
  (m : CategoryMap V) : CategoryMap V :=
  match m with
  | [] => [(key, value)]
  | (k, v) :: m' =>
      if categoryEqb k key then (k, value) :: m'
      else (k, v) :: mapSet key value m'
  end.

(** [CategorizedResults] *)
Record CategorizedResults : Type := {
  resultsSearchTerm : string;
  totalMatches : nat;
  categories : CategoryMap (list SearchMatch.t);
  searchedFiles : nat;
  searchTime : Z
}.

(** [map.get(key) || []] *)
Definition matchesOf (key : UsageCategory)
  (m : CategoryMap (list SearchMatch.t)) : list SearchMatch.t :=
  match mapGet key m with
  | Some matches => matches
  | None => []
  end.

(** A loop whose body may throw. *)
Fixpoint forEach {A B : Type} (body : A -> B -> result A) (items : list B)
  (state : A) : result A :=
  match items with
  | [] => Ok state
  | item :: items' =>
      state' <- body state item ;; forEach body items' state'
  end.

Definition newline : ascii := ascii_of_nat 10.

Section SearchInDocument.

Variable hostRegExp : string -> result (string -> bool).

(** The search of a pattern object in a line from a position (see
    [searchFrom]), for the pattern objects [createSearchPattern]
    returns. *)
Variable engine : SearchPattern -> string -> nat -> option (nat * nat).

(** The body of the loop over the matches of a line in
    [searchInDocument]. *)
Definition recordMatch (document : TextDocument) (searchTerm : string)
  (config : SearchConfiguration) (lines : list string) (lineNumber : nat)
  (line : string) (results : CategorizedResults) (found : FoundMatch)
  : result CategorizedResults :=
  searchMatch <-
    analyzeMatch hostRegExp document lineNumber (index found) searchTerm
      line lines config ;;
  match searchMatch with
  | Some searchMatch =>
      let categoryMatches :=
        matchesOf (SearchMatch.category searchMatch) (categories results) in
      let categoryMatches := categoryMatches ++ [searchMatch] in
      Ok {| resultsSearchTerm := resultsSearchTerm results;
            totalMatches := totalMatches results + 1;
            categories :=
              mapSet (SearchMatch.category searchMatch) categoryMatches
                (categories results);
            searchedFiles := searchedFiles results;
            searchTime := searchTime results |}
  | None => Ok results
  end.

(** The body of the loop over the lines in [searchInDocument]. *)
Definition searchLine (document : TextDocument) (searchTerm : string)
  (config : SearchConfiguration) (searchPattern : SearchPattern)
  (lines : list string) (results : CategorizedResults)
  (numbered : nat * string) : result CategorizedResults :=
  let (lineNumber, line) := numbered in
  let matches := findMatches (engine searchPattern) line in
  forEach (recordMatch document searchTerm config lines lineNumber line)
    matches results.

(** [searchInDocument(document, searchTerm, config)], without its
    logging. *)
Definition searchInDocument (document : TextDocument) (searchTerm : string)
  (config : SearchConfiguration) : result CategorizedResults :=
  let results :=
    {| resultsSearchTerm := searchTerm;
       totalMatches := 0;
       categories := map (fun category => (category, [])) allCategories;
       searchedFiles := 0;
       searchTime := 0 |} in
  let text := documentText document in
  let lines := JS.split newline text in
  searchPattern <- createSearchPattern hostRegExp searchTerm config ;;
  forEach (searchLine document searchTerm config searchPattern lines)
    (combine (seq 0 (List.length lines)) lines) results.

End SearchInDocument.

(** [getSearchStats(results)]: the object it returns, as its entries. *)
Definition getSearchStats (results : CategorizedResults) : CategoryMap nat :=
  fold_left
    (fun stats entry =>
       let (category, matches) := entry : UsageCategory * list SearchMatch.t in
       if 0 <? List.length matches
       then mapSet category (List.length matches) stats
       else stats)
    (categories results) [].

(** [filterResultsByCategory(results, categories)] *)
Definition filterResultsByCategory (results : CategorizedResults)
  (requested : list UsageCategory) : CategorizedResults :=
  fold_left
    (fun filteredResults category =>
       let matches := matchesOf category (categories results) in
       if 0 <? List.length matches
       then {| resultsSearchTerm := resultsSearchTerm filteredResults;
               totalMatches :=
                 totalMatches filteredResults + List.length matches;
               categories :=
                 mapSet category matches (categories filteredResults);
               searchedFiles := searchedFiles filteredResults;
               searchTime := searchTime filteredResults |}
       else filteredResults)
    requested
    {| resultsSearchTerm := resultsSearchTerm results;
       totalMatches := 0;
       categories := [];
       searchedFiles := searchedFiles results;
       searchTime := searchTime results |}.

(** The number of matches a map of categories holds. *)
Definition storedMatches (m : CategoryMap (list SearchMatch.t)) : nat :=
  list_sum (map (fun entry => List.length (snd entry)) m).

(** The engine of the case-sensitive patterns whose source parses: the
    search of the compiled source. *)
Definition compiledEngine (pattern : SearchPattern) (line : string)
  (from : nat) : option (nat * nat) :=
  match RegExp.parse (patternSource pattern) with
  | RegExp.POk r => regexSearch r line from
  | _ => None
  end.

(** The results [searchInDocument] and [searchInWorkspace] start from:
    every category with an empty array. *)
Definition emptyResults (searchTerm : string) : CategorizedResults :=
  {| resultsSearchTerm := searchTerm;
     totalMatches := 0;
     categories := map (fun category => (category, [])) allCategories;
     searchedFiles := 0;
     searchTime := 0 |}.

(** The body of the loop that merges the results of a file into the
    results of the workspace, in [searchInWorkspace]. *)
Definition mergeCategory (config : SearchConfiguration)
  (results : CategorizedResults)
  (entry : UsageCategory * list SearchMatch.t) : CategorizedResults :=
  let (category, matches) := entry in
  let existingMatches := matchesOf category (categories results) in
  let availableSlots :=
    (maxResultsPerCategory config
     - Z.of_nat (List.length existingMatches))%Z in
  if (0 <? availableSlots)%Z then
    let matchesToAdd := JS.slice matches 0 availableSlots in
    {| resultsSearchTerm := resultsSearchTerm results;
       totalMatches := totalMatches results + List.length matchesToAdd;
       categories :=
         mapSet category (existingMatches ++ matchesToAdd)
           (categories results);
       searchedFiles := searchedFiles results;
       searchTime := searchTime results |}
  else results.

Definition mergeResults (config : SearchConfiguration)
  (results fileResults : CategorizedResults) : CategorizedResults :=
  fold_left (mergeCategory config) (categories fileResults) results.



Section SearchInWorkspace.

Variable hostRegExp : string -> result (string -> bool).
Variable engine : SearchPattern -> string -> nat -> option (nat * nat).



End SearchInWorkspace.

(** What holds of the results of a search of one document. *)
Definition recorded (document : TextDocument) (searchTerm : string)
  (lines : list string) (category : UsageCategory) (found : SearchMatch.t)
  : Prop :=
  SearchMatch.category found = category /\
  SearchMatch.file found = documentUri document /\
  SearchMatch.searchTerm found = searchTerm /\
  nth_error lines (SearchMatch.line found)
  = Some (SearchMatch.lineText found).


(** [a.pop()] on a fresh array: its last element. *)
Definition pop {A : Type} (a : list A) : option A :=
  match rev a with
  | [] => None
  | x :: _ => Some x
  end.

(** [x || y] on strings: the empty string and [undefined] are falsy. *)
Definition orString (x : option string) (y : string) : string :=
  match x with
  | Some (String c s) => String c s
  | _ => y
  end.

(** [getFileName()] of [searchResultItem.ts], for an item whose match
    has the file path [fsPath], and for an item without a match. *)
Definition getFileName (fsPath : option string) : string :=
  match fsPath with
  | None => ""
  | Some path =>
      orString (pop (JS.split "/" path))
        (orString (pop (JS.split "\" path)) path)
  end.

(** What [searchInDocument] keeps while it records matches. *)
Definition documentInvariant (document : TextDocument) (searchTerm : string)
  (lines : list string) (results : CategorizedResults) : Prop :=
  map fst (categories results) = allCategories /\
  totalMatches results = storedMatches (categories results) /\
  (forall category matches,
      In (category, matches) (categories results) ->
      Forall (recorded document searchTerm lines category) matches) /\
  resultsSearchTerm results = searchTerm /\
  searchedFiles results = 0 /\
  searchTime results = 0%Z.


(** A case-sensitive literal search, a document of two lines and the
    results of its search. *)
Definition sampleConfig : SearchConfiguration :=
  {| includePatterns := includePatterns DEFAULT_SEARCH_CONFIG;
     excludePatterns := excludePatterns DEFAULT_SEARCH_CONFIG;
     includeComments := true;
     includeStringLiterals := false;
     caseSensitive := true;
     useRegex := false;
     maxResultsPerCategory := 100 |}.

Definition sampleDocument : TextDocument :=
  {| documentUri := "a.ts";
     documentLanguageId := "typescript";
     documentText :=
       ("import total from 'm';" ++ String newline "const total = 1;")%string
  |}.

Definition sampleResults : CategorizedResults :=
  match
    searchInDocument rejectingHost compiledEngine sampleDocument "total"
      sampleConfig
  with
  | Ok results => results
  | Throw _ => emptyResults "total"
  end.

(* ================================================================== *)
(** * Properties of the string primitives *)

Lemma trimStart_cases (s : string) :
  JS.trimStart s = EmptyString \/
  exists c s', JS.trimStart s = String c s' /\ JS.isWhiteSpace c = false.
Proof.
  induction s as [|c s IH]; simpl.
  - now left.
  - destruct (JS.isWhiteSpace c) eqn:Hc.
    + exact IH.
    + right. now exists c, s.
Qed.

Lemma trimEnd_keeps_head (c : ascii) (s : string) :
  JS.isWhiteSpace c = false ->
  exists t, JS.trimEnd (String c s) = String c t.
Proof.
  intros Hc. simpl. destruct (JS.trimEnd s) as [|d t].
  - rewrite Hc. now exists EmptyString.
  - now exists (String d t).
Qed.

(** A trimmed string does not start with white space. *)
Lemma trimStart_trim (s : string) : JS.trimStart (JS.trim s) = JS.trim s.
Proof.
  unfold JS.trim.
  destruct (trimStart_cases s) as [E | (c & s' & E & Hc)]; rewrite E.
  - reflexivity.
  - destruct (trimEnd_keeps_head c s' Hc) as [t Ht]. rewrite Ht.
    simpl. now rewrite Hc.
Qed.

(* ================================================================== *)
(** * The classifier: priority of the context flags *)

(** C2. Whenever [context.isInComment] holds, [categorizeMatch] returns
    [COMMENT], whatever the other arguments and the other fields of the
    context; and when [context.isInComment] is false and
    [context.isInString] holds, it returns [STRING_LITERAL]. *)
Theorem categorizeMatch_flag_priority
  (host : string -> result (string -> bool))
  (lineText : string) (columnIndex : Z) (searchTerm : string)
  (context : MatchContext.t) (allLines : list string) (lineNumber : Z)
  (languageId : string) :
  (MatchContext.isInComment context = true ->
   categorizeMatch host lineText columnIndex searchTerm context allLines
     lineNumber languageId = Ok COMMENT)
  /\
  (MatchContext.isInComment context = false ->
   MatchContext.isInString context = true ->
   categorizeMatch host lineText columnIndex searchTerm context allLines
     lineNumber languageId = Ok STRING_LITERAL).
Proof.
  unfold categorizeMatch. split.
  - intros ->. reflexivity.
  - intros -> ->. reflexivity.
Qed.

Lemma categorizeMatch_flag_priority_witness :
  (MatchContext.isInComment (flaggedContext true true) = true ->
   categorizeMatch rejectingHost "x = 'a // b'" 9 "b"
     (flaggedContext true true) ["x = 'a // b'"] 0 "typescriptreact"
   = Ok COMMENT)
  /\
  (MatchContext.isInComment (flaggedContext false true) = false ->
   MatchContext.isInString (flaggedContext false true) = true ->
   categorizeMatch rejectingHost "x = 'a(b'" 6 "("
     (flaggedContext false true) ["x = 'a(b'"] 0 "typescriptreact"
   = Ok STRING_LITERAL).
Proof.
  split.
  - apply (categorizeMatch_flag_priority rejectingHost "x = 'a // b'" 9 "b"
             (flaggedContext true true) ["x = 'a // b'"] 0 "typescriptreact").
  - apply (categorizeMatch_flag_priority rejectingHost "x = 'a(b'" 6 "("
             (flaggedContext false true) ["x = 'a(b'"] 0 "typescriptreact").
Defined.

(* ================================================================== *)
(** * The classifier: the function-call branch *)

Lemma isFunctionDefinition_false_paren
  (line searchTerm beforeMatch afterMatch languageId : string) :
  isFunctionDefinition line searchTerm beforeMatch afterMatch languageId
  = false ->
  JS.startsWith afterMatch "(" = false.
Proof.
  unfold isFunctionDefinition.
  destruct (JS.startsWith afterMatch "("); [discriminate | reflexivity].
Qed.

(** The function-call test on a trimmed text is the parenthesis check of
    the function-definition test. *)
Lemma isFunctionCall_trim (line searchTerm text : string) :
  isFunctionCall line searchTerm (JS.trim text)
  = JS.startsWith (JS.trim text) "(".
Proof. unfold isFunctionCall. now rewrite trimStart_trim. Qed.

(** C9. [categorizeMatch] never returns [FUNCTION_CALL]: the text after
    the match is trimmed at entry, so the function-call test succeeds only
    if the parenthesis check of the function-definition test, run earlier,
    already did. *)
Theorem categorizeMatch_never_function_call
  (host : string -> result (string -> bool))
  (lineText : string) (columnIndex : Z) (searchTerm : string)
  (context : MatchContext.t) (allLines : list string) (lineNumber : Z)
  (languageId : string) :
  categorizeMatch host lineText columnIndex searchTerm context allLines
    lineNumber languageId <> Ok FUNCTION_CALL.
Proof.
  unfold categorizeMatch.
  destruct (MatchContext.isInComment context); [discriminate|].
  destruct (MatchContext.isInString context); [discriminate|].
  destruct (isImportStatement _ _); [discriminate|].
  destruct (isExportStatement _ _); [discriminate|].
  destruct (isFunctionDefinition _ _ _ _ _) eqn:Hdef; [discriminate|].
  destruct (isVariableDeclaration _ _ _ _ _); [discriminate|].
  rewrite isFunctionCall_trim.
  rewrite (isFunctionDefinition_false_paren _ _ _ _ _ Hdef).
  destruct (isComponentUsage _ _ _ _) as [component|e]; simpl;
    [|discriminate].
  destruct component; [discriminate|].
  destruct (isTypeDefinition _ _ _ _); [discriminate|].
  destruct (isInterfaceDefinition _ _ _ _); [discriminate|].
  destruct (isClassDefinition _ _ _ _); [discriminate|].
  destruct (isPropertyAccess _ _ _ _); [discriminate|].
  destruct (isVariableUsage _ _ _ _); discriminate.
Qed.

(* ================================================================== *)
(** * The string detector *)

Lemma charIs_spec (s : string) (i : nat) (c : ascii) :
  JS.charIs s i c = true <-> String.get i s = Some c.
Proof.
  unfold JS.charIs. destruct (String.get i s) as [d|].
  - rewrite Ascii.eqb_eq. split; congruence.
  - split; discriminate.
Qed.

Lemma charIs_false (s : string) (i : nat) (c : ascii) :
  JS.charIs s i c = false <-> String.get i s <> Some c.
Proof.
  rewrite <- charIs_spec. destruct (JS.charIs s i c); split; congruence.
Qed.

Lemma countedQuoteb_spec (line : string) (quote : ascii) (column : Z)
  (i : nat) :
  countedQuoteb line quote column i = true <-> countedQuote line quote column i.
Proof.
  unfold countedQuoteb, countedQuote.
  rewrite !andb_true_iff, orb_true_iff, negb_true_iff, Z.ltb_lt,
    Nat.eqb_eq, charIs_spec, charIs_false.
  tauto.
Qed.

Lemma take_length (n : nat) (s : string) :
  length (JS.take n s) = Nat.min n (length s).
Proof.
  revert s. induction n as [|n IH]; intros [|c s]; simpl; auto.
Qed.

Lemma get_take (n i : nat) (s : string) :
  i < n -> String.get i (JS.take n s) = String.get i s.
Proof.
  revert i s. induction n as [|n IH]; intros i s Hi; [lia|].
  destruct s as [|c s]; [reflexivity|].
  destruct i as [|i]; simpl; [reflexivity|]. apply IH. lia.
Qed.

Lemma get_beyond (i : nat) (s : string) :
  length s <= i -> String.get i s = None.
Proof.
  revert i. induction s as [|c s IH]; intros i Hi; [reflexivity|].
  destruct i as [|i]; simpl in *; [lia|]. apply IH. lia.
Qed.

Lemma substring_0 (s : string) (b : Z) :
  JS.substring s 0 b = JS.take (JS.clamp s b) s.
Proof.
  unfold JS.substring.
  replace (JS.clamp s 0) with 0 by reflexivity.
  rewrite Nat.min_0_l, Nat.max_0_l, Nat.sub_0_r.
  now destruct s.
Qed.

(** The test the loop of [isInString] applies to [quote] at index [i]. *)
Lemma step_test_take (n : nat) (line : string) (quote : ascii) (i : nat) :
  i < n ->
  JS.charIs (JS.take n line) i quote && notEscaped (JS.take n line) i
  = JS.charIs line i quote
    && ((i =? 0) || negb (JS.charIs line (i - 1) backslash)).
Proof.
  intros Hi. unfold notEscaped, JS.charIs.
  rewrite (get_take n i line Hi).
  destruct (Nat.eqb_spec i 0) as [->|Hne]; [reflexivity|].
  rewrite (get_take n (i - 1) line) by lia. reflexivity.
Qed.

(** The loop adds to each counter the number of indices its test
    accepts. *)
Lemma isInString_fold (b : string) (l : list nat) (q : quoteCounts) :
  let hits quote :=
    List.length
      (filter (fun i => JS.charIs b i quote && notEscaped b i) l) in
  fold_left (isInString_step b) l q
  = {| singleQuotes := singleQuotes q + hits singleQuote;
       doubleQuotes := doubleQuotes q + hits doubleQuote;
       backticks := backticks q + hits backtick |}.
Proof.
  cbv zeta. revert q. induction l as [|i l IH]; intros q; simpl.
  - destruct q; simpl. now rewrite !Nat.add_0_r.
  - rewrite IH. clear IH. unfold isInString_step.
    assert (Hx : forall c d, c <> d ->
              JS.charIs b i c = true -> JS.charIs b i d = false).
    { intros c d Hcd Hc. apply charIs_false. apply charIs_spec in Hc.
      congruence. }
    destruct (JS.charIs b i singleQuote) eqn:H1.
    + rewrite (Hx singleQuote doubleQuote), (Hx singleQuote backtick)
        by (assumption || discriminate).
      destruct (notEscaped b i); simpl; f_equal; lia.
    + destruct (JS.charIs b i doubleQuote) eqn:H2.
      * rewrite (Hx doubleQuote backtick) by (assumption || discriminate).
        destruct (notEscaped b i); simpl; f_equal; lia.
      * destruct (JS.charIs b i backtick) eqn:H3;
          destruct (notEscaped b i); simpl; f_equal; lia.
Qed.

(** Counting over the prefix is counting over the line the indices before
    the column. *)
Lemma filter_prefix (line : string) (quote : ascii) (column : Z) :
  let n := JS.clamp line column in
  filter (fun i => JS.charIs (JS.take n line) i quote
                   && notEscaped (JS.take n line) i) (seq 0 n)
  = filter (countedQuoteb line quote column) (seq 0 (length line)).
Proof.
  cbv zeta. set (n := JS.clamp line column).
  assert (Hn : n <= length line) by (unfold n, JS.clamp; lia).
  replace (length line) with (n + (length line - n)) by lia.
  rewrite seq_app, filter_app. simpl.
  assert (Hout : filter (countedQuoteb line quote column)
                   (seq n (length line - n)) = []).
  { rewrite <- (filter_false (seq n (length line - n))).
    apply filter_ext_in. intros i Hi. apply in_seq in Hi.
    unfold countedQuoteb.
    destruct (Z.ltb_spec (Z.of_nat i) column) as [Hlt|]; [|reflexivity].
    exfalso. unfold n, JS.clamp in *. lia. }
  rewrite Hout, app_nil_r.
  apply filter_ext_in. intros i Hi. apply in_seq in Hi.
  rewrite (step_test_take n line quote i) by lia.
  unfold countedQuoteb.
  destruct (Z.ltb_spec (Z.of_nat i) column) as [|Hge]; [reflexivity|].
  exfalso. unfold n, JS.clamp in *. lia.
Qed.

Lemma isInString_counts_spec (line : string) (column : Z) :
  isInString_counts (JS.substring line 0 column)
  = {| singleQuotes := quoteCount line singleQuote column;
       doubleQuotes := quoteCount line doubleQuote column;
       backticks := quoteCount line backtick column |}.
Proof.
  unfold isInString_counts, quoteCount.
  rewrite substring_0, isInString_fold. simpl.
  rewrite take_length.
  replace (Nat.min (JS.clamp line column) (length line))
    with (JS.clamp line column) by (unfold JS.clamp; lia).
  now rewrite !filter_prefix.
Qed.

Lemma mod2_odd (n : nat) : (n mod 2 =? 1) = true <-> Nat.Odd n.
Proof.
  rewrite <- Nat.odd_spec, <- Nat.bit0_mod, Nat.bit0_odd.
  now destruct (Nat.odd n).
Qed.

(** The counter of a quote is the number of its counted occurrences: an
    index is counted exactly when [countedQuote] holds of it. *)
Lemma quoteCount_counts (line : string) (quote : ascii) (column : Z) :
  exists counted : list nat,
    NoDup counted /\
    (forall i, In i counted <-> countedQuote line quote column i) /\
    quoteCount line quote column = List.length counted.
Proof.
  exists (filter (countedQuoteb line quote column) (seq 0 (length line))).
  split; [|split].
  - apply NoDup_filter, seq_NoDup.
  - intros i. rewrite filter_In, in_seq, countedQuoteb_spec.
    split; [tauto|]. intros H. split; [|exact H].
    destruct H as (_ & Hget & _).
    assert (i < length line); [|lia].
    destruct (Nat.lt_ge_cases i (length line)) as [|Hge]; [assumption|].
    rewrite (get_beyond i line Hge) in Hget. discriminate.
  - reflexivity.
Qed.

(** C4. [isInString(line, column)] holds exactly when one of three
    counters is odd; the counter of a quote character (single quote,
    double quote, backtick) counts the indices strictly below [column]
    that hold that character not immediately preceded by a backslash,
    index 0 always counting.  Nothing records which quote is open. *)
Theorem isInString_parity (line : string) (column : Z) :
  (forall quote : ascii,
      exists counted : list nat,
        NoDup counted /\
        (forall i, In i counted <-> countedQuote line quote column i) /\
        quoteCount line quote column = List.length counted)
  /\
  (isInString line column = true <->
   Nat.Odd (quoteCount line singleQuote column) \/
   Nat.Odd (quoteCount line doubleQuote column) \/
   Nat.Odd (quoteCount line backtick column)).
Proof.
  split.
  - intros quote. apply quoteCount_counts.
  - unfold isInString. rewrite isInString_counts_spec.
    cbn [singleQuotes doubleQuotes backticks].
    rewrite !orb_true_iff, !mod2_odd. tauto.
Qed.

(** C6, as the code behaves. Column 15 of the line lies after the closing
    quote, so two single quotes precede it and [isInString] is false
    there, as it is at column 5; it is true at the columns 11 to 14,
    inside the literal. *)
Theorem isInString_example_columns :
  isInString "const x = 'a,b';" 15 = false /\
  isInString "const x = 'a,b';" 5 = false /\
  isInString "const x = 'a,b';" 11 = true /\
  isInString "const x = 'a,b';" 12 = true /\
  isInString "const x = 'a,b';" 13 = true /\
  isInString "const x = 'a,b';" 14 = true.
Proof. repeat split; reflexivity. Qed.

(** C6 as stated fails: [isInString] is not true at column 15. *)
Lemma isInString_example_counterexample :
  ~ (isInString "const x = 'a,b';" 15 = true /\
     isInString "const x = 'a,b';" 5 = false).
Proof. intros [H _]. vm_compute in H. discriminate. Qed.

(* ================================================================== *)
(** * Occurrences of a substring *)

Lemma append_assoc (a b c : string) :
  ((a ++ b) ++ c = a ++ (b ++ c))%string.
Proof. induction a as [|x a IH]; simpl; [reflexivity | now rewrite IH]. Qed.

Lemma append_length (a b : string) :
  length (a ++ b)%string = length a + length b.
Proof. induction a as [|x a IH]; simpl; [reflexivity | now rewrite IH]. Qed.

Lemma take_drop (n : nat) (s : string) :
  (JS.take n s ++ JS.drop n s)%string = s.
Proof.
  revert s. induction n as [|n IH]; intros [|c s]; simpl; try reflexivity.
  now rewrite IH.
Qed.

Lemma drop_length (n : nat) (s : string) :
  length (JS.drop n s) = length s - n.
Proof.
  revert s. induction n as [|n IH]; intros [|c s]; simpl; auto.
Qed.

Lemma take_all (n : nat) (s : string) : length s <= n -> JS.take n s = s.
Proof.
  revert s. induction n as [|n IH]; intros [|c s] H; simpl in *;
    try reflexivity; try lia.
  rewrite IH by lia. reflexivity.
Qed.

Lemma take_append (n : nat) (a b : string) :
  length a <= n ->
  JS.take n (a ++ b)%string = (a ++ JS.take (n - length a) b)%string.
Proof.
  revert n. induction a as [|x a IH]; intros n H; simpl in *.
  - now rewrite Nat.sub_0_r.
  - destruct n as [|n]; [lia|]. simpl. rewrite IH by lia. reflexivity.
Qed.

Lemma drop_append (n : nat) (a b : string) :
  n <= length a ->
  JS.drop n (a ++ b)%string = (JS.drop n a ++ b)%string.
Proof.
  revert n. induction a as [|x a IH]; intros n H; simpl in *.
  - replace n with 0 by lia. now destruct b.
  - destruct n as [|n]; [reflexivity|]. simpl. apply IH. lia.
Qed.

Lemma substringFrom_drop (s : string) (a : Z) :
  JS.substringFrom s a = JS.drop (JS.clamp s a) s.
Proof.
  unfold JS.substringFrom, JS.substring.
  assert (Hlen : JS.clamp s (Z.of_nat (length s)) = length s)
    by (unfold JS.clamp; lia).
  assert (Ha : JS.clamp s a <= length s) by (unfold JS.clamp; lia).
  rewrite Hlen.
  rewrite Nat.min_l, Nat.max_r by assumption.
  apply take_all. rewrite drop_length. lia.
Qed.

Lemma startsWith_spec (s p : string) :
  JS.startsWith s p = true <-> exists post, s = (p ++ post)%string.
Proof.
  revert s. induction p as [|a p IH]; intros s.
  - split; [intros _; now exists s | now destruct s].
  - destruct s as [|b s]; simpl.
    + split; [discriminate | intros [post H]; discriminate].
    + rewrite andb_true_iff, Ascii.eqb_eq, IH. split.
      * intros [-> [post ->]]. now exists post.
      * intros [post H]. injection H as -> ->. split; [reflexivity|].
        now exists post.
Qed.

Lemma occursAt_0 (p s : string) :
  occursAt p s 0 <-> JS.startsWith s p = true.
Proof.
  rewrite startsWith_spec. unfold occursAt. split.
  - intros (pre & post & -> & Hlen). destruct pre; [|discriminate].
    now exists post.
  - intros [post ->]. now exists EmptyString, post.
Qed.

Lemma occursAt_S (p : string) (c : ascii) (s : string) (k : nat) :
  occursAt p (String c s) (S k) <-> occursAt p s k.
Proof.
  unfold occursAt. split.
  - intros (pre & post & H & Hlen). destruct pre as [|d pre]; [discriminate|].
    simpl in *. injection H as -> ->. exists pre, post. split; congruence.
  - intros (pre & post & -> & Hlen). exists (String c pre), post.
    simpl. split; congruence.
Qed.

Lemma occursAt_empty (p : string) (k : nat) :
  occursAt p EmptyString k -> k = 0.
Proof.
  intros (pre & post & H & Hlen). destruct pre; [now subst | discriminate].
Qed.

Lemma occursAt_bound (p s : string) (k : nat) :
  occursAt p s k -> k + length p <= length s.
Proof.
  intros (pre & post & -> & <-). rewrite !append_length. lia.
Qed.

Lemma occursAt_take (p s : string) (n k : nat) :
  occursAt p (JS.take n s) k <-> occursAt p s k /\ k + length p <= n.
Proof.
  split.
  - intros H. split.
    + destruct H as (pre & post & H & Hlen).
      exists pre, (post ++ JS.drop n s)%string. split; [|assumption].
      rewrite <- (take_drop n s) at 1. rewrite H.
      now rewrite !append_assoc.
    + apply occursAt_bound in H. rewrite take_length in H. lia.
  - intros [(pre & post & -> & <-) Hn].
    exists pre, (JS.take (n - length pre - length p) post). split; [|reflexivity].
    rewrite take_append by lia. f_equal.
    rewrite take_append by lia. reflexivity.
Qed.

Lemma occursAt_drop (p s : string) (n k : nat) :
  n <= length s ->
  occursAt p (JS.drop n s) k <-> occursAt p s (n + k).
Proof.
  intros Hn. split.
  - intros (pre & post & H & <-).
    exists (JS.take n s ++ pre)%string, post. split.
    + rewrite append_assoc, <- H. symmetry. apply take_drop.
    + rewrite append_length, take_length. lia.
  - intros (pre & post & -> & Hlen).
    exists (JS.drop n pre), post. split.
    + apply drop_append. lia.
    + rewrite drop_length. lia.
Qed.

(** [indexOf] finds the first occurrence, and returns [-1] only when there
    is none. *)
Lemma indexOfFrom_spec (p s : string) (i : Z) :
  (JS.indexOfFrom s p i = (-1)%Z /\ forall k, ~ occursAt p s k) \/
  (exists k, JS.indexOfFrom s p i = (i + Z.of_nat k)%Z /\
             firstOccurrence p s k).
Proof.
  intros. revert i. induction s as [|c s IH]; intros i.
  - cbn [JS.indexOfFrom]. destruct (JS.startsWith EmptyString p) eqn:Hp.
    + right. exists 0. split; [lia|]. split; [now apply occursAt_0 | lia].
    + left. split; [reflexivity|]. intros k Hk.
      pose proof (occursAt_empty _ _ Hk) as ->.
      apply occursAt_0 in Hk. congruence.
  - cbn [JS.indexOfFrom].
    destruct (JS.startsWith (String c s) p) eqn:Hp.
    + right. exists 0. split; [lia|]. split; [now apply occursAt_0 | lia].
    + destruct (IH (i + 1)%Z) as [[E Hno] | (k & E & Hocc & Hfirst)].
      * left. split; [assumption|]. intros [|k] Hk.
        -- apply occursAt_0 in Hk. congruence.
        -- apply occursAt_S in Hk. now apply (Hno k).
      * right. exists (S k). split; [lia|]. split.
        -- now apply occursAt_S.
        -- intros [|j] Hj Hocc'.
           ++ apply occursAt_0 in Hocc'. congruence.
           ++ apply occursAt_S in Hocc'. apply (Hfirst j); [lia | assumption].
Qed.

Lemma firstOccurrence_unique (p s : string) (j k : nat) :
  firstOccurrence p s j -> firstOccurrence p s k -> j = k.
Proof.
  intros [Hj Hjmin] [Hk Hkmin].
  destruct (Nat.lt_trichotomy j k) as [H | [H | H]]; [|assumption|].
  - now destruct (Hkmin j H).
  - now destruct (Hjmin k H).
Qed.

Lemma indexOf_found (p s : string) :
  JS.indexOf s p <> (-1)%Z <-> exists k, occursAt p s k.
Proof.
  unfold JS.indexOf.
  destruct (indexOfFrom_spec p s 0) as [[E Hno] | (k & E & Hocc & _)];
    rewrite E.
  - split; [congruence | intros [k Hk]; now destruct (Hno k)].
  - split; [intros _; now exists k | lia].
Qed.

Lemma lastIndexOfFrom_spec (p s : string) (i : Z) :
  (0 <= i)%Z ->
  (JS.lastIndexOfFrom s p i = (-1)%Z /\ forall k, ~ occursAt p s k) \/
  ((i <= JS.lastIndexOfFrom s p i)%Z /\ exists k, occursAt p s k).
Proof.
  revert i. induction s as [|c s IH]; intros i Hi.
  - simpl. destruct p as [|a p]; simpl.
    + right. split; [lia|]. exists 0. now apply occursAt_0.
    + left. split; [reflexivity|]. intros k Hk.
      pose proof (occursAt_empty _ _ Hk) as ->. apply occursAt_0 in Hk.
      discriminate.
  - cbn [JS.lastIndexOfFrom].
    destruct (IH (i + 1)%Z ltac:(lia)) as [[E Hno] | [Hle (k & Hk)]].
    + rewrite E. simpl Z.eqb. cbv iota.
      destruct (JS.startsWith (String c s) p) eqn:Hp.
      * right. split; [lia|]. exists 0. now apply occursAt_0.
      * left. split; [reflexivity|]. intros [|k] Hk.
        -- apply occursAt_0 in Hk. congruence.
        -- apply occursAt_S in Hk. now apply (Hno k).
    + destruct (Z.eqb_spec (JS.lastIndexOfFrom s p (i + 1)) (-1)) as [E|_];
        [lia|].
      right. split; [lia|]. exists (S k). now apply occursAt_S.
Qed.

Lemma lastIndexOf_found (p s : string) :
  JS.lastIndexOf s p <> (-1)%Z <-> exists k, occursAt p s k.
Proof.
  unfold JS.lastIndexOf.
  destruct (lastIndexOfFrom_spec p s 0 ltac:(lia))
    as [[E Hno] | [Hle Hk]].
  - rewrite E. split; [congruence | intros [k Hk]; now destruct (Hno k)].
  - split; [intros _; assumption | lia].
Qed.

(* ================================================================== *)
(** * The comment detector *)

Lemma lineComment_test (line : string) (column : Z) :
  negb (JS.indexOf line "//" =? -1)%Z && (JS.indexOf line "//" <=? column)%Z
  = true
  <-> exists k, firstOccurrence "//" line k /\ (Z.of_nat k <= column)%Z.
Proof.
  rewrite andb_true_iff, negb_true_iff, Z.eqb_neq, Z.leb_le.
  unfold JS.indexOf.
  destruct (indexOfFrom_spec "//" line 0) as [[E Hno] | (k & E & Hfirst)];
    rewrite E.
  - split; [intros [H _]; congruence|].
    intros (k & [Hocc _] & _). now destruct (Hno k).
  - split.
    + intros [_ Hle]. exists k. split; [assumption | lia].
    + intros (j & Hj & Hle). rewrite (firstOccurrence_unique _ _ _ _ Hfirst Hj).
      lia.
Qed.

Lemma blockStart_test (line : string) (column : Z) :
  JS.lastIndexOf (JS.substring line 0 column) "/*" <> (-1)%Z
  <-> exists k, occursAt "/*" line k /\ (Z.of_nat k + 2 <= column)%Z.
Proof.
  rewrite lastIndexOf_found, substring_0. unfold JS.clamp.
  split; intros (k & Hk).
  - apply occursAt_take in Hk. destruct Hk as [Hocc Hn].
    exists k. simpl in Hn. split; [assumption | lia].
  - destruct Hk as [Hocc Hle]. exists k. apply occursAt_take.
    split; [assumption|].
    apply occursAt_bound in Hocc. simpl in *. lia.
Qed.

Lemma blockEnd_test (line : string) (column : Z) :
  JS.indexOf (JS.substringFrom line column) "*/" <> (-1)%Z
  <-> exists k, occursAt "*/" line k /\ (column <= Z.of_nat k)%Z.
Proof.
  rewrite indexOf_found, substringFrom_drop.
  assert (Hn : JS.clamp line column <= length line)
    by (unfold JS.clamp; lia).
  split.
  - intros (k & Hk). apply (occursAt_drop _ _ _ _ Hn) in Hk.
    exists (JS.clamp line column + k). split; [assumption|].
    apply occursAt_bound in Hk. unfold JS.clamp in *. simpl in Hk. lia.
  - intros (k & Hocc & Hle).
    exists (k - JS.clamp line column). apply (occursAt_drop _ _ _ _ Hn).
    replace (JS.clamp line column + (k - JS.clamp line column)) with k;
      [assumption|].
    unfold JS.clamp. lia.
Qed.

(** C3. [isInComment(line, column)] holds exactly when (1) the first
    occurrence of [//] in the line starts at or before [column], or
    (2) [/*] occurs wholly within the characters before [column] and [*/]
    occurs within the characters from [column] on, or (3) the trimmed line
    starts with [#].  Nothing else makes it hold; where the [//] sits with
    respect to string literals plays no part. *)
Theorem isInComment_iff (line : string) (column : Z) :
  isInComment line column = true <->
  (exists k, firstOccurrence "//" line k /\ (Z.of_nat k <= column)%Z) \/
  ((exists k, occursAt "/*" line k /\ (Z.of_nat k + 2 <= column)%Z) /\
   (exists k, occursAt "*/" line k /\ (column <= Z.of_nat k)%Z)) \/
  (exists rest, JS.trim line = String "#" rest).
Proof.
  rewrite <- lineComment_test, <- blockStart_test, <- blockEnd_test.
  assert (Hhash : JS.startsWith (JS.trim line) "#" = true <->
                  exists rest, JS.trim line = String "#" rest).
  { rewrite startsWith_spec. reflexivity. }
  rewrite <- Hhash. unfold isInComment.
  destruct (negb (JS.indexOf line "//" =? -1)%Z
            && (JS.indexOf line "//" <=? column)%Z).
  - split; [now left | reflexivity].
  - rewrite <- !Z.eqb_neq.
    destruct (JS.lastIndexOf (JS.substring line 0 column) "/*" =? -1)%Z;
      destruct (JS.indexOf (JS.substringFrom line column) "*/" =? -1)%Z;
      simpl;
      destruct (JS.startsWith (JS.trim line) "#");
      intuition congruence.
Qed.

(* ================================================================== *)
(** * The matcher: iteration never runs out of fuel *)

Lemma repeatGreedy_respectsSuffix (m : RegExp.matcher) (ns : list nat) :
  respectsSuffix m ->
  forall fuel, respectsSuffix (RegExp.repeatGreedy m ns fuel).
Proof.
  intros Hm. induction fuel as [|fuel IH]; intros rest caps k k' Hk; simpl.
  - apply Hk. lia.
  - rewrite (Hk rest caps) by lia. f_equal.
    apply Hm. intros rest' caps' Hlen.
    destruct (RegExp.progress rest rest'); [|reflexivity].
    apply IH. intros rest2 caps2 Hlen2. apply Hk. lia.
Qed.

Lemma single_respectsSuffix (ok : ascii -> bool) :
  respectsSuffix (RegExp.single ok).
Proof.
  intros rest caps k k' Hk. unfold RegExp.single.
  destruct rest as [|c rest]; [reflexivity|].
  destruct (ok c); [|reflexivity]. apply Hk. simpl. lia.
Qed.

Lemma rmatch_respectsSuffix (len : nat) (r : RegExp.regex) :
  respectsSuffix (RegExp.rmatch len r).
Proof.
  induction r as [ | c | | negated items | r1 IH1 r2 IH2 | r1 IH1 r2 IH2
                 | r1 IH1 | r1 IH1 | r1 IH1 | m r1 IH1 | | ];
    intros rest caps k k' Hk; cbn [RegExp.rmatch].
  - apply Hk. lia.
  - now apply single_respectsSuffix.
  - now apply single_respectsSuffix.
  - now apply single_respectsSuffix.
  - apply IH1. intros rest1 caps1 H1. apply IH2.
    intros rest2 caps2 H2. apply Hk. lia.
  - now rewrite (IH1 rest caps k k' Hk), (IH2 rest caps k k' Hk).
  - now apply repeatGreedy_respectsSuffix.
  - apply IH1. intros rest1 caps1 H1.
    apply (repeatGreedy_respectsSuffix _ _ IH1).
    intros rest2 caps2 H2. apply Hk. lia.
  - rewrite (Hk rest caps) by lia. f_equal. apply IH1.
    intros rest1 caps1 H1.
    destruct (RegExp.progress rest rest1); [|reflexivity]. now apply Hk.
  - apply IH1. intros rest1 caps1 H1. now apply Hk.
  - destruct (length rest =? len); [|reflexivity]. apply Hk. lia.
  - destruct rest; [|reflexivity]. apply Hk. simpl. lia.
Qed.

(** An iteration must consume a character, so the iterations from a text
    are at most its length: any two amounts of fuel above the length give
    the same answer.  The fuel [rmatch] passes is never exhausted. *)
Lemma repeatGreedy_fuel (m : RegExp.matcher) (ns : list nat) :
  respectsSuffix m ->
  forall fuel1 fuel2 rest caps k,
    length rest < fuel1 -> length rest < fuel2 ->
    RegExp.repeatGreedy m ns fuel1 rest caps k
    = RegExp.repeatGreedy m ns fuel2 rest caps k.
Proof.
  intros Hm. induction fuel1 as [|fuel1 IH];
    intros fuel2 rest caps k H1 H2; [lia|].
  destruct fuel2 as [|fuel2]; [lia|]. simpl. f_equal.
  apply Hm. intros rest' caps' Hlen. unfold RegExp.progress.
  destruct (Nat.ltb_spec (length rest') (length rest)); [|reflexivity].
  apply IH; lia.
Qed.

(* ================================================================== *)
(** * Capture groups that every match sets *)

Section Captures.

Variable n : nat.


Lemma has_clear (ns : list nat) (caps : RegExp.captures) :
  hasGroup n caps -> ~ In n ns -> hasGroup n (RegExp.clear ns caps).
Proof.
  unfold hasGroup. intros H Hn. induction caps as [|[m v] caps IH]; simpl in *.
  - assumption.
  - destruct (existsb (Nat.eqb m) ns) eqn:Hm; simpl.
    + destruct (Nat.eqb_spec m n) as [->|Hne]; [|now apply IH].
      exfalso. apply Hn. apply existsb_exists in Hm.
      destruct Hm as (x & Hx & Hxn). apply Nat.eqb_eq in Hxn. now subst.
    + destruct (m =? n); [discriminate | now apply IH].
Qed.

Lemma orElse_Some (x y : RegExp.answer) (a : string * RegExp.captures) :
  RegExp.orElse x y = Some a -> x = Some a \/ y = Some a.
Proof. destruct x; simpl; auto. Qed.

Lemma repeatGreedy_inv (m : RegExp.matcher) (sure : bool) (ns : list nat) :
  matcherSets n m sure ns ->
  forall fuel rest caps k a,
    RegExp.repeatGreedy m ns fuel rest caps k = Some a ->
    exists rest' caps',
      k rest' caps' = Some a /\
      (hasGroup n caps -> (~ In n ns \/ sure = true) -> hasGroup n caps').
Proof.
  intros Hm. induction fuel as [|fuel IH]; intros rest caps k a H; simpl in H.
  - now exists rest, caps.
  - apply orElse_Some in H. destruct H as [H | H]; [|now exists rest, caps].
    apply Hm in H. destruct H as (rest1 & caps1 & H & Hsure & Hkeep).
    destruct (RegExp.progress rest rest1); [|discriminate].
    apply IH in H. destruct H as (rest2 & caps2 & H & Hkeep2).
    exists rest2, caps2. split; [assumption|].
    intros Hcaps Hor. apply Hkeep2; [|assumption].
    destruct Hor as [Hn | Hs]; [|now apply Hsure].
    apply Hkeep; [|assumption]. now apply has_clear.
Qed.

Lemma single_inv (ok : ascii -> bool) :
  matcherSets n (RegExp.single ok) false [].
Proof.
  intros rest caps k a H. unfold RegExp.single in H.
  destruct rest as [|c rest]; [discriminate|].
  destruct (ok c); [|discriminate].
  exists rest, caps. split; [assumption|]. split; [discriminate | auto].
Qed.

Lemma not_in_existsb (x : nat) (l : list nat) :
  existsb (Nat.eqb x) l = false -> ~ In x l.
Proof.
  intros H Hin. assert (existsb (Nat.eqb x) l = true); [|congruence].
  apply existsb_exists. exists x. split; [assumption | apply Nat.eqb_refl].
Qed.

Lemma rmatch_inv (len : nat) (r : RegExp.regex) :
  matcherSets n (RegExp.rmatch len r) (alwaysSets n r) (RegExp.groupsOf r).
Proof.
  induction r as [ | c | | negated items | r1 IH1 r2 IH2 | r1 IH1 r2 IH2
                 | r1 IH1 | r1 IH1 | r1 IH1 | m r1 IH1 | | ];
    intros rest caps k a H; cbn [RegExp.rmatch] in H.
  - exists rest, caps. split; [assumption|]. split; [discriminate | auto].
  - apply single_inv in H. exact H.
  - apply single_inv in H. exact H.
  - apply single_inv in H. exact H.
  - apply IH1 in H. destruct H as (rest1 & caps1 & H & Hs1 & Hk1).
    apply IH2 in H. destruct H as (rest2 & caps2 & H & Hs2 & Hk2).
    exists rest2, caps2. split; [assumption|]. simpl. split.
    + rewrite orb_true_iff, andb_true_iff, negb_true_iff.
      intros [[Ha Hb] | Ha]; [|now apply Hs2].
      apply Hk2; [now apply Hs1 | now apply not_in_existsb].
    + intros Hc Hn. rewrite in_app_iff in Hn.
      apply Hk2; [apply Hk1|]; tauto.
  - apply orElse_Some in H. simpl.
    destruct H as [H | H]; [apply IH1 in H | apply IH2 in H];
      destruct H as (rest1 & caps1 & H & Hs & Hk);
      exists rest1, caps1; (split; [assumption|]);
      rewrite andb_true_iff, in_app_iff; split; tauto.
  - apply (repeatGreedy_inv _ _ _ IH1) in H.
    destruct H as (rest1 & caps1 & H & Hk).
    exists rest1, caps1. split; [assumption|]. simpl.
    split; [discriminate | auto].
  - apply IH1 in H. destruct H as (rest1 & caps1 & H & Hs1 & Hk1).
    apply (repeatGreedy_inv _ _ _ IH1) in H.
    destruct H as (rest2 & caps2 & H & Hk2).
    exists rest2, caps2. split; [assumption|]. simpl. split.
    + intros Hs. apply Hk2; [now apply Hs1 | now right].
    + intros Hc Hn. apply Hk2; [|now left].
      apply Hk1; [now apply has_clear | assumption].
  - apply orElse_Some in H. simpl. destruct H as [H | H].
    + apply IH1 in H. destruct H as (rest1 & caps1 & H & Hs1 & Hk1).
      destruct (RegExp.progress rest rest1); [|discriminate].
      exists rest1, caps1. split; [assumption|].
      split; [discriminate|]. intros Hc Hn.
      apply Hk1; [now apply has_clear | assumption].
    + exists rest, caps. split; [assumption|]. split; [discriminate | auto].
  - apply IH1 in H. destruct H as (rest1 & caps1 & H & Hs1 & Hk1).
    eexists rest1, _. split; [exact H|]. unfold hasGroup in *. simpl.
    destruct (Nat.eqb_spec m n) as [->|Hne]; simpl.
    + split; discriminate.
    + split; [assumption|]. intros Hc Hn. apply Hk1; tauto.
  - destruct (length rest =? len); [|discriminate].
    exists rest, caps. split; [assumption|]. split; [discriminate | auto].
  - destruct rest; [|discriminate].
    exists EmptyString, caps. split; [assumption|].
    split; [discriminate | auto].
Qed.

Lemma execFrom_sets (len : nat) (r : RegExp.regex) (rest : string)
  (m : RegExp.matchArray) :
  alwaysSets n r = true ->
  RegExp.execFrom len r rest = Some m ->
  RegExp.lookup n (RegExp.groups m) <> None.
Proof.
  intros Hsets. induction rest as [|c rest IH]; simpl;
    destruct (RegExp.rmatch len r _ [] _) as [[rest' caps]|] eqn:E;
    try discriminate; try assumption;
    intros [= <-]; simpl;
    apply rmatch_inv in E; destruct E as (rest1 & caps1 & [= <- <-] & Hs & _);
    now apply Hs.
Qed.

End Captures.

(** A group that every match of the pattern sets is defined in the array
    of a successful [match]. *)
Lemma exec_group_defined (n : nat) (r : RegExp.regex) (s : string)
  (m : RegExp.matchArray) :
  alwaysSets n r = true ->
  RegExp.exec r s = Some m ->
  exists text, RegExp.group m n = Some text.
Proof.
  intros Hsets H. destruct n as [|n]; simpl.
  - now exists (RegExp.matched m).
  - pose proof (execFrom_sets _ _ _ _ _ Hsets H) as Hdef. simpl in Hdef.
    destruct (RegExp.lookup (S n) (RegExp.groups m)) as [text|];
      [now exists text | congruence].
Qed.

(* ================================================================== *)
(** * The backward scans *)

Lemma getFunctionContext_loop_scanBack (fuel : nat) (allLines : list string)
  (i : Z) :
  getFunctionContext_loop fuel allLines i
  = scanBack getFunctionContext_body fuel allLines i.
Proof.
  revert i. induction fuel as [|fuel IH]; intros i; simpl; [reflexivity|].
  now rewrite IH.
Qed.

Lemma getClassContext_loop_scanBack (fuel : nat) (allLines : list string)
  (i : Z) :
  getClassContext_loop fuel allLines i
  = scanBack getClassContext_body fuel allLines i.
Proof.
  revert i. induction fuel as [|fuel IH]; intros i; simpl; [reflexivity|].
  now rewrite IH.
Qed.

Lemma arrayGet_in_range (allLines : list string) (i : Z) :
  (0 <= i < Z.of_nat (List.length allLines))%Z ->
  exists text, JS.arrayGet allLines i = Some text.
Proof.
  intros Hi. unfold JS.arrayGet.
  destruct (Z.ltb_spec i 0) as [|_]; [lia|].
  destruct (nth_error allLines (Z.to_nat i)) as [text|] eqn:E.
  - now exists text.
  - apply nth_error_None in E. lia.
Qed.

Section ScanBack.

Variable body : string -> option (option string).
Variable allLines : list string.

(** What a scan from index [i] returns: the verdict of [body] on the
    first line, going down, where it has one, or nothing when it has
    none on any line down to index 0. *)
Lemma scanBack_spec (fuel : nat) (i : Z) :
  (i < Z.of_nat (List.length allLines))%Z ->
  Z.to_nat (i + 1) < fuel ->
  exists r,
    scanBack body fuel allLines i = Some (Ok r) /\
    ((exists j text,
         (0 <= j <= i)%Z /\
         JS.arrayGet allLines j = Some text /\
         body (JS.trim text) = Some r /\
         forall j', (j < j' <= i)%Z ->
         forall text', JS.arrayGet allLines j' = Some text' ->
         body (JS.trim text') = None)
     \/
     (r = None /\
      forall j, (0 <= j <= i)%Z ->
      forall text, JS.arrayGet allLines j = Some text ->
      body (JS.trim text) = None)).
Proof.
  revert i. induction fuel as [|fuel IH]; intros i Hlen Hfuel; [lia|].
  simpl. destruct (Z.geb_spec i 0) as [Hi | Hi].
  - destruct (arrayGet_in_range allLines i ltac:(lia)) as [text Htext].
    rewrite Htext. destruct (body (JS.trim text)) as [name|] eqn:Hbody.
    + exists name. split; [reflexivity|]. left. exists i, text.
      repeat split; try assumption; try lia.
    + destruct (IH (i - 1)%Z ltac:(lia) ltac:(lia))
        as (r & Hr & [(j & textj & Hj & Hget & Hb & Hlater) | [-> Hnone]]).
      * exists r. split; [assumption|]. left. exists j, textj.
        repeat split; try assumption; try lia.
        intros j' Hj' text' Hget'.
        destruct (Z.eq_dec j' i) as [-> | Hne].
        -- congruence.
        -- apply (Hlater j'); [lia | assumption].
      * exists None. split; [assumption|]. right. split; [reflexivity|].
        intros j Hj textj Hget.
        destruct (Z.eq_dec j i) as [-> | Hne].
        -- congruence.
        -- apply (Hnone j); [lia | assumption].
  - exists None. split; [reflexivity|]. right. split; [reflexivity|]. lia.
Qed.

(** The fuel of [scanFuel] is enough, and more fuel changes nothing. *)
Lemma scanBack_fuel (fuel : nat) (i : Z) :
  (i < Z.of_nat (List.length allLines))%Z ->
  Z.to_nat (i + 1) < fuel ->
  scanBack body fuel allLines i = scanBack body (scanFuel i) allLines i.
Proof.
  revert i. induction fuel as [|fuel IH]; intros i Hlen Hfuel; [lia|].
  unfold scanFuel. simpl. destruct (Z.geb_spec i 0) as [Hi | Hi];
    [|reflexivity].
  destruct (JS.arrayGet allLines i) as [text|]; [|reflexivity].
  destruct (body (JS.trim text)); [reflexivity|].
  rewrite IH by lia. unfold scanFuel.
  replace (Z.to_nat (i + 1)) with (S (Z.to_nat (i - 1 + 1))) by lia.
  reflexivity.
Qed.

(** On every input, in range or not, the fuel of [scanFuel] lets the loop
    reach a [return] or a [throw]. *)
Lemma scanBack_returns (fuel : nat) (i : Z) :
  Z.to_nat (i + 1) < fuel ->
  exists r, scanBack body fuel allLines i = Some r.
Proof.
  revert i. induction fuel as [|fuel IH]; intros i Hfuel; [lia|].
  simpl. destruct (Z.geb_spec i 0) as [Hi | Hi]; [|now eexists].
  destruct (JS.arrayGet allLines i) as [text|]; [|now eexists].
  destruct (body (JS.trim text)); [now eexists|].
  apply IH. lia.
Qed.

End ScanBack.

Lemma includes_spec (s p : string) :
  JS.includes s p = true <-> contains p s.
Proof.
  unfold JS.includes, contains.
  rewrite negb_true_iff, Z.eqb_neq. apply indexOf_found.
Qed.

Lemma includes_false (s p : string) :
  JS.includes s p = false <-> ~ contains p s.
Proof.
  rewrite <- includes_spec. destruct (JS.includes s p); split; congruence.
Qed.

(** The iteration of [getFunctionContext] returns exactly on the lines
    that name a function, and returns the name. *)
Lemma getFunctionContext_body_Some (trimmed : string) (r : option string) :
  getFunctionContext_body trimmed = Some r ->
  exists name, r = Some name /\ functionLine trimmed name.
Proof.
  unfold getFunctionContext_body, functionLine.
  destruct (RegExp.exec (RE "^(async\s+)?function\s+(\w+)\s*\(") trimmed)
    as [m1|] eqn:E1.
  { intros [= <-].
    pose proof E1 as G; apply (exec_group_defined 2) in G; [|reflexivity].
    destruct G as [name Hname].
    exists name. split; [assumption|]. left. now exists m1. }
  destruct (RegExp.exec (RE "^(const|let|var)\s+(\w+)\s*=\s*.*=>") trimmed)
    as [m2|] eqn:E2.
  { intros [= <-].
    pose proof E2 as G; apply (exec_group_defined 2) in G; [|reflexivity].
    destruct G as [name Hname].
    exists name. split; [assumption|]. right. left.
    split; [reflexivity|]. now exists m2. }
  destruct (RegExp.exec (RE "^(\w+)\s*\(") trimmed) as [m3|] eqn:E3;
    [|discriminate].
  destruct (JS.includes trimmed "if") eqn:Hif; [discriminate|].
  destruct (JS.includes trimmed "for") eqn:Hfor; [discriminate|].
  destruct (JS.includes trimmed "while") eqn:Hwhile; [discriminate|].
  intros [= <-].
  pose proof E3 as G; apply (exec_group_defined 1) in G; [|reflexivity].
    destruct G as [name Hname].
  exists name. split; [assumption|]. right. right.
  apply includes_false in Hif, Hfor, Hwhile.
  repeat split; try assumption. now exists m3.
Qed.

Lemma getFunctionContext_body_None (trimmed : string) :
  getFunctionContext_body trimmed = None ->
  forall name, ~ functionLine trimmed name.
Proof.
  unfold getFunctionContext_body, functionLine.
  destruct (RegExp.exec (RE "^(async\s+)?function\s+(\w+)\s*\(") trimmed)
    as [m1|] eqn:E1; [discriminate|].
  destruct (RegExp.exec (RE "^(const|let|var)\s+(\w+)\s*=\s*.*=>") trimmed)
    as [m2|] eqn:E2; [discriminate|].
  destruct (RegExp.exec (RE "^(\w+)\s*\(") trimmed) as [m3|] eqn:E3.
  - intros H name
      [(m & [=] & _) | [(_ & m & [=] & _) | (_ & _ & _ & Hif & Hfor & Hwhile)]].
    apply includes_false in Hif, Hfor, Hwhile.
    rewrite Hif, Hfor, Hwhile in H. discriminate.
  - intros _ name
      [(m & [=] & _) | [(_ & m & [=] & _) | (_ & _ & (m & [=] & _) & _)]].
Qed.

Lemma getClassContext_body_Some (trimmed : string) (r : option string) :
  getClassContext_body trimmed = Some r ->
  exists name, r = Some name /\ classLine trimmed name.
Proof.
  unfold getClassContext_body, classLine.
  destruct (RegExp.exec _ trimmed) as [m|] eqn:E; [|discriminate].
  intros [= <-].
  pose proof E as G; apply (exec_group_defined 3) in G; [|reflexivity].
    destruct G as [name Hname].
  exists name. split; [assumption|]. now exists m.
Qed.

Lemma getClassContext_body_None (trimmed : string) :
  getClassContext_body trimmed = None -> forall name, ~ classLine trimmed name.
Proof.
  unfold getClassContext_body, classLine.
  destruct (RegExp.exec _ trimmed) as [m|] eqn:E; [discriminate|].
  intros _ name (m & [=] & _).
Qed.

Lemma scan_names (body : string -> option (option string))
  (names : string -> string -> Prop) (allLines : list string)
  (lineNumber : Z) (fuel : nat) :
  (forall t r, body t = Some r -> exists name, r = Some name /\ names t name) ->
  (forall t, body t = None -> forall name, ~ names t name) ->
  (0 <= lineNumber < Z.of_nat (List.length allLines))%Z ->
  Z.to_nat (lineNumber + 1) < fuel ->
  (exists j name,
      firstNamingLine names allLines lineNumber j name /\
      scanBack body fuel allLines lineNumber = Some (Ok (Some name)))
  \/
  (noNamingLine names allLines lineNumber /\
   scanBack body fuel allLines lineNumber = Some (Ok None)).
Proof.
  intros HSome HNone Hrange Hfuel.
  destruct (scanBack_spec body allLines fuel lineNumber ltac:(lia) Hfuel)
    as (r & Hr & [(j & text & Hj & Hget & Hb & Hlater) | [-> Hnone]]).
  - destruct (HSome _ _ Hb) as (name & -> & Hname).
    left. exists j, name. split; [|assumption].
    split; [assumption|]. split; [now exists text|].
    intros j' Hj' text' Hget'. apply HNone. now apply (Hlater j').
  - right. split; [|assumption].
    intros j Hj text Hget. apply HNone. now apply (Hnone j).
Qed.

(** C7. For a non-empty [allLines] and [0 <= lineNumber < length],
    [getFunctionContext] scans the indices from [lineNumber] down to 0 and
    returns the name captured on the first line (the highest index) whose
    trimmed text names a function: [function <name>(] after an optional
    [async], else [const|let|var <name> = ... =>], else [<name>(] on a
    line that contains none of [if], [for], [while], tried in that order;
    it returns nothing when no line down to 0 does.  In particular the
    scan from line 1 of [function foo() {], [return 1;], [}] returns
    [foo]. *)
Theorem getFunctionContext_first_match :
  (forall (allLines : list string) (lineNumber : Z),
      allLines <> [] ->
      (0 <= lineNumber < Z.of_nat (List.length allLines))%Z ->
      (exists j name,
          firstNamingLine functionLine allLines lineNumber j name /\
          getFunctionContext allLines lineNumber = Ok (Some name))
      \/
      (noNamingLine functionLine allLines lineNumber /\
       getFunctionContext allLines lineNumber = Ok None))
  /\
  getFunctionContext ["function foo() {"; "  return 1;"; "}"] 1
  = Ok (Some "foo").
Proof.
  split; [|reflexivity].
  intros allLines lineNumber _ Hrange.
  unfold getFunctionContext. rewrite getFunctionContext_loop_scanBack.
  destruct (scan_names getFunctionContext_body functionLine allLines
              lineNumber (scanFuel lineNumber)
              getFunctionContext_body_Some getFunctionContext_body_None
              Hrange ltac:(unfold scanFuel; lia))
    as [(j & name & Hfirst & ->) | [Hnone ->]].
  - left. now exists j, name.
  - right. now split.
Qed.

Lemma getFunctionContext_first_match_witness :
  ["function foo() {"; "  return 1;"; "}"] <> [] /\
  (0 <= 1 < Z.of_nat (List.length ["function foo() {"; "  return 1;"; "}"]))%Z /\
  ((exists j name,
       firstNamingLine functionLine ["function foo() {"; "  return 1;"; "}"]
         1 j name /\
       getFunctionContext ["function foo() {"; "  return 1;"; "}"] 1
       = Ok (Some name))
   \/
   (noNamingLine functionLine ["function foo() {"; "  return 1;"; "}"] 1 /\
    getFunctionContext ["function foo() {"; "  return 1;"; "}"] 1 = Ok None)).
Proof.
  split; [discriminate|]. split; [simpl; lia|].
  apply (proj1 getFunctionContext_first_match); [discriminate | simpl; lia].
Defined.

(** C10. For [0 <= lineNumber < length], the loops of [getFunctionContext]
    and [getClassContext] end: the index decreases by one at each
    iteration from [lineNumber] and the loop stops below 0, so any fuel
    above [lineNumber + 1] yields the result; and the result is a value,
    a name or nothing, never a thrown error. *)
Theorem backward_scans_terminate (allLines : list string) (lineNumber : Z) :
  (0 <= lineNumber < Z.of_nat (List.length allLines))%Z ->
  (exists r : option string,
      (forall fuel, Z.to_nat lineNumber + 1 < fuel ->
                    getFunctionContext_loop fuel allLines lineNumber
                    = Some (Ok r)) /\
      getFunctionContext allLines lineNumber = Ok r)
  /\
  (exists r : option string,
      (forall fuel, Z.to_nat lineNumber + 1 < fuel ->
                    getClassContext_loop fuel allLines lineNumber
                    = Some (Ok r)) /\
      getClassContext allLines lineNumber = Ok r).
Proof.
  intros Hrange.
  assert (Hfuel : Z.to_nat (lineNumber + 1) < scanFuel lineNumber)
    by (unfold scanFuel; lia).
  split.
  - destruct (scanBack_spec getFunctionContext_body allLines
                (scanFuel lineNumber) lineNumber ltac:(lia) Hfuel)
      as (r & Hr & _).
    exists r. split.
    + intros fuel Hf. rewrite getFunctionContext_loop_scanBack.
      rewrite scanBack_fuel by lia. exact Hr.
    + unfold getFunctionContext.
      now rewrite getFunctionContext_loop_scanBack, Hr.
  - destruct (scanBack_spec getClassContext_body allLines
                (scanFuel lineNumber) lineNumber ltac:(lia) Hfuel)
      as (r & Hr & _).
    exists r. split.
    + intros fuel Hf. rewrite getClassContext_loop_scanBack.
      rewrite scanBack_fuel by lia. exact Hr.
    + unfold getClassContext.
      now rewrite getClassContext_loop_scanBack, Hr.
Qed.

Lemma backward_scans_terminate_witness :
  (0 <= 1 < Z.of_nat (List.length ["class Bar {"; "  method() {}"; "}"]))%Z /\
  (exists r : option string,
      (forall fuel, Z.to_nat 1 + 1 < fuel ->
                    getFunctionContext_loop fuel
                      ["class Bar {"; "  method() {}"; "}"] 1
                    = Some (Ok r)) /\
      getFunctionContext ["class Bar {"; "  method() {}"; "}"] 1 = Ok r)
  /\
  (exists r : option string,
      (forall fuel, Z.to_nat 1 + 1 < fuel ->
                    getClassContext_loop fuel
                      ["class Bar {"; "  method() {}"; "}"] 1
                    = Some (Ok r)) /\
      getClassContext ["class Bar {"; "  method() {}"; "}"] 1 = Ok r).
Proof.
  split; [simpl; lia|].
  apply (backward_scans_terminate ["class Bar {"; "  method() {}"; "}"] 1).
  simpl; lia.
Defined.

(* ================================================================== *)
(** * The imported items *)

(** C8, as the code behaves. When the line has a named-import brace group
    the result is the comma-split, trimmed contents of the first such
    group, and the other two patterns are not consulted.  Otherwise the
    result holds the name the default-import pattern captures, when the
    line matches it, followed by the name the namespace-import pattern
    captures, when the line matches it: none, either or both.  The two
    examples of the specification hold. *)
Theorem extractImportedItems_branches :
  (forall line : string,
      (exists inner,
          namedImportGroup line inner /\
          extractImportedItems line = Ok (splitTrimmed inner))
      \/
      ((forall inner, ~ namedImportGroup line inner) /\
       exists items : list string,
         extractImportedItems line = Ok (map Some items) /\
         ((items = [] /\
           (forall x, ~ defaultImport line x) /\
           (forall x, ~ namespaceImport line x))
          \/ (exists d, items = [d] /\ defaultImport line d /\
                        forall x, ~ namespaceImport line x)
          \/ (exists n, items = [n] /\ namespaceImport line n /\
                        forall x, ~ defaultImport line x)
          \/ (exists d n, items = [d; n] /\ defaultImport line d /\
                          namespaceImport line n))))
  /\
  extractImportedItems "import { a, b } from 'm'" = Ok [Some "a"; Some "b"]
  /\
  extractImportedItems "import x from 'm'" = Ok [Some "x"].
Proof.
  split; [|split; reflexivity].
  intros line.
  unfold extractImportedItems, namedImportGroup, defaultImport,
    namespaceImport.
  destruct (RegExp.exec (RE "import\s*\{\s*([^}]+)\s*\}") line)
    as [m|] eqn:E.
  { left. pose proof E as G.
    apply (exec_group_defined 1) in G; [|reflexivity].
    destruct G as [inner Hinner]. exists inner. rewrite Hinner.
    split; [now exists m | reflexivity]. }
  right. split; [intros inner (m & [=] & _)|].
  destruct (RegExp.exec (RE "import\s+(\w+)\s+from") line)
    as [md|] eqn:Ed;
    destruct (RegExp.exec (RE "import\s+\*\s+as\s+(\w+)\s+from") line)
      as [mn|] eqn:En.
  - pose proof Ed as Gd. apply (exec_group_defined 1) in Gd; [|reflexivity].
    pose proof En as Gn. apply (exec_group_defined 1) in Gn; [|reflexivity].
    destruct Gd as [d Hd], Gn as [n Hn]. exists [d; n].
    rewrite Hd, Hn. split; [reflexivity|]. right. right. right.
    exists d, n. split; [reflexivity|]. split; [now exists md | now exists mn].
  - pose proof Ed as Gd. apply (exec_group_defined 1) in Gd; [|reflexivity].
    destruct Gd as [d Hd]. exists [d]. rewrite Hd.
    split; [reflexivity|]. right. left. exists d.
    split; [reflexivity|]. split; [now exists md|].
    intros x (m & [=] & _).
  - pose proof En as Gn. apply (exec_group_defined 1) in Gn; [|reflexivity].
    destruct Gn as [n Hn]. exists [n]. rewrite Hn.
    split; [reflexivity|]. right. right. left. exists n.
    split; [reflexivity|]. split; [now exists mn|].
    intros x (m & [=] & _).
  - exists []. split; [reflexivity|]. left.
    split; [reflexivity|]. split; intros x (m & [=] & _).
Qed.

(** C8 as stated fails: on a line with a default import and a namespace
    import, both patterns contribute. *)
Lemma extractImportedItems_counterexample :
  ~ oneBranchOnly "import a from 'x'; import * as b from 'y'".
Proof.
  assert (E : extractImportedItems "import a from 'x'; import * as b from 'y'"
              = Ok [Some "a"; Some "b"]) by reflexivity.
  intros [(inner & (m & Hm & _) & _) | (_ & [H | [(x & _ & H) | (x & _ & H)]])].
  - vm_compute in Hm. discriminate.
  - rewrite E in H. discriminate.
  - rewrite E in H. discriminate.
  - rewrite E in H. discriminate.
Qed.

(* ================================================================== *)
(** * The classifier on the examples of the specification *)

(** C5, as the code behaves. With both flags of the context false, the
    match of [value] at column 15 of [const total = x.value] in a
    [javascript] file is a [VARIABLE_DECLARATION]: the line starts with
    [const], and the variable-declaration test runs before the
    property-access test. *)
Theorem categorizeMatch_const_line
  (host : string -> result (string -> bool)) (context : MatchContext.t)
  (allLines : list string) (lineNumber : Z) :
  MatchContext.isInComment context = false ->
  MatchContext.isInString context = false ->
  categorizeMatch host "const total = x.value" 15 "value" context allLines
    lineNumber "javascript" = Ok VARIABLE_DECLARATION.
Proof.
  intros Hcomment Hstring. unfold categorizeMatch.
  rewrite Hcomment, Hstring. reflexivity.
Qed.

Lemma categorizeMatch_const_line_witness :
  MatchContext.isInComment plainContext = false /\
  MatchContext.isInString plainContext = false /\
  categorizeMatch rejectingHost "const total = x.value" 15 "value"
    plainContext ["const total = x.value"] 0 "javascript"
  = Ok VARIABLE_DECLARATION.
Proof.
  split; [reflexivity|]. split; [reflexivity|].
  apply (categorizeMatch_const_line rejectingHost plainContext
           ["const total = x.value"] 0); reflexivity.
Defined.

(** C5 as stated fails: the result is not [PROPERTY_ACCESS]. *)
Lemma categorizeMatch_const_line_counterexample :
  categorizeMatch rejectingHost "const total = x.value" 15 "value"
    plainContext ["const total = x.value"] 0 "javascript"
  <> Ok PROPERTY_ACCESS.
Proof. vm_compute. discriminate. Qed.

(* ================================================================== *)
(** * The classifier: totality *)

(** [categorizeMatch] returns a category unless the construction of a tag
    pattern from the search term throws. *)
Lemma categorizeMatch_total_or_throws
  (host : string -> result (string -> bool))
  (lineText : string) (columnIndex : Z) (searchTerm : string)
  (context : MatchContext.t) (allLines : list string) (lineNumber : Z)
  (languageId : string) :
  (exists category,
      categorizeMatch host lineText columnIndex searchTerm context allLines
        lineNumber languageId = Ok category)
  \/
  (exists e,
      isComponentUsage host (JS.trim lineText) searchTerm languageId
      = Throw e /\
      categorizeMatch host lineText columnIndex searchTerm context allLines
        lineNumber languageId = Throw e).
Proof.
  unfold categorizeMatch.
  repeat match goal with
         | |- context [if ?b then Ok _ else _] =>
             destruct b; [left; eexists; reflexivity|]
         end.
  destruct (isComponentUsage _ _ _ _) as [component|e]; simpl.
  - repeat match goal with
           | |- context [if ?b then Ok _ else _] =>
               destruct b; [left; eexists; reflexivity|]
           end.
    left. now exists OTHER.
  - right. now exists e.
Qed.

(** C1 on the code. A search for an opening parenthesis in a
    [typescriptreact] file: on the line [foo(bar)], with the context that
    [getMatchContext] computes for the match at column 3,
    [categorizeMatch] returns no category; building the tag pattern from
    the unescaped term throws a [SyntaxError] (unterminated group). *)
Theorem categorizeMatch_throws_on_unescaped_term
  (host : string -> result (string -> bool)) :
  exists context,
    getMatchContext "foo(bar)" 3 ["foo(bar)"] 0 = Ok context /\
    MatchContext.isInComment context = false /\
    MatchContext.isInString context = false /\
    categorizeMatch host "foo(bar)" 3 "(" context ["foo(bar)"] 0
      "typescriptreact" = Throw SyntaxError.
Proof.
  eexists. split; [reflexivity|]. repeat split.
Qed.

(** When no test of the chain succeeds, the result is [OTHER]. *)
Lemma categorizeMatch_other
  (host : string -> result (string -> bool))
  (lineText : string) (columnIndex : Z) (searchTerm : string)
  (context : MatchContext.t) (allLines : list string) (lineNumber : Z)
  (languageId : string) :
  let trimmedLine := JS.trim lineText in
  let beforeMatch := JS.trim (JS.substring lineText 0 columnIndex) in
  let afterMatch :=
    JS.trim (JS.substringFrom lineText
               (columnIndex + Z.of_nat (length searchTerm))) in
  MatchContext.isInComment context = false ->
  MatchContext.isInString context = false ->
  isImportStatement trimmedLine searchTerm = false ->
  isExportStatement trimmedLine searchTerm = false ->
  isFunctionDefinition trimmedLine searchTerm beforeMatch afterMatch
    languageId = false ->
  isVariableDeclaration trimmedLine searchTerm beforeMatch afterMatch
    languageId = false ->
  isComponentUsage host trimmedLine searchTerm languageId = Ok false ->
  isTypeDefinition trimmedLine searchTerm beforeMatch languageId = false ->
  isInterfaceDefinition trimmedLine searchTerm beforeMatch languageId
  = false ->
  isClassDefinition trimmedLine searchTerm beforeMatch languageId = false ->
  isPropertyAccess trimmedLine searchTerm beforeMatch afterMatch = false ->
  isVariableUsage trimmedLine searchTerm beforeMatch afterMatch = false ->
  categorizeMatch host lineText columnIndex searchTerm context allLines
    lineNumber languageId = Ok OTHER.
Proof.
  cbv zeta. intros Hc Hs Hi He Hd Hv Hu Ht Hn Hk Hp Hg.
  unfold categorizeMatch.
  rewrite Hc, Hs, Hi, He, Hd, Hv, isFunctionCall_trim,
    (isFunctionDefinition_false_paren _ _ _ _ _ Hd), Hu.
  simpl. now rewrite Ht, Hn, Hk, Hp, Hg.
Qed.

(* ================================================================== *)
(** * Examples *)

Example parse_method_pattern :
  RegExp.parse "^(\w+)\s*\("
  = RegExp.POk
      (RegExp.Seq RegExp.Bol
         (RegExp.Seq
            (RegExp.Group 1 (RegExp.Plus (RegExp.Class false [RegExp.CWord])))
            (RegExp.Seq (RegExp.Star (RegExp.Class false [RegExp.CSpace]))
               (RegExp.Char "(")))).
Proof. reflexivity. Qed.

Example parse_alternatives :
  RegExp.parse "a|b*|[^c-e]?"
  = RegExp.POk
      (RegExp.Alt (RegExp.Char "a")
         (RegExp.Alt (RegExp.Star (RegExp.Char "b"))
            (RegExp.Opt
               (RegExp.Class true [RegExp.CRange "c" "e"])))).
Proof. reflexivity. Qed.

Example parse_unterminated_group :
  RegExp.parse "<([\s/>]" = RegExp.PSyntaxError.
Proof. reflexivity. Qed.

Example parse_nothing_to_repeat : RegExp.parse "<*[\s/>]" <> RegExp.PSyntaxError
                                  /\ RegExp.parse "<+*[\s/>]" = RegExp.PSyntaxError.
Proof. split; [discriminate | reflexivity]. Qed.

Example parse_lookahead_unmodelled :
  RegExp.parse "<(?=a)[\s/>]" = RegExp.PUnmodelled.
Proof. reflexivity. Qed.

Example exec_greedy_backtracks :
  RegExp.exec (RE "^(const|let|var)\s+(\w+)\s*=\s*.*=>") "let f = (a) => a"
  = Some {| RegExp.matched := "let f = (a) =>";
            RegExp.groups := [(2, "f"); (1, "let")] |}.
Proof. reflexivity. Qed.

Example exec_leftmost :
  RegExp.exec (RE "import\s+(\w+)\s+from") "import a from 'x'; import b from 'y'"
  = Some {| RegExp.matched := "import a from"; RegExp.groups := [(1, "a")] |}.
Proof. reflexivity. Qed.

Example isInComment_line_comment : isInComment "// foo bar" 5 = true.
Proof. reflexivity. Qed.

Example isInComment_before_trailing :
  isInComment "let x = 5; // trailing" 3 = false.
Proof. reflexivity. Qed.

Example isInComment_in_trailing :
  isInComment "let x = 5; // trailing" 12 = true.
Proof. reflexivity. Qed.

Example isInComment_in_string_literal :
  isInComment "const u = 'http://a.b'; f(u)" 25 = true.
Proof. reflexivity. Qed.

Example getClassContext_example :
  getClassContext ["class Bar {"; "  method() {}"; "}"] 1 = Ok (Some "Bar").
Proof. reflexivity. Qed.

Example getFunctionContext_out_of_range :
  getFunctionContext ["function foo() {"; "  return 1;"; "}"] 3
  = Throw TypeError.
Proof. reflexivity. Qed.

Example categorizeMatch_function_definition :
  categorizeMatch rejectingHost "function doThing(x) {" 9 "doThing"
    plainContext ["function doThing(x) {"] 0 "javascript"
  = Ok FUNCTION_DEFINITION.
Proof. reflexivity. Qed.

Example categorizeMatch_component_usage :
  categorizeMatch rejectingHost "  <Panel title={t} />" 3 "Panel"
    plainContext ["  <Panel title={t} />"] 0 "typescriptreact"
  = Ok COMPONENT_USAGE.
Proof. reflexivity. Qed.

Example categorizeMatch_call_is_definition :
  categorizeMatch rejectingHost "  run(task);" 2 "run"
    plainContext ["  run(task);"] 0 "javascript"
  = Ok FUNCTION_DEFINITION.
Proof. reflexivity. Qed.

Example getSurroundingLines_clipped :
  getSurroundingLines ["a"; "b"; "c"; "d"] 0 2 = ["a"; "b"; "c"]
  /\ getSurroundingLines ["a"; "b"; "c"; "d"] 3 2 = ["b"; "c"; "d"].
Proof. split; reflexivity. Qed.

(* ================================================================== *)
(** * Tag patterns from an escaped search term *)

Lemma atomEscape_special (c : ascii) :
  isRegExpSpecial c = true -> RegExp.atomEscape c = RegExp.POk (RegExp.Char c).
Proof.
  unfold isRegExpSpecial. simpl. rewrite !orb_true_iff, !Ascii.eqb_eq.
  intros H. repeat destruct H as [H | H]; try (subst c; reflexivity).
  discriminate.
Qed.

(** The parser reads an escaped term as the sequence of its characters. *)
Lemma parseFrom_escaped (term tail : string) :
  forall fuel st,
    length (escapeRegExp term ++ tail)%string < fuel ->
    exists fuel',
      length tail < fuel' /\
      RegExp.parseFrom fuel (escapeRegExp term ++ tail)%string st
      = RegExp.parseFrom fuel' tail (pushChars term st).
Proof.
  induction term as [|c term IH]; intros fuel st Hfuel; simpl in *.
  - now exists fuel.
  - destruct (isRegExpSpecial c) eqn:Hc.
    + destruct fuel as [|fuel]; [lia|]. simpl in Hfuel.
      destruct (IH fuel (RegExp.addTerm st (RegExp.Char c) RegExp.LAtom)
                  ltac:(lia)) as (fuel' & Hlen & E).
      exists fuel'. split; [assumption|]. rewrite <- E.
      cbn [RegExp.parseFrom append]. simpl Ascii.eqb. cbv iota.
      now rewrite (atomEscape_special c Hc).
    + destruct fuel as [|fuel]; [lia|]. simpl in Hfuel.
      destruct (IH fuel (RegExp.addTerm st (RegExp.Char c) RegExp.LAtom)
                  ltac:(lia)) as (fuel' & Hlen & E).
      exists fuel'. split; [assumption|]. rewrite <- E.
      unfold isRegExpSpecial in Hc. simpl in Hc.
      rewrite !orb_false_iff in Hc.
      destruct Hc as (H1 & H2 & H3 & H4 & H5 & H6 & H7 & H8 & H9 & H10
                      & H11 & H12 & H13 & H14 & _).
      cbn [RegExp.parseFrom append].
      now rewrite H9, H10, H11, H2, H3, H4, H5, H6, H1, H12, H14, H7.
Qed.

Lemma pushChars_stack (term : string) (st : RegExp.pstate) :
  RegExp.stack (pushChars term st) = RegExp.stack st.
Proof.
  revert st. induction term as [|c term IH]; intros st; simpl;
    [reflexivity | now rewrite IH].
Qed.

(** Escaped as on the literal search path, a search term always yields
    tag patterns that compile. *)
Lemma newRegExp_escaped (host : string -> result (string -> bool))
  (term : string) :
  (exists r, newRegExp host ("<" ++ escapeRegExp term ++ "[\s/>]")%string
             = Ok (Compiled r))
  /\
  (exists r, newRegExp host ("</" ++ escapeRegExp term ++ ">")%string
             = Ok (Compiled r)).
Proof.
  change ("<" ++ escapeRegExp term ++ "[\s/>]")%string
    with (escapeRegExp (String "<" term) ++ "[\s/>]")%string.
  change ("</" ++ escapeRegExp term ++ ">")%string
    with (escapeRegExp (String "<" (String "/" term)) ++ ">")%string.
  unfold newRegExp, RegExp.parse.
  split;
    match goal with
    | |- context [RegExp.parseFrom ?f (escapeRegExp ?t ++ ?tail)%string ?st] =>
        destruct (parseFrom_escaped t tail f st ltac:(lia))
          as (fuel' & Hlen & E)
    end;
    rewrite E; destruct fuel' as [|[|fuel']]; simpl in Hlen; try lia;
    cbn [RegExp.parseFrom]; simpl Ascii.eqb; cbv iota;
    cbn [RegExp.parseClassItems RegExp.addTerm RegExp.stack];
    rewrite pushChars_stack; cbn [RegExp.stack]; eexists; reflexivity.
Qed.

Example newRegExp_raw_parenthesis :
  newRegExp rejectingHost ("<" ++ "(" ++ "[\s/>]")%string = Throw SyntaxError.
Proof. reflexivity. Qed.

(* ================================================================== *)
(** * The window of surrounding lines *)

Lemma slice_in_range (allLines : list string) (start stop : Z) :
  (0 <= start <= stop)%Z ->
  (stop <= Z.of_nat (List.length allLines))%Z ->
  JS.slice allLines start stop
  = firstn (Z.to_nat (stop - start)) (skipn (Z.to_nat start) allLines).
Proof.
  intros H1 H2. unfold JS.slice.
  destruct (Z.ltb_spec start 0); [lia|].
  destruct (Z.ltb_spec stop 0); [lia|].
  now rewrite !Z.min_l by lia.
Qed.

(** X1. For a line number inside the file and a radius that is not
    negative, [getSurroundingLines] returns the lines from
    [max(0, lineNumber - radius)] up to, and excluding,
    [min(length, lineNumber + radius + 1)]: at most [2 * radius + 1]
    lines, each the line of the file at the corresponding index, and the
    line [lineNumber] itself is among them. *)
Theorem getSurroundingLines_window (allLines : list string)
  (lineNumber radius : Z) :
  (0 <= lineNumber < Z.of_nat (List.length allLines))%Z ->
  (0 <= radius)%Z ->
  let start := Z.max 0 (lineNumber - radius) in
  let stop :=
    Z.min (Z.of_nat (List.length allLines)) (lineNumber + radius + 1) in
  let window := getSurroundingLines allLines lineNumber radius in
  Z.of_nat (List.length window) = (stop - start)%Z /\
  (Z.of_nat (List.length window) <= 2 * radius + 1)%Z /\
  (forall k : nat,
      k < List.length window ->
      nth_error window k = nth_error allLines (Z.to_nat start + k)) /\
  nth_error window (Z.to_nat (lineNumber - start))
  = nth_error allLines (Z.to_nat lineNumber).
Proof.
  intros Hline Hradius. cbv zeta. unfold getSurroundingLines.
  set (start := Z.max 0 (lineNumber - radius)).
  set (stop := Z.min (Z.of_nat (List.length allLines))
                 (lineNumber + radius + 1)).
  assert (Hs : (0 <= start <= lineNumber)%Z) by (unfold start; lia).
  assert (He : (lineNumber < stop <= Z.of_nat (List.length allLines))%Z)
    by (unfold stop; lia).
  rewrite slice_in_range by lia.
  assert (Hlen : List.length
                   (firstn (Z.to_nat (stop - start))
                      (skipn (Z.to_nat start) allLines))
                 = Z.to_nat (stop - start)).
  { rewrite length_firstn, length_skipn. lia. }
  rewrite Hlen.
  assert (Hnth : forall k, k < Z.to_nat (stop - start) ->
            nth_error (firstn (Z.to_nat (stop - start))
                         (skipn (Z.to_nat start) allLines)) k
            = nth_error allLines (Z.to_nat start + k)).
  { intros k Hk. rewrite nth_error_firstn.
    destruct (Nat.ltb_spec k (Z.to_nat (stop - start))); [|lia].
    apply nth_error_skipn. }
  split; [lia|]. split; [unfold start, stop; lia|]. split; [exact Hnth|].
  rewrite Hnth by lia. f_equal. lia.
Qed.

Lemma getSurroundingLines_window_witness :
  (0 <= 0 < Z.of_nat (List.length ["a"; "b"; "c"; "d"]))%Z /\
  (0 <= 2)%Z /\
  Z.of_nat (List.length (getSurroundingLines ["a"; "b"; "c"; "d"] 0 2))
  = (Z.min (Z.of_nat (List.length ["a"; "b"; "c"; "d"])) (0 + 2 + 1)
     - Z.max 0 (0 - 2))%Z.
Proof.
  split; [simpl; lia|]. split; [lia|].
  apply (getSurroundingLines_window ["a"; "b"; "c"; "d"] 0 2);
    simpl; lia.
Defined.

(* ================================================================== *)
(** * The backward scans outside the file *)

(** X2. A backward scan that starts below line 0 runs no iteration and
    returns nothing; one that starts at or after the end of the file
    throws a [TypeError] at its first iteration ([allLines[i]] is
    [undefined]).  Both [getFunctionContext] and [getClassContext]. *)
Theorem backward_scans_out_of_range (allLines : list string)
  (lineNumber : Z) :
  (lineNumber < 0 \/ Z.of_nat (List.length allLines) <= lineNumber)%Z ->
  let outcome :=
    if (lineNumber <? 0)%Z then Ok None else Throw TypeError in
  getFunctionContext allLines lineNumber = outcome /\
  getClassContext allLines lineNumber = outcome.
Proof.
  intros Hout. cbv zeta.
  unfold getFunctionContext, getClassContext, scanFuel.
  cbn [getFunctionContext_loop getClassContext_loop].
  destruct (Z.ltb_spec lineNumber 0) as [Hneg | Hpos].
  - destruct (Z.geb_spec lineNumber 0); [lia | now split].
  - destruct (Z.geb_spec lineNumber 0); [|lia].
    assert (E : JS.arrayGet allLines lineNumber = None).
    { unfold JS.arrayGet. destruct (Z.ltb_spec lineNumber 0); [lia|].
      apply nth_error_None. lia. }
    rewrite E. now split.
Qed.

Lemma backward_scans_out_of_range_witness :
  ((3 < 0 \/ Z.of_nat (List.length ["class A {"; "f() {"; "}"]) <= 3)%Z) /\
  getFunctionContext ["class A {"; "f() {"; "}"] 3 = Throw TypeError /\
  getClassContext ["class A {"; "f() {"; "}"] 3 = Throw TypeError.
Proof.
  split; [right; simpl; lia|].
  apply (backward_scans_out_of_range ["class A {"; "f() {"; "}"] 3).
  right; simpl; lia.
Defined.

(** X3. For [0 <= lineNumber < length], [getClassContext] returns the
    name captured on the first line, going down from [lineNumber], whose
    trimmed text starts with [class <name>] after an optional [export]
    and an optional [abstract]; it returns nothing when no line down to 0
    does. *)
Theorem getClassContext_first_match (allLines : list string)
  (lineNumber : Z) :
  (0 <= lineNumber < Z.of_nat (List.length allLines))%Z ->
  (exists j name,
      firstNamingLine classLine allLines lineNumber j name /\
      getClassContext allLines lineNumber = Ok (Some name))
  \/
  (noNamingLine classLine allLines lineNumber /\
   getClassContext allLines lineNumber = Ok None).
Proof.
  intros Hrange.
  unfold getClassContext. rewrite getClassContext_loop_scanBack.
  destruct (scan_names getClassContext_body classLine allLines
              lineNumber (scanFuel lineNumber)
              getClassContext_body_Some getClassContext_body_None
              Hrange ltac:(unfold scanFuel; lia))
    as [(j & name & Hfirst & ->) | [Hnone ->]].
  - left. now exists j, name.
  - right. now split.
Qed.

Lemma getClassContext_first_match_witness :
  (0 <= 1 < Z.of_nat (List.length ["class Bar {"; "  method() {}"; "}"]))%Z /\
  ((exists j name,
       firstNamingLine classLine ["class Bar {"; "  method() {}"; "}"] 1 j
         name /\
       getClassContext ["class Bar {"; "  method() {}"; "}"] 1
       = Ok (Some name))
   \/
   (noNamingLine classLine ["class Bar {"; "  method() {}"; "}"] 1 /\
    getClassContext ["class Bar {"; "  method() {}"; "}"] 1 = Ok None)).
Proof.
  split; [simpl; lia|].
  apply (getClassContext_first_match ["class Bar {"; "  method() {}"; "}"] 1).
  simpl; lia.
Defined.

(* ================================================================== *)
(** * The context of a match *)

(** [extractImportedItems] never throws, and every item is a string. *)
Lemma extractImportedItems_defined (line : string) :
  exists items : list string,
    extractImportedItems line = Ok (map Some items).
Proof.
  unfold extractImportedItems.
  destruct (RegExp.exec (RE "import\s*\{\s*([^}]+)\s*\}") line)
    as [m|] eqn:E.
  { pose proof E as G. apply (exec_group_defined 1) in G; [|reflexivity].
    destruct G as [inner ->].
    exists (map JS.trim (JS.split "," inner)). now rewrite map_map. }
  destruct (RegExp.exec (RE "import\s+(\w+)\s+from") line) as [md|] eqn:Ed;
    destruct (RegExp.exec (RE "import\s+\*\s+as\s+(\w+)\s+from") line)
      as [mn|] eqn:En;
    try (pose proof Ed as Gd;
         apply (exec_group_defined 1) in Gd; [|reflexivity];
         destruct Gd as [d ->]);
    try (pose proof En as Gn;
         apply (exec_group_defined 1) in Gn; [|reflexivity];
         destruct Gn as [n ->]).
  - now exists [d; n].
  - now exists [d].
  - now exists [n].
  - now exists [].
Qed.

(** Inside the file [getMatchContext] returns a context, with these
    fields. *)
Lemma getMatchContext_ok (lineText : string) (columnIndex : Z)
  (allLines : list string) (lineNumber : Z) :
  (0 <= lineNumber < Z.of_nat (List.length allLines))%Z ->
  exists (fn cls : option string) (imported : option (list (option string))),
    getFunctionContext allLines lineNumber = Ok fn /\
    getClassContext allLines lineNumber = Ok cls /\
    (if isImportStatement (JS.trim lineText) ""
     then exists items : list string,
            extractImportedItems lineText = Ok (map Some items) /\
            imported = Some (map Some items)
     else imported = None) /\
    getMatchContext lineText columnIndex allLines lineNumber
    = Ok {| MatchContext.functionName := fn;
            MatchContext.className := cls;
            MatchContext.isInComment := isInComment lineText columnIndex;
            MatchContext.isInString := isInString lineText columnIndex;
            MatchContext.surroundingLines :=
              Some (getSurroundingLines allLines lineNumber 2);
            MatchContext.importedItems := imported;
            MatchContext.functionArguments := None |}.
Proof.
  intros Hrange.
  assert (Hfuel : Z.to_nat (lineNumber + 1) < scanFuel lineNumber)
    by (unfold scanFuel; lia).
  destruct (scanBack_spec getFunctionContext_body allLines
              (scanFuel lineNumber) lineNumber ltac:(lia) Hfuel)
    as (fn & Hfn & _).
  destruct (scanBack_spec getClassContext_body allLines
              (scanFuel lineNumber) lineNumber ltac:(lia) Hfuel)
    as (cls & Hcls & _).
  assert (Efn : getFunctionContext allLines lineNumber = Ok fn).
  { unfold getFunctionContext.
    now rewrite getFunctionContext_loop_scanBack, Hfn. }
  assert (Ecls : getClassContext allLines lineNumber = Ok cls).
  { unfold getClassContext.
    now rewrite getClassContext_loop_scanBack, Hcls. }
  unfold getMatchContext. rewrite Efn, Ecls. cbn [bind].
  destruct (isImportStatement (JS.trim lineText) "").
  - destruct (extractImportedItems_defined lineText) as [items Hitems].
    exists fn, cls, (Some (map Some items)). rewrite Hitems. cbn [bind].
    repeat split. now exists items.
  - exists fn, cls, None. cbn [bind]. repeat split.
Qed.

(** X4. For a line number inside the file [getMatchContext] never
    throws.  The context it returns holds the verdicts of [isInComment]
    and [isInString] for the given line and column, the names the two
    backward scans return, the window of radius 2, and the imported
    items exactly when the trimmed line is an import statement; each
    imported item is then a string. *)
Theorem getMatchContext_in_range (lineText : string) (columnIndex : Z)
  (allLines : list string) (lineNumber : Z) :
  (0 <= lineNumber < Z.of_nat (List.length allLines))%Z ->
  exists (fn cls : option string) (imported : option (list (option string))),
    getFunctionContext allLines lineNumber = Ok fn /\
    getClassContext allLines lineNumber = Ok cls /\
    (if isImportStatement (JS.trim lineText) ""
     then exists items : list string,
            extractImportedItems lineText = Ok (map Some items) /\
            imported = Some (map Some items)
     else imported = None) /\
    getMatchContext lineText columnIndex allLines lineNumber
    = Ok {| MatchContext.functionName := fn;
            MatchContext.className := cls;
            MatchContext.isInComment := isInComment lineText columnIndex;
            MatchContext.isInString := isInString lineText columnIndex;
            MatchContext.surroundingLines :=
              Some (getSurroundingLines allLines lineNumber 2);
            MatchContext.importedItems := imported;
            MatchContext.functionArguments := None |}.
Proof. apply getMatchContext_ok. Qed.

Lemma getMatchContext_in_range_witness :
  (0 <= 0 < Z.of_nat (List.length ["import { a } from 'm'"]))%Z /\
  exists (fn cls : option string) (imported : option (list (option string))),
    getFunctionContext ["import { a } from 'm'"] 0 = Ok fn /\
    getClassContext ["import { a } from 'm'"] 0 = Ok cls /\
    (if isImportStatement (JS.trim "import { a } from 'm'") ""
     then exists items : list string,
            extractImportedItems "import { a } from 'm'"
            = Ok (map Some items) /\
            imported = Some (map Some items)
     else imported = None) /\
    getMatchContext "import { a } from 'm'" 9 ["import { a } from 'm'"] 0
    = Ok {| MatchContext.functionName := fn;
            MatchContext.className := cls;
            MatchContext.isInComment :=
              isInComment "import { a } from 'm'" 9;
            MatchContext.isInString := isInString "import { a } from 'm'" 9;
            MatchContext.surroundingLines :=
              Some (getSurroundingLines ["import { a } from 'm'"] 0 2);
            MatchContext.importedItems := imported;
            MatchContext.functionArguments := None |}.
Proof.
  split; [simpl; lia|].
  apply (getMatchContext_in_range "import { a } from 'm'" 9
           ["import { a } from 'm'"] 0).
  simpl; lia.
Defined.

(** X5. [getMatchContext] throws a [TypeError] when the line number is at
    or after the end of the file, whatever the line text and the column:
    the first backward scan reads [allLines[lineNumber]]. *)
Theorem getMatchContext_past_the_end (lineText : string) (columnIndex : Z)
  (allLines : list string) (lineNumber : Z) :
  (Z.of_nat (List.length allLines) <= lineNumber)%Z ->
  getMatchContext lineText columnIndex allLines lineNumber = Throw TypeError.
Proof.
  intros Hout. unfold getMatchContext, getFunctionContext, scanFuel.
  cbn [getFunctionContext_loop].
  destruct (Z.geb_spec lineNumber 0); [|lia].
  assert (E : JS.arrayGet allLines lineNumber = None).
  { unfold JS.arrayGet. destruct (Z.ltb_spec lineNumber 0); [lia|].
    apply nth_error_None. lia. }
  now rewrite E.
Qed.

Lemma getMatchContext_past_the_end_witness :
  (Z.of_nat (List.length ["x = 1"]) <= 1)%Z /\
  getMatchContext "x = 1" 0 ["x = 1"] 1 = Throw TypeError.
Proof.
  split; [simpl; lia|].
  apply (getMatchContext_past_the_end "x = 1" 0 ["x = 1"] 1). simpl; lia.
Defined.

(* ================================================================== *)
(** * The string detector looks only before the column *)

Lemma take_append_short (n : nat) (a b : string) :
  n <= length a -> JS.take n (a ++ b)%string = JS.take n a.
Proof.
  revert a. induction n as [|n IH]; intros a H.
  - now destruct a, b.
  - destruct a as [|c a]; simpl in *; [lia|]. rewrite IH by lia.
    reflexivity.
Qed.

(** X6. The verdict of [isInString] at a column depends only on the text
    before the column: text appended to the line changes nothing at the
    columns up to the end of the original line. *)
Theorem isInString_prefix_only (line suffix : string) (column : Z) :
  (column <= Z.of_nat (length line))%Z ->
  isInString (line ++ suffix)%string column = isInString line column.
Proof.
  intros Hcol. unfold isInString. rewrite !substring_0.
  unfold JS.clamp. rewrite append_length.
  replace (Nat.min (Z.to_nat column) (length line + length suffix))
    with (Z.to_nat column) by lia.
  replace (Nat.min (Z.to_nat column) (length line))
    with (Z.to_nat column) by lia.
  rewrite take_append_short by lia. reflexivity.
Qed.

Lemma isInString_prefix_only_witness :
  (5 <= Z.of_nat (length "a = 'b"))%Z /\
  isInString ("a = 'b" ++ "c' + d")%string 5 = isInString "a = 'b" 5.
Proof.
  split; [simpl; lia|].
  apply (isInString_prefix_only "a = 'b" "c' + d" 5). simpl; lia.
Defined.

(* ================================================================== *)
(** * The matcher is sound for the language of the pattern *)

Lemma repeatGreedy_sound (len : nat) (r : RegExp.regex) (ns : list nat) :
  (forall rest caps k a,
      RegExp.rmatch len r rest caps k = Some a ->
      exists rest' caps', Matches len r rest rest' /\ k rest' caps' = Some a) ->
  forall fuel rest caps k a,
    RegExp.repeatGreedy (RegExp.rmatch len r) ns fuel rest caps k = Some a ->
    exists rest' caps',
      Matches len (RegExp.Star r) rest rest' /\ k rest' caps' = Some a.
Proof.
  intros Hr. induction fuel as [|fuel IH]; intros rest caps k a H; simpl in H.
  - exists rest, caps. split; [constructor | assumption].
  - apply orElse_Some in H. destruct H as [H | H].
    + apply Hr in H. destruct H as (rest1 & caps1 & M1 & H).
      destruct (RegExp.progress rest rest1); [|discriminate].
      apply IH in H. destruct H as (rest2 & caps2 & M2 & H).
      exists rest2, caps2. split; [|assumption].
      now apply MStarMore with rest1.
    + exists rest, caps. split; [constructor | assumption].
Qed.

Lemma single_sound (ok : ascii -> bool) (rest : string)
  (caps : RegExp.captures) (k : RegExp.cont) (a : string * RegExp.captures) :
  RegExp.single ok rest caps k = Some a ->
  exists c rest', rest = String c rest' /\ ok c = true /\
                  k rest' caps = Some a.
Proof.
  unfold RegExp.single. destruct rest as [|c rest]; [discriminate|].
  destruct (ok c) eqn:E; [|discriminate]. intros H. now exists c, rest.
Qed.

(** Whenever the matcher succeeds, it has run its continuation on a
    suffix that the pattern leads to. *)
Lemma rmatch_sound (len : nat) (r : RegExp.regex) :
  forall rest caps k a,
    RegExp.rmatch len r rest caps k = Some a ->
    exists rest' caps', Matches len r rest rest' /\ k rest' caps' = Some a.
Proof.
  induction r as [ | c | | negated items | r1 IH1 r2 IH2 | r1 IH1 r2 IH2
                 | r1 IH1 | r1 IH1 | r1 IH1 | m r1 IH1 | | ];
    intros rest caps k a H; cbn [RegExp.rmatch] in H.
  - exists rest, caps. split; [constructor | assumption].
  - apply single_sound in H. destruct H as (d & rest' & -> & E & H).
    apply Ascii.eqb_eq in E. subst d.
    exists rest', caps. split; [constructor | assumption].
  - apply single_sound in H. destruct H as (d & rest' & -> & E & H).
    apply negb_true_iff in E.
    exists rest', caps. split; [now constructor | assumption].
  - apply single_sound in H. destruct H as (d & rest' & -> & E & H).
    exists rest', caps. split; [now constructor | assumption].
  - apply IH1 in H. destruct H as (rest1 & caps1 & M1 & H).
    apply IH2 in H. destruct H as (rest2 & caps2 & M2 & H).
    exists rest2, caps2. split; [now apply MSeq with rest1 | assumption].
  - apply orElse_Some in H.
    destruct H as [H | H]; [apply IH1 in H | apply IH2 in H];
      destruct H as (rest1 & caps1 & M1 & H); exists rest1, caps1;
      (split; [|assumption]); [now apply MAltL | now apply MAltR].
  - now apply (repeatGreedy_sound len r1 _ IH1) in H.
  - apply IH1 in H. destruct H as (rest1 & caps1 & M1 & H).
    apply (repeatGreedy_sound len r1 _ IH1) in H.
    destruct H as (rest2 & caps2 & M2 & H).
    exists rest2, caps2. split; [now apply MPlus with rest1 | assumption].
  - apply orElse_Some in H. destruct H as [H | H].
    + apply IH1 in H. destruct H as (rest1 & caps1 & M1 & H).
      destruct (RegExp.progress rest rest1); [|discriminate].
      exists rest1, caps1. split; [now apply MOptSome | assumption].
    + exists rest, caps. split; [constructor | assumption].
  - apply IH1 in H. destruct H as (rest1 & caps1 & M1 & H).
    eexists rest1, _. split; [now apply MGroup | exact H].
  - destruct (Nat.eqb_spec (length rest) len); [|discriminate].
    exists rest, caps. split; [now constructor | assumption].
  - destruct rest; [|discriminate].
    exists EmptyString, caps. split; [constructor | assumption].
Qed.

(** A successful search has found a start position where the pattern
    matches. *)
Lemma execFrom_sound (len : nat) (r : RegExp.regex) (s : string)
  (m : RegExp.matchArray) :
  RegExp.execFrom len r s = Some m ->
  exists pre rest rest',
    s = (pre ++ rest)%string /\ Matches len r rest rest'.
Proof.
  induction s as [|c s IH]; simpl.
  - destruct (RegExp.rmatch len r EmptyString [] _) as [[rest' caps]|] eqn:E;
      [|discriminate].
    intros _. apply rmatch_sound in E. destruct E as (rest1 & caps1 & M & _).
    now exists EmptyString, EmptyString, rest1.
  - destruct (RegExp.rmatch len r (String c s) [] _) as [[rest' caps]|] eqn:E.
    + intros _. apply rmatch_sound in E.
      destruct E as (rest1 & caps1 & M & _).
      now exists EmptyString, (String c s), rest1.
    + intros H. apply IH in H. destruct H as (pre & rest & rest' & -> & M).
      now exists (String c pre), rest, rest'.
Qed.

(** A match of a pattern that starts with [^] starts the input. *)
Lemma exec_anchored (r : RegExp.regex) (s : string) (m : RegExp.matchArray) :
  RegExp.exec (RegExp.Seq RegExp.Bol r) s = Some m ->
  exists rest', Matches (length s) r s rest'.
Proof.
  intros H. apply execFrom_sound in H.
  destruct H as (pre & rest & rest' & E & M).
  inversion M as [ | | | | r1 r2 a b c M1 M2 | | | | | | | | | | ]; subst.
  inversion M1; subst.
  assert (length pre = 0).
  { match goal with H : length _ = length _ |- _ =>
      rewrite append_length in H; lia end. }
  destruct pre; [|discriminate]. now exists rest'.
Qed.

Lemma matches_litThen (len : nat) (w : string) (r : RegExp.regex)
  (a c : string) :
  Matches len (litThen w r) a c ->
  exists b, a = (w ++ b)%string /\ Matches len r b c.
Proof.
  revert a. induction w as [|x w IH]; intros a M; simpl in *.
  - now exists a.
  - inversion M as [ | | | | r1 r2 a' b' c' M1 M2 | | | | | | | | | | ]; subst.
    inversion M1; subst. apply IH in M2.
    destruct M2 as (b & -> & M2). now exists b.
Qed.

Lemma matches_char (len : nat) (x : ascii) (a b : string) :
  Matches len (RegExp.Char x) a b -> a = String x b.
Proof. intros M. now inversion M. Qed.

Lemma matches_plus_class (len : nat) (negated : bool)
  (items : list RegExp.classItem) (a b : string) :
  Matches len (RegExp.Plus (RegExp.Class negated items)) a b ->
  exists c a', a = String c a' /\ RegExp.inClass negated items c = true.
Proof.
  intros M.
  inversion M as [ | | | | | | | | | r a' b' c' M1 M2 | | | | | ]; subst.
  inversion M1; subst. eauto.
Qed.

Lemma matches_star_space (len : nat) (a b : string) :
  Matches len (RegExp.Star (RegExp.Class false [RegExp.CSpace])) a b ->
  exists w, a = (w ++ b)%string /\ allWhite w = true.
Proof.
  intros M.
  remember (RegExp.Star (RegExp.Class false [RegExp.CSpace])) as r eqn:Er.
  induction M; try discriminate.
  - now exists EmptyString.
  - injection Er as ->. specialize (IHM2 eq_refl).
    destruct IHM2 as (w & -> & Hw).
    inversion M1 as [ | | | negated items x a' Hin | | | | | | | | | | | ];
      subst.
    exists (String x w). split; [reflexivity|]. simpl.
    unfold RegExp.inClass in Hin. simpl in Hin.
    rewrite orb_false_r in Hin. now rewrite Hin.
Qed.

Lemma matches_eol (len : nat) (a b : string) :
  Matches len RegExp.Eol a b -> a = EmptyString.
Proof. intros M. now inversion M. Qed.

(* ================================================================== *)
(** * The matcher is monotone in its continuation *)

Lemma orElse_not_None (x y : RegExp.answer) :
  RegExp.orElse x y <> None <-> x <> None \/ y <> None.
Proof.
  destruct x as [a|]; simpl.
  - split; [intros _; left; discriminate | discriminate].
  - split; [now right | intros [H | H]; [congruence | assumption]].
Qed.

Lemma repeatGreedy_mono (m : RegExp.matcher) (ns : list nat) :
  (forall rest caps k k',
      contWeaker k k' -> m rest caps k <> None -> m rest caps k' <> None) ->
  forall fuel rest caps k k',
    contWeaker k k' ->
    RegExp.repeatGreedy m ns fuel rest caps k <> None ->
    RegExp.repeatGreedy m ns fuel rest caps k' <> None.
Proof.
  intros Hm. induction fuel as [|fuel IH]; intros rest caps k k' Hk; simpl.
  - apply Hk.
  - rewrite !orElse_not_None. intros [H | H]; [left | right; now apply Hk].
    revert H. apply Hm. intros rest' caps'.
    destruct (RegExp.progress rest rest'); [now apply IH | congruence].
Qed.

Lemma single_mono (ok : ascii -> bool) (rest : string)
  (caps : RegExp.captures) (k k' : RegExp.cont) :
  contWeaker k k' ->
  RegExp.single ok rest caps k <> None ->
  RegExp.single ok rest caps k' <> None.
Proof.
  intros Hk. unfold RegExp.single. destruct rest as [|c rest]; [congruence|].
  destruct (ok c); [apply Hk | congruence].
Qed.

(** If the matcher succeeds with a continuation, it succeeds with every
    continuation that accepts at least as much. *)
Lemma rmatch_mono (len : nat) (r : RegExp.regex) :
  forall rest caps k k',
    contWeaker k k' ->
    RegExp.rmatch len r rest caps k <> None ->
    RegExp.rmatch len r rest caps k' <> None.
Proof.
  induction r as [ | c | | negated items | r1 IH1 r2 IH2 | r1 IH1 r2 IH2
                 | r1 IH1 | r1 IH1 | r1 IH1 | m r1 IH1 | | ];
    intros rest caps k k' Hk; cbn [RegExp.rmatch].
  - apply Hk.
  - now apply single_mono.
  - now apply single_mono.
  - now apply single_mono.
  - apply IH1. intros rest1 caps1. now apply IH2.
  - rewrite !orElse_not_None.
    intros [H | H]; [left; revert H; now apply IH1
                    | right; revert H; now apply IH2].
  - now apply repeatGreedy_mono.
  - apply IH1. intros rest1 caps1. now apply repeatGreedy_mono.
  - rewrite !orElse_not_None. intros [H | H]; [left | right; now apply Hk].
    revert H. apply IH1. intros rest1 caps1.
    destruct (RegExp.progress rest rest1); [apply Hk | congruence].
  - apply IH1. intros rest1 caps1. apply Hk.
  - destruct (length rest =? len); [apply Hk | congruence].
  - destruct rest; [apply Hk | congruence].
Qed.

(** Replacing the end of a sequence by a pattern that succeeds wherever
    the old end did keeps the sequence succeeding. *)
Lemma seq_tail_mono (len : nat) (p r1 r2 : RegExp.regex)
  (k k' : RegExp.cont) :
  (forall rest caps,
      RegExp.rmatch len r1 rest caps k <> None ->
      RegExp.rmatch len r2 rest caps k' <> None) ->
  forall rest caps,
    RegExp.rmatch len (RegExp.Seq p r1) rest caps k <> None ->
    RegExp.rmatch len (RegExp.Seq p r2) rest caps k' <> None.
Proof.
  intros H rest caps. cbn [RegExp.rmatch]. apply rmatch_mono. exact H.
Qed.

Lemma litThen_tail_mono (len : nat) (w : string) (r1 r2 : RegExp.regex)
  (k k' : RegExp.cont) :
  (forall rest caps,
      RegExp.rmatch len r1 rest caps k <> None ->
      RegExp.rmatch len r2 rest caps k' <> None) ->
  forall rest caps,
    RegExp.rmatch len (litThen w r1) rest caps k <> None ->
    RegExp.rmatch len (litThen w r2) rest caps k' <> None.
Proof.
  intros H. induction w as [|c w IH]; cbn [litThen]; [exact H|].
  now apply seq_tail_mono.
Qed.

Lemma execFrom_mono (len : nat) (r1 r2 : RegExp.regex) (s : string) :
  (forall rest,
      RegExp.rmatch len r1 rest [] acceptAll <> None ->
      RegExp.rmatch len r2 rest [] acceptAll <> None) ->
  RegExp.execFrom len r1 s <> None -> RegExp.execFrom len r2 s <> None.
Proof.
  intros H. induction s as [|c s IH]; simpl; fold acceptAll.
  - specialize (H EmptyString).
    destruct (RegExp.rmatch len r1 EmptyString [] acceptAll) as [[? ?]|];
      [|congruence].
    intros _.
    destruct (RegExp.rmatch len r2 EmptyString [] acceptAll) as [[? ?]|];
      [discriminate | now destruct H].
  - pose proof (H (String c s)) as Hc.
    destruct (RegExp.rmatch len r2 (String c s) [] acceptAll) as [[? ?]|];
      [discriminate|].
    destruct (RegExp.rmatch len r1 (String c s) [] acceptAll) as [[? ?]|].
    + now destruct Hc.
    + exact IH.
Qed.

(** A line that matches [^export\s+] followed by anything is an export
    statement. *)
Lemma exportThen_isExportStatement (r : RegExp.regex)
  (line searchTerm : string) :
  RegExp.test (exportThen r) line = true ->
  isExportStatement line searchTerm = true.
Proof.
  intros H. unfold isExportStatement, somePattern.
  cbn [existsb]. apply orb_true_iff. left.
  unfold RegExp.test, RegExp.exec in *.
  assert (Hsome : RegExp.execFrom (length line) (exportThen r) line <> None).
  { destruct (RegExp.execFrom (length line) (exportThen r) line);
      [discriminate | discriminate H]. }
  set (r0 := RegExp.Opt
               (RegExp.Group 1
                  (litThen "default"
                     (RegExp.Plus (RegExp.Class false [RegExp.CSpace]))))).
  change (RE "^export\s+(default\s+)?") with (exportThen r0).
  apply (execFrom_mono (length line) (exportThen r) (exportThen r0))
    in Hsome.
  - destruct (RegExp.execFrom (length line) (exportThen r0) line);
      [reflexivity | congruence].
  - intros rest. unfold exportThen. apply seq_tail_mono.
    apply litThen_tail_mono. apply seq_tail_mono.
    intros rest' caps _. cbn [RegExp.rmatch].
    apply orElse_not_None. right. discriminate.
Qed.

(* ================================================================== *)
(** * The classifier: which inputs lead to which category *)

(** One step down the chain of [categorizeMatch], for a goal of the form
    [chain = Ok c -> _]: the branches that return another category are
    closed. *)
Ltac chain_step :=
  match goal with
  | |- (if ?b then _ else _) = _ -> _ =>
      destruct b eqn:?; [try solve [intros E; discriminate E] | ]
  | |- bind ?r _ = _ -> _ =>
      destruct r as [[|]|] eqn:?; cbn [bind];
      try solve [intros E; discriminate E]
  end.

(** The whole chain: one goal is left, for the branch that returns the
    category of the goal. *)
Ltac chain := repeat chain_step; try solve [intros E; discriminate E].

(** X7. A match followed by an opening parenthesis (white space apart) is
    classified [FUNCTION_DEFINITION] in every language, unless a context
    flag is set or the line is an import or export statement: call sites
    fall into this category. *)
Theorem categorizeMatch_parenthesis_after
  (host : string -> result (string -> bool))
  (lineText : string) (columnIndex : Z) (searchTerm : string)
  (context : MatchContext.t) (allLines : list string) (lineNumber : Z)
  (languageId : string) :
  MatchContext.isInComment context = false ->
  MatchContext.isInString context = false ->
  isImportStatement (JS.trim lineText) searchTerm = false ->
  isExportStatement (JS.trim lineText) searchTerm = false ->
  JS.startsWith
    (JS.trim (JS.substringFrom lineText
                (columnIndex + Z.of_nat (length searchTerm)))) "(" = true ->
  categorizeMatch host lineText columnIndex searchTerm context allLines
    lineNumber languageId = Ok FUNCTION_DEFINITION.
Proof.
  intros Hc Hs Hi He Hp. unfold categorizeMatch.
  rewrite Hc, Hs, Hi, He. unfold isFunctionDefinition. now rewrite Hp.
Qed.

Lemma categorizeMatch_parenthesis_after_witness :
  MatchContext.isInComment plainContext = false /\
  MatchContext.isInString plainContext = false /\
  isImportStatement (JS.trim "  total = sum (xs);") "sum" = false /\
  isExportStatement (JS.trim "  total = sum (xs);") "sum" = false /\
  JS.startsWith
    (JS.trim (JS.substringFrom "  total = sum (xs);"
                (10 + Z.of_nat (length "sum")))) "(" = true /\
  categorizeMatch rejectingHost "  total = sum (xs);" 10 "sum" plainContext
    ["  total = sum (xs);"] 0 "python" = Ok FUNCTION_DEFINITION.
Proof.
  repeat (split; [reflexivity|]).
  apply (categorizeMatch_parenthesis_after rejectingHost
           "  total = sum (xs);" 10 "sum" plainContext
           ["  total = sum (xs);"] 0 "python"); reflexivity.
Defined.

Lemma unrecognized_eqb (languageId : string) :
  recognizedLanguage languageId = false ->
  String.eqb languageId "python" = false /\
  String.eqb languageId "java" = false /\
  String.eqb languageId "csharp" = false /\
  String.eqb languageId "typescript" = false /\
  String.eqb languageId "typescriptreact" = false /\
  String.eqb languageId "javascriptreact" = false /\
  String.eqb languageId "vue" = false.
Proof.
  unfold recognizedLanguage, recognizedLanguages. cbn [existsb].
  rewrite !orb_false_iff. tauto.
Qed.

(** X8. The language identifier matters only through the seven values the
    tests compare it with: for any two identifiers outside [python],
    [java], [csharp], [typescript], [typescriptreact], [javascriptreact]
    and [vue], [categorizeMatch] gives the same result on the same other
    arguments (the JavaScript rules). *)
Theorem categorizeMatch_unrecognized_language
  (host : string -> result (string -> bool))
  (lineText : string) (columnIndex : Z) (searchTerm : string)
  (context : MatchContext.t) (allLines : list string) (lineNumber : Z)
  (language1 language2 : string) :
  recognizedLanguage language1 = false ->
  recognizedLanguage language2 = false ->
  categorizeMatch host lineText columnIndex searchTerm context allLines
    lineNumber language1
  = categorizeMatch host lineText columnIndex searchTerm context allLines
      lineNumber language2.
Proof.
  intros H1 H2.
  apply unrecognized_eqb in H1, H2.
  destruct H1 as (A1 & A2 & A3 & A4 & A5 & A6 & A7).
  destruct H2 as (B1 & B2 & B3 & B4 & B5 & B6 & B7).
  unfold categorizeMatch, isFunctionDefinition, isVariableDeclaration,
    isComponentUsage, isTypeDefinition, isInterfaceDefinition,
    isClassDefinition.
  now rewrite A1, A2, A3, A4, A5, A6, A7, B1, B2, B3, B4, B5, B6, B7.
Qed.

Lemma categorizeMatch_unrecognized_language_witness :
  recognizedLanguage "javascript" = false /\
  recognizedLanguage "rust" = false /\
  categorizeMatch rejectingHost "let (a, b) = pair;" 5 "a" plainContext
    ["let (a, b) = pair;"] 0 "javascript"
  = categorizeMatch rejectingHost "let (a, b) = pair;" 5 "a" plainContext
      ["let (a, b) = pair;"] 0 "rust".
Proof.
  split; [reflexivity|]. split; [reflexivity|].
  apply (categorizeMatch_unrecognized_language rejectingHost
           "let (a, b) = pair;" 5 "a" plainContext
           ["let (a, b) = pair;"] 0 "javascript" "rust"); reflexivity.
Defined.

(** X9. Outside the languages [typescriptreact], [javascriptreact] and
    [vue], [categorizeMatch] never throws, whatever the search term, and
    never answers [COMPONENT_USAGE]. *)
Theorem categorizeMatch_total_outside_react
  (host : string -> result (string -> bool))
  (lineText : string) (columnIndex : Z) (searchTerm : string)
  (context : MatchContext.t) (allLines : list string) (lineNumber : Z)
  (languageId : string) :
  languageId <> "typescriptreact" ->
  languageId <> "javascriptreact" ->
  languageId <> "vue" ->
  exists category,
    categorizeMatch host lineText columnIndex searchTerm context allLines
      lineNumber languageId = Ok category /\
    category <> COMPONENT_USAGE.
Proof.
  intros H1 H2 H3. apply String.eqb_neq in H1, H2, H3.
  unfold categorizeMatch, isComponentUsage. rewrite H1, H2, H3.
  cbn [negb andb bind].
  repeat match goal with
         | |- context [if ?b then Ok _ else _] =>
             destruct b; [eexists; split; [reflexivity | discriminate]|]
         end.
  eexists; split; [reflexivity | discriminate].
Qed.

Lemma categorizeMatch_total_outside_react_witness :
  "typescript" <> "typescriptreact" /\
  "typescript" <> "javascriptreact" /\
  "typescript" <> "vue" /\
  exists category,
    categorizeMatch rejectingHost "foo(bar)" 3 "(" plainContext
      ["foo(bar)"] 0 "typescript" = Ok category /\
    category <> COMPONENT_USAGE.
Proof.
  repeat (split; [discriminate|]).
  apply (categorizeMatch_total_outside_react rejectingHost "foo(bar)" 3 "("
           plainContext ["foo(bar)"] 0 "typescript"); discriminate.
Defined.

(** A line that matches [^<word>\s+...] starts with the word and a white
    space character. *)
Lemma test_word_space (word : string) (r : RegExp.regex) (line : string) :
  RegExp.test
    (RegExp.Seq RegExp.Bol
       (litThen word
          (RegExp.Seq (RegExp.Plus (RegExp.Class false [RegExp.CSpace])) r)))
    line = true ->
  exists c rest,
    line = (word ++ String c rest)%string /\ JS.isWhiteSpace c = true.
Proof.
  unfold RegExp.test.
  destruct (RegExp.exec _ line) as [m|] eqn:E; [|discriminate]. intros _.
  apply exec_anchored in E. destruct E as (rest' & M).
  apply matches_litThen in M. destruct M as (b & -> & M).
  inversion M as [ | | | | r1 r2 a' b' c' M1 M2 | | | | | | | | | | ]; subst.
  apply matches_plus_class in M1. destruct M1 as (c & a' & -> & Hin).
  exists c, a'. split; [reflexivity|].
  unfold RegExp.inClass in Hin. simpl in Hin. now rewrite orb_false_r in Hin.
Qed.

Lemma test_word_space_end (word : string) (line : string) :
  RegExp.test
    (RegExp.Seq RegExp.Bol
       (litThen word (RegExp.Plus (RegExp.Class false [RegExp.CSpace]))))
    line = true ->
  exists c rest,
    line = (word ++ String c rest)%string /\ JS.isWhiteSpace c = true.
Proof.
  unfold RegExp.test.
  destruct (RegExp.exec _ line) as [m|] eqn:E; [|discriminate]. intros _.
  apply exec_anchored in E. destruct E as (rest' & M).
  apply matches_litThen in M. destruct M as (b & -> & M).
  apply matches_plus_class in M. destruct M as (c & a' & -> & Hin).
  exists c, a'. split; [reflexivity|].
  unfold RegExp.inClass in Hin. simpl in Hin. now rewrite orb_false_r in Hin.
Qed.

(** X10. [categorizeMatch] answers [TYPE_DEFINITION], respectively
    [INTERFACE_DEFINITION], only in the languages [typescript] and
    [typescriptreact], and only when the trimmed line starts with the
    word [type], respectively [interface], and a white space character.
    The patterns [^export\s+type\s+] and [^export\s+interface\s+] of the
    two tests never decide: such a line is already an [EXPORT]. *)
Theorem categorizeMatch_type_and_interface
  (host : string -> result (string -> bool))
  (lineText : string) (columnIndex : Z) (searchTerm : string)
  (context : MatchContext.t) (allLines : list string) (lineNumber : Z)
  (languageId : string) :
  let answer :=
    categorizeMatch host lineText columnIndex searchTerm context allLines
      lineNumber languageId in
  let startsWithWord word :=
    exists c rest,
      JS.trim lineText = (word ++ String c rest)%string /\
      JS.isWhiteSpace c = true in
  (answer = Ok TYPE_DEFINITION ->
   (languageId = "typescript" \/ languageId = "typescriptreact") /\
   startsWithWord "type")
  /\
  (answer = Ok INTERFACE_DEFINITION ->
   (languageId = "typescript" \/ languageId = "typescriptreact") /\
   startsWithWord "interface").
Proof.
  cbv zeta. unfold categorizeMatch. split.
  - chain. intros _.
    match goal with
    | H : isTypeDefinition _ _ _ _ = true |- _ =>
        unfold isTypeDefinition in H; rename H into Ht
    end.
    destruct (String.eqb_spec languageId "typescript") as [El | El];
      destruct (String.eqb_spec languageId "typescriptreact") as [Er | Er];
      cbn [negb andb] in Ht; try discriminate Ht;
      (split; [tauto|]);
      unfold somePattern in Ht; cbn [existsb] in Ht;
      rewrite orb_false_r in Ht; apply orb_true_iff in Ht;
      (destruct Ht as [Ht | Ht];
       [ exact (test_word_space_end "type" _ Ht)
       | apply (exportThen_isExportStatement
                  (litThen "type"
                     (RegExp.Plus (RegExp.Class false [RegExp.CSpace])))
                  _ searchTerm) in Ht; congruence ]).
  - chain. intros _.
    match goal with
    | H : isInterfaceDefinition _ _ _ _ = true |- _ =>
        unfold isInterfaceDefinition in H; rename H into Ht
    end.
    destruct (String.eqb_spec languageId "typescript") as [El | El];
      destruct (String.eqb_spec languageId "typescriptreact") as [Er | Er];
      cbn [negb andb] in Ht; try discriminate Ht;
      (split; [tauto|]);
      unfold somePattern in Ht; cbn [existsb] in Ht;
      rewrite orb_false_r in Ht; apply orb_true_iff in Ht;
      (destruct Ht as [Ht | Ht];
       [ exact (test_word_space_end "interface" _ Ht)
       | apply (exportThen_isExportStatement
                  (litThen "interface"
                     (RegExp.Plus (RegExp.Class false [RegExp.CSpace])))
                  _ searchTerm) in Ht; congruence ]).
Qed.

(** X11. [categorizeMatch] answers [CLASS_DEFINITION] only when the
    trimmed line starts with one of the words [class], [abstract],
    [public], [private] and a white space character.  The pattern
    [^export\s+class\s+] of the test never decides: such a line is
    already an [EXPORT]. *)
Theorem categorizeMatch_class_definition
  (host : string -> result (string -> bool))
  (lineText : string) (columnIndex : Z) (searchTerm : string)
  (context : MatchContext.t) (allLines : list string) (lineNumber : Z)
  (languageId : string) :
  categorizeMatch host lineText columnIndex searchTerm context allLines
    lineNumber languageId = Ok CLASS_DEFINITION ->
  exists word c rest,
    In word ["class"; "abstract"; "public"; "private"] /\
    JS.trim lineText = (word ++ String c rest)%string /\
    JS.isWhiteSpace c = true.
Proof.
  unfold categorizeMatch. chain. intros _.
  match goal with
  | H : isClassDefinition _ _ _ _ = true |- _ =>
      unfold isClassDefinition, somePattern in H; cbn [existsb] in H;
      rewrite orb_false_r in H; rename H into Hk
  end.
  repeat rewrite orb_true_iff in Hk.
  destruct Hk as [Hk | [Hk | [Hk | [Hk | Hk]]]].
  - apply (test_word_space_end "class") in Hk.
    destruct Hk as (c & rest & E & Hc).
    exists "class", c, rest. simpl In. tauto.
  - apply (exportThen_isExportStatement
             (litThen "class"
                (RegExp.Plus (RegExp.Class false [RegExp.CSpace])))
             _ searchTerm) in Hk. congruence.
  - apply (test_word_space "abstract") in Hk.
    destruct Hk as (c & rest & E & Hc).
    exists "abstract", c, rest. simpl In. tauto.
  - apply (test_word_space "public") in Hk.
    destruct Hk as (c & rest & E & Hc).
    exists "public", c, rest. simpl In. tauto.
  - apply (test_word_space "private") in Hk.
    destruct Hk as (c & rest & E & Hc).
    exists "private", c, rest. simpl In. tauto.
Qed.

Lemma categorizeMatch_class_definition_witness :
  categorizeMatch rejectingHost "public class Shape {" 13 "Shape"
    plainContext ["public class Shape {"] 0 "java" = Ok CLASS_DEFINITION /\
  exists word c rest,
    In word ["class"; "abstract"; "public"; "private"] /\
    JS.trim "public class Shape {" = (word ++ String c rest)%string /\
    JS.isWhiteSpace c = true.
Proof.
  split; [reflexivity|].
  apply (categorizeMatch_class_definition rejectingHost
           "public class Shape {" 13 "Shape" plainContext
           ["public class Shape {"] 0 "java").
  reflexivity.
Defined.

Lemma categorizeMatch_type_and_interface_witness :
  categorizeMatch rejectingHost "type Id = string;" 10 "string" plainContext
    ["type Id = string;"] 0 "typescript" = Ok TYPE_DEFINITION /\
  ("typescript" = "typescript" \/ "typescript" = "typescriptreact") /\
  exists c rest,
    JS.trim "type Id = string;" = ("type" ++ String c rest)%string /\
    JS.isWhiteSpace c = true.
Proof.
  split; [reflexivity|].
  apply (proj1 (categorizeMatch_type_and_interface rejectingHost
                  "type Id = string;" 10 "string" plainContext
                  ["type Id = string;"] 0 "typescript")).
  reflexivity.
Defined.

(* ================================================================== *)
(** * The classifier: the default category *)

Lemma endsWhite_trimEnd (s : string) : endsWhite (JS.trimEnd s) = false.
Proof.
  induction s as [|c s IH]; [reflexivity|]. simpl.
  destruct (JS.trimEnd s) as [|d t] eqn:E.
  - destruct (JS.isWhiteSpace c) eqn:Hc; simpl; [reflexivity | assumption].
  - simpl in *. exact IH.
Qed.

Lemma endsWhite_append (a w : string) :
  allWhite w = true -> w <> EmptyString -> endsWhite (a ++ w)%string = true.
Proof.
  intros Hw Hne.
  assert (Hown : endsWhite w = true).
  { clear a. revert Hw Hne.
    induction w as [|c w IH]; intros Hw Hne; [congruence|].
    simpl in Hw. apply andb_true_iff in Hw. destruct Hw as [Hc Hw].
    destruct w as [|d w]; [exact Hc|].
    change (endsWhite (String c (String d w))) with (endsWhite (String d w)).
    apply IH; [assumption | discriminate]. }
  induction a as [|x a IH]; [exact Hown|].
  simpl. destruct (a ++ w)%string eqn:E; [|exact IH].
  destruct a; simpl in E; [congruence | discriminate].
Qed.

(** The declaration test of [isVariableUsage] accepts exactly a keyword
    followed by white space only. *)
Lemma declaration_test (s : string) (m : RegExp.matchArray) :
  RegExp.exec (RE "^(const|let|var|function)\s*$") s = Some m ->
  exists word w,
    In word declarationKeywords /\ s = (word ++ w)%string /\
    allWhite w = true.
Proof.
  intros H.
  change (RE "^(const|let|var|function)\s*$")
    with (RegExp.Seq RegExp.Bol
            (RegExp.Seq
               (RegExp.Group 1
                  (RegExp.Alt (litThen "cons" (RegExp.Char "t"))
                     (RegExp.Alt (litThen "le" (RegExp.Char "t"))
                        (RegExp.Alt (litThen "va" (RegExp.Char "r"))
                           (litThen "functio" (RegExp.Char "n"))))))
               (RegExp.Seq
                  (RegExp.Star (RegExp.Class false [RegExp.CSpace]))
                  RegExp.Eol))) in H.
  apply exec_anchored in H. destruct H as (rest' & M).
  inversion M as [ | | | | r1 r2 a b c Mg Mtail | | | | | | | | | | ]; subst.
  inversion Mtail as [ | | | | r1 r2 a' b' c' Mstar Meol | | | | | | | | | | ];
    subst.
  apply matches_eol in Meol. subst b'.
  apply matches_star_space in Mstar. destruct Mstar as (w & -> & Hw).
  assert (Hword : forall pre last,
            Matches (length s) (litThen pre (RegExp.Char last)) s
              (w ++ "")%string ->
            s = ((pre ++ String last "") ++ w)%string).
  { intros pre last Ml. apply matches_litThen in Ml.
    destruct Ml as (b0 & -> & Ml). apply matches_char in Ml. subst b0.
    rewrite append_assoc. f_equal. simpl. f_equal.
    clear. induction w as [|x w IH]; simpl; [reflexivity | now rewrite IH]. }
  inversion Mg as [ | | | | | | | | | | | | n r a b Malt | | ]; subst.
  unfold declarationKeywords.
  inversion Malt as [ | | | | | r1 r2 a b M1 | r1 r2 a b M1 | | | | | | | | ];
    subst.
  { exists "const", w. split; [simpl; tauto|]. split; [|assumption].
    exact (Hword "cons" "t"%char M1). }
  inversion M1 as [ | | | | | r1 r2 a b M2 | r1 r2 a b M2 | | | | | | | | ];
    subst.
  { exists "let", w. split; [simpl; tauto|]. split; [|assumption].
    exact (Hword "le" "t"%char M2). }
  inversion M2 as [ | | | | | r1 r2 a b M3 | r1 r2 a b M3 | | | | | | | | ];
    subst.
  { exists "var", w. split; [simpl; tauto|]. split; [|assumption].
    exact (Hword "va" "r"%char M3). }
  exists "function", w. split; [simpl; tauto|]. split; [|assumption].
  exact (Hword "functio" "n"%char M3).
Qed.

(** X12. [categorizeMatch] falls through to [OTHER] only when the trimmed
    text before the match is exactly one of the keywords [const], [let],
    [var], [function], or ends with an opening bracket.  Every other
    match that reaches the end of the chain is a [VARIABLE_USAGE]: there,
    the two other conditions of [isVariableUsage] (no parenthesis after
    the match, no dot before it) always hold. *)
Theorem categorizeMatch_other_only_if
  (host : string -> result (string -> bool))
  (lineText : string) (columnIndex : Z) (searchTerm : string)
  (context : MatchContext.t) (allLines : list string) (lineNumber : Z)
  (languageId : string) :
  categorizeMatch host lineText columnIndex searchTerm context allLines
    lineNumber languageId = Ok OTHER ->
  let beforeMatch := JS.trim (JS.substring lineText 0 columnIndex) in
  In beforeMatch declarationKeywords \/ JS.endsWith beforeMatch "[" = true.
Proof.
  unfold categorizeMatch. chain. intros _. cbv zeta.
  match goal with
  | H : isVariableUsage _ _ _ _ = false |- _ =>
      unfold isVariableUsage in H; rename H into Hu
  end.
  match goal with
  | H : isPropertyAccess _ _ _ _ = false |- _ =>
      unfold isPropertyAccess in H; rename H into Hp
  end.
  match goal with
  | H : isFunctionDefinition _ _ _ _ _ = false |- _ =>
      apply isFunctionDefinition_false_paren in H; rename H into Hd
  end.
  rewrite trimStart_trim, Hd in Hu.
  set (beforeMatch := JS.trim (JS.substring lineText 0 columnIndex)) in *.
  destruct (JS.endsWith beforeMatch "[") eqn:Hb; [now right|]. left.
  destruct (JS.endsWith beforeMatch ".") eqn:Hdot;
    [cbn [orb] in Hp; discriminate Hp|].
  cbn [negb andb] in Hu. rewrite !andb_true_r in Hu.
  destruct (RegExp.exec (RE "^(const|let|var|function)\s*$") beforeMatch)
    as [m|] eqn:E; [|discriminate Hu].
  apply declaration_test in E. destruct E as (word & w & Hin & E & Hw).
  destruct w as [|x w].
  - rewrite E. replace (word ++ "")%string with word; [assumption|].
    clear. induction word as [|c word IH]; simpl; [reflexivity|].
    now rewrite <- IH.
  - exfalso.
    pose proof (endsWhite_append word (String x w) Hw ltac:(discriminate))
      as Hends.
    rewrite <- E in Hends. unfold beforeMatch, JS.trim in Hends.
    rewrite endsWhite_trimEnd in Hends. discriminate.
Qed.

Lemma categorizeMatch_other_only_if_witness :
  categorizeMatch rejectingHost "function main" 9 "main" plainContext
    ["function main"] 0 "python" = Ok OTHER /\
  (In (JS.trim (JS.substring "function main" 0 9)) declarationKeywords \/
   JS.endsWith (JS.trim (JS.substring "function main" 0 9)) "[" = true).
Proof.
  split; [reflexivity|].
  apply (categorizeMatch_other_only_if rejectingHost "function main" 9
           "main" plainContext ["function main"] 0 "python").
  reflexivity.
Defined.

(* ================================================================== *)
(** * The search pattern *)

Lemma append_empty (s : string) : (s ++ "")%string = s.
Proof. induction s as [|c s IH]; simpl; [reflexivity | now rewrite IH]. Qed.

Lemma pushChars_alts (term : string) (st : RegExp.pstate) :
  RegExp.alts (pushChars term st) = RegExp.alts st.
Proof.
  revert st. induction term as [|c term IH]; intros st; simpl;
    [reflexivity | now rewrite IH].
Qed.

Lemma pushChars_cur (term : string) (st : RegExp.pstate) :
  RegExp.cur (pushChars term st)
  = rev (map RegExp.Char (list_ascii_of_string term)) ++ RegExp.cur st.
Proof.
  revert st. induction term as [|c term IH]; intros st; simpl;
    [reflexivity|].
  rewrite IH. simpl. now rewrite <- app_assoc.
Qed.

(** An escaped term parses to the pattern of its characters. *)
Lemma parse_escaped (term : string) :
  RegExp.parse (escapeRegExp term) = RegExp.POk (literalOf term).
Proof.
  unfold RegExp.parse.
  match goal with
  | |- RegExp.parseFrom ?f _ ?st = _ =>
      destruct (parseFrom_escaped term EmptyString f st)
        as (fuel' & Hlen & E)
  end.
  { rewrite append_empty. lia. }
  rewrite append_empty in E. rewrite E.
  destruct fuel' as [|fuel']; [simpl in Hlen; lia|].
  cbn [RegExp.parseFrom]. rewrite pushChars_stack. cbn [RegExp.stack].
  rewrite pushChars_alts, pushChars_cur. cbn [RegExp.alts RegExp.cur].
  unfold RegExp.closeLevel, literalOf. cbn [fold_left].
  now rewrite app_nil_r, rev_involutive.
Qed.

(** X13. [createSearchPattern] never throws, whatever the search term and
    the configuration.  In literal mode the source of the pattern is the
    escaped term; in regex mode it is the term itself, or the escaped
    term when the term is not a valid pattern.  The flags are [g] for a
    case-sensitive search and [gi] otherwise. *)
Theorem createSearchPattern_never_throws
  (host : string -> result (string -> bool)) (searchTerm : string)
  (config : SearchConfiguration) :
  exists pattern,
    createSearchPattern host searchTerm config = Ok pattern /\
    patternFlags pattern = (if caseSensitive config then "g" else "gi") /\
    (useRegex config = false ->
     patternSource pattern = escapeRegExp searchTerm) /\
    (useRegex config = true ->
     (patternSource pattern = searchTerm /\
      exists object, newRegExp host searchTerm = Ok object)
     \/
     (patternSource pattern = escapeRegExp searchTerm /\
      exists e, newRegExp host searchTerm = Throw e)).
Proof.
  assert (Hesc : newRegExp host (escapeRegExp searchTerm)
                 = Ok (Compiled (literalOf searchTerm))).
  { unfold newRegExp. now rewrite parse_escaped. }
  unfold createSearchPattern. destruct (useRegex config); cbn [negb].
  - destruct (newRegExp host searchTerm) as [object|e] eqn:E.
    + eexists. split; [reflexivity|]. cbn. split; [reflexivity|].
      split; [discriminate|]. intros _. left. split; [reflexivity|].
      now exists object.
    + rewrite Hesc. cbn [bind]. eexists. split; [reflexivity|]. cbn.
      split; [reflexivity|]. split; [discriminate|]. intros _. right.
      split; [reflexivity|]. now exists e.
  - rewrite Hesc. eexists. split; [reflexivity|]. cbn.
    split; [reflexivity|]. split; [reflexivity | discriminate].
Qed.

Lemma rmatch_literal (len : nat) (chars : list ascii) (rest : string)
  (caps : RegExp.captures) (k : RegExp.cont) :
  RegExp.rmatch len (RegExp.seqOf (map RegExp.Char chars)) rest caps k
  = if JS.startsWith rest (string_of_list_ascii chars)
    then k (JS.drop (List.length chars) rest) caps
    else None.
Proof.
  revert rest. induction chars as [|c chars IH]; intros rest.
  - simpl. now destruct rest.
  - destruct chars as [|d chars].
    + simpl. destruct rest as [|x rest]; [reflexivity|]. simpl.
      destruct (Ascii.eqb c x); [|reflexivity]. now destruct rest.
    + change (RegExp.seqOf (map RegExp.Char (c :: d :: chars)))
        with (RegExp.Seq (RegExp.Char c)
                (RegExp.seqOf (map RegExp.Char (d :: chars)))).
      cbn [RegExp.rmatch]. unfold RegExp.single at 1.
      destruct rest as [|x rest]; [reflexivity|].
      change (JS.startsWith (String x rest)
                (string_of_list_ascii (c :: d :: chars)))
        with (Ascii.eqb c x
              && JS.startsWith rest (string_of_list_ascii (d :: chars))).
      destruct (Ascii.eqb c x); [|reflexivity].
      rewrite IH. reflexivity.
Qed.

Lemma execFrom_literal (len : nat) (term s : string) :
  RegExp.execFrom len (literalOf term) s <> None <-> contains term s.
Proof.
  unfold literalOf, contains.
  induction s as [|c s IH]; simpl; rewrite rmatch_literal,
    string_of_list_ascii_of_string.
  - destruct (JS.startsWith EmptyString term) eqn:E.
    + split; [intros _ | discriminate]. exists 0. now apply occursAt_0.
    + split; [congruence|]. intros (k & Hk).
      pose proof (occursAt_empty _ _ Hk) as ->.
      apply occursAt_0 in Hk. congruence.
  - destruct (JS.startsWith (String c s) term) eqn:E.
    + split; [intros _ | discriminate]. exists 0. now apply occursAt_0.
    + rewrite IH. split.
      * intros (k & Hk). exists (S k). now apply occursAt_S.
      * intros ([|k] & Hk).
        -- apply occursAt_0 in Hk. congruence.
        -- exists k. now apply occursAt_S in Hk.
Qed.

(** X14. Escaping makes a search term literal: the escaped term always
    compiles, and the pattern it compiles to matches a line, case
    sensitively, exactly when the line contains the term. *)
Theorem escaped_term_is_literal
  (host : string -> result (string -> bool)) (searchTerm : string) :
  exists r,
    newRegExp host (escapeRegExp searchTerm) = Ok (Compiled r) /\
    forall line, RegExp.test r line = true <-> contains searchTerm line.
Proof.
  exists (literalOf searchTerm). split.
  - unfold newRegExp. now rewrite parse_escaped.
  - intros line. rewrite <- (execFrom_literal (length line)).
    unfold RegExp.test, RegExp.exec.
    destruct (RegExp.execFrom (length line) (literalOf searchTerm) line);
      split; congruence.
Qed.

(* ================================================================== *)
(** * The matches of a line *)

Section FindMatchesProperties.

Variable searchFrom : string -> nat -> option (nat * nat).
Hypothesis contract : searchContract searchFrom.

Lemma findMatches_loop_spec (line : string) :
  forall fuel lastIndex acc,
    length line + 1 - lastIndex < fuel ->
    exists found,
      findMatches_loop searchFrom fuel line lastIndex acc
      = Some (acc ++ found) /\
      StronglySorted lt (map index found) /\
      Forall (fun m => lastIndex <= index m <= length line) found /\
      List.length found <= length line + 1 - lastIndex.
Proof.
  induction fuel as [|fuel IH]; intros lastIndex acc Hfuel; [lia|].
  cbn [findMatches_loop]. unfold execGlobal.
  destruct (Nat.ltb_spec (length line) lastIndex) as [Hpast | Hin].
  { exists []. rewrite app_nil_r. cbn [map List.length].
    split; [reflexivity|]. split; [constructor|].
    split; [constructor | lia]. }
  destruct (searchFrom line lastIndex) as [[start stop]|] eqn:E.
  2:{ exists []. rewrite app_nil_r. cbn [map List.length].
      split; [reflexivity|]. split; [constructor|].
      split; [constructor | lia]. }
  destruct (contract _ _ _ _ E) as (H1 & H2 & H3).
  cbn [index].
  set (next := if start =? stop then stop + 1 else stop).
  assert (Hnext : start < next /\ next <= length line + 1).
  { unfold next. destruct (Nat.eqb_spec start stop); lia. }
  set (m := {| index := start;
               matchText :=
                 JS.substring line (Z.of_nat start) (Z.of_nat stop) |}).
  destruct (IH next (acc ++ [m]) ltac:(lia))
    as (found & Hloop & Hsorted & Hall & Hcount).
  exists (m :: found). rewrite Hloop, <- app_assoc. split; [reflexivity|].
  split; [|split].
  - cbn [map]. constructor; [assumption|].
    apply Forall_map. eapply Forall_impl; [|exact Hall].
    intros x Hx. cbv beta in Hx. unfold m. cbn [index]. lia.
  - constructor; [unfold m; cbn [index]; lia|].
    eapply Forall_impl; [|exact Hall]. intros x Hx. cbv beta in Hx. lia.
  - cbn [List.length]. lia.
Qed.

Lemma findMatches_loop_fuel (line : string) :
  forall fuel1 fuel2 lastIndex acc,
    length line + 1 - lastIndex < fuel1 ->
    length line + 1 - lastIndex < fuel2 ->
    findMatches_loop searchFrom fuel1 line lastIndex acc
    = findMatches_loop searchFrom fuel2 line lastIndex acc.
Proof.
  induction fuel1 as [|fuel1 IH]; intros fuel2 lastIndex acc H1 H2; [lia|].
  destruct fuel2 as [|fuel2]; [lia|].
  cbn [findMatches_loop]. unfold execGlobal.
  destruct (Nat.ltb_spec (length line) lastIndex) as [Hpast | Hin];
    [reflexivity|].
  destruct (searchFrom line lastIndex) as [[start stop]|] eqn:E;
    [|reflexivity].
  destruct (contract _ _ _ _ E) as (A & B & C). cbn [index].
  apply IH; destruct (Nat.eqb_spec start stop); lia.
Qed.

End FindMatchesProperties.

(** X15. Whatever the pattern, provided its search returns matches that
    start at or after the position asked for and end inside the line,
    the loop of [findMatches] ends: the step past an empty match keeps
    [lastIndex] moving, so any fuel above the length of the line plus one
    gives the same array.  The matches are reported from left to right,
    with strictly increasing start indices, none beyond the end of the
    line; there are at most one more than the line has characters. *)
Theorem findMatches_terminates_increasing
  (searchFrom : string -> nat -> option (nat * nat)) (line : string) :
  searchContract searchFrom ->
  (forall fuel,
      length line + 1 < fuel ->
      findMatches_loop searchFrom fuel line 0 []
      = Some (findMatches searchFrom line)) /\
  StronglySorted lt (map index (findMatches searchFrom line)) /\
  Forall (fun m => index m <= length line) (findMatches searchFrom line) /\
  List.length (findMatches searchFrom line) <= length line + 1.
Proof.
  intros contract.
  destruct (findMatches_loop_spec searchFrom contract line
              (length line + 2) 0 [] ltac:(lia))
    as (found & Hloop & Hsorted & Hall & Hcount).
  assert (E : findMatches searchFrom line = found).
  { unfold findMatches. now rewrite Hloop. }
  rewrite E. split; [|split; [|split]].
  - intros fuel Hfuel.
    rewrite (findMatches_loop_fuel searchFrom contract line fuel
               (length line + 2)) by lia.
    exact Hloop.
  - assumption.
  - eapply Forall_impl; [|exact Hall]. intros x Hx. cbv beta in Hx. lia.
  - lia.
Qed.

Lemma matches_length (len : nat) (r : RegExp.regex) (a b : string) :
  Matches len r a b -> length b <= length a.
Proof. intros M. induction M; simpl; lia. Qed.

Lemma searchAt_contract (len : nat) (r : RegExp.regex) (from : nat) :
  forall rest pos start stop,
    searchAt len r rest pos from = Some (start, stop) ->
    from <= start /\ start <= stop /\ stop <= pos + length rest.
Proof.
  induction rest as [|c rest IH]; intros pos start stop; cbn [searchAt].
  - destruct (Nat.leb_spec from pos) as [Hle | Hgt]; [|discriminate].
    destruct (RegExp.rmatch len r EmptyString [] acceptAll)
      as [[rest' caps]|] eqn:E; [|discriminate].
    intros [= <- <-]. apply rmatch_sound in E.
    destruct E as (rest1 & caps1 & M & [= <- <-]).
    apply matches_length in M. lia.
  - destruct (Nat.leb_spec from pos) as [Hle | Hgt].
    + destruct (RegExp.rmatch len r (String c rest) [] acceptAll)
        as [[rest' caps]|] eqn:E.
      * intros [= <- <-]. apply rmatch_sound in E.
        destruct E as (rest1 & caps1 & M & [= <- <-]).
        apply matches_length in M.
        change (length (String c rest)) with (S (length rest)) in *.
        change (match length rest1 with
                | 0 => S (length rest)
                | S l => length rest - l
                end) with (S (length rest) - length rest1).
        lia.
      * intros H. apply IH in H.
        change (length (String c rest)) with (S (length rest)). lia.
    + intros H. apply IH in H.
      change (length (String c rest)) with (S (length rest)). lia.
Qed.

(** The search of a compiled pattern honours the contract. *)
Lemma regexSearch_contract (r : RegExp.regex) :
  searchContract (regexSearch r).
Proof.
  intros line from start stop H. unfold regexSearch in H.
  apply searchAt_contract in H. lia.
Qed.

Lemma findMatches_terminates_increasing_witness :
  searchContract (regexSearch (literalOf "ab")) /\
  findMatches (regexSearch (literalOf "ab")) "abcab"
  = [ {| index := 0; matchText := "ab" |};
      {| index := 3; matchText := "ab" |} ] /\
  StronglySorted lt
    (map index (findMatches (regexSearch (literalOf "ab")) "abcab")).
Proof.
  split; [apply regexSearch_contract|]. split; [reflexivity|].
  apply (findMatches_terminates_increasing (regexSearch (literalOf "ab"))
           "abcab").
  apply regexSearch_contract.
Defined.

(* ================================================================== *)
(** * The analysis of one match *)

Lemma getMatchContext_flags (lineText : string) (columnIndex : Z)
  (allLines : list string) (lineNumber : Z) (context : MatchContext.t) :
  getMatchContext lineText columnIndex allLines lineNumber = Ok context ->
  MatchContext.isInComment context = isInComment lineText columnIndex /\
  MatchContext.isInString context = isInString lineText columnIndex.
Proof.
  unfold getMatchContext.
  destruct (getFunctionContext allLines lineNumber) as [fn|]; [|discriminate].
  destruct (getClassContext allLines lineNumber) as [cls|]; [|discriminate].
  cbn [bind].
  destruct (isImportStatement (JS.trim lineText) "").
  - destruct (extractImportedItems lineText) as [items|]; [|discriminate].
    cbn [bind]. intros [= <-]. now split.
  - cbn [bind]. intros [= <-]. now split.
Qed.

Lemma categorizeMatch_flags
  (host : string -> result (string -> bool))
  (lineText : string) (columnIndex : Z) (searchTerm : string)
  (context : MatchContext.t) (allLines : list string) (lineNumber : Z)
  (languageId : string) (category : UsageCategory) :
  categorizeMatch host lineText columnIndex searchTerm context allLines
    lineNumber languageId = Ok category ->
  (category = COMMENT <-> MatchContext.isInComment context = true) /\
  (category = STRING_LITERAL <->
   MatchContext.isInComment context = false /\
   MatchContext.isInString context = true).
Proof.
  unfold categorizeMatch.
  destruct (MatchContext.isInComment context).
  { intros [= <-]. split; split; try tauto; try discriminate.
    intros [H _]; discriminate H. }
  destruct (MatchContext.isInString context).
  { intros [= <-]. split; split; try tauto; try discriminate. }
  intros H. split; split.
  - intros ->. revert H. chain.
  - discriminate.
  - intros ->. revert H. chain.
  - intros [_ Hs]. discriminate Hs.
Qed.

(** X16. For a line inside the file, [analyzeMatch] drops the match
    (returns [null]) exactly when comments are excluded and the column is
    in a comment, or string literals are excluded and the column is in a
    string.  The two filters are independent: with comments included and
    strings excluded, a match inside a comment is dropped too when
    [isInString] holds at its column. *)
Theorem analyzeMatch_dropped
  (host : string -> result (string -> bool)) (document : TextDocument)
  (lineNumber columnIndex : nat) (searchTerm lineText : string)
  (allLines : list string) (config : SearchConfiguration) :
  lineNumber < List.length allLines ->
  analyzeMatch host document lineNumber columnIndex searchTerm lineText
    allLines config = Ok None
  <->
  (includeComments config = false /\
   isInComment lineText (Z.of_nat columnIndex) = true)
  \/
  (includeStringLiterals config = false /\
   isInString lineText (Z.of_nat columnIndex) = true).
Proof.
  intros Hrange.
  destruct (getMatchContext_ok lineText (Z.of_nat columnIndex) allLines
              (Z.of_nat lineNumber) ltac:(lia))
    as (fn & cls & imported & _ & _ & _ & Hctx).
  unfold analyzeMatch. rewrite Hctx. cbn [bind].
  cbn [MatchContext.isInComment MatchContext.isInString].
  destruct (includeComments config);
    destruct (includeStringLiterals config);
    destruct (isInComment lineText (Z.of_nat columnIndex));
    destruct (isInString lineText (Z.of_nat columnIndex));
    cbn [negb andb];
    try (split; [intros _; tauto | reflexivity]);
    destruct (categorizeMatch _ _ _ _ _ _ _ _); cbn [bind];
    (split; [discriminate | intuition discriminate]).
Qed.

Lemma analyzeMatch_dropped_witness :
  0 < List.length ["// don't touch total"] /\
  analyzeMatch rejectingHost
    {| documentUri := "a.ts"; documentLanguageId := "typescript";
       documentText := "// don't touch total" |}
    0 15 "total" "// don't touch total" ["// don't touch total"]
    DEFAULT_SEARCH_CONFIG = Ok None.
Proof.
  split; [simpl; lia|].
  apply (analyzeMatch_dropped rejectingHost
           {| documentUri := "a.ts"; documentLanguageId := "typescript";
              documentText := "// don't touch total" |}
           0 15 "total" "// don't touch total" ["// don't touch total"]
           DEFAULT_SEARCH_CONFIG); [simpl; lia|].
  right. split; reflexivity.
Defined.

(** X17. A match that [analyzeMatch] returns carries the line, the
    column, the line text and the search term it was given, and a range
    from the column to the column plus the length of the search term on
    that line.  Its category is [COMMENT] exactly when [isInComment]
    holds at the column, which requires that comments are included, and
    [STRING_LITERAL] exactly when [isInComment] fails and [isInString]
    holds there, which requires that string literals are included. *)
Theorem analyzeMatch_returned
  (host : string -> result (string -> bool)) (document : TextDocument)
  (lineNumber columnIndex : nat) (searchTerm lineText : string)
  (allLines : list string) (config : SearchConfiguration)
  (found : SearchMatch.t) :
  analyzeMatch host document lineNumber columnIndex searchTerm lineText
    allLines config = Ok (Some found) ->
  let inComment := isInComment lineText (Z.of_nat columnIndex) in
  let inString := isInString lineText (Z.of_nat columnIndex) in
  SearchMatch.line found = lineNumber /\
  SearchMatch.column found = columnIndex /\
  SearchMatch.lineText found = lineText /\
  SearchMatch.searchTerm found = searchTerm /\
  SearchMatch.file found = documentUri document /\
  SearchMatch.range found
  = {| rangeStart := {| positionLine := lineNumber;
                        positionCharacter := columnIndex |};
       rangeEnd := {| positionLine := lineNumber;
                      positionCharacter :=
                        columnIndex + length searchTerm |} |} /\
  (SearchMatch.category found = COMMENT <-> inComment = true) /\
  (SearchMatch.category found = STRING_LITERAL <->
   inComment = false /\ inString = true) /\
  (inComment = true -> includeComments config = true) /\
  (inString = true -> includeStringLiterals config = true).
Proof.
  unfold analyzeMatch.
  destruct (getMatchContext lineText (Z.of_nat columnIndex) allLines
              (Z.of_nat lineNumber)) as [context|] eqn:Hctx;
    [|discriminate].
  apply getMatchContext_flags in Hctx. destruct Hctx as [Hc Hs].
  cbn [bind]. rewrite Hc, Hs.
  destruct (negb (includeComments config)
            && isInComment lineText (Z.of_nat columnIndex)) eqn:F1;
    [discriminate|].
  destruct (negb (includeStringLiterals config)
            && isInString lineText (Z.of_nat columnIndex)) eqn:F2;
    [discriminate|].
  destruct (categorizeMatch _ _ _ _ _ _ _ _) as [category|] eqn:Hcat;
    [|discriminate].
  cbn [bind]. intros [= <-]. cbv zeta.
  cbn [SearchMatch.line SearchMatch.column SearchMatch.lineText
       SearchMatch.searchTerm SearchMatch.file SearchMatch.range
       SearchMatch.category].
  apply categorizeMatch_flags in Hcat. rewrite Hc, Hs in Hcat.
  destruct Hcat as [Hcomment Hstring].
  repeat (split; [reflexivity|]).
  split; [exact Hcomment|]. split; [exact Hstring|].
  split.
  - intros Hin. rewrite Hin, andb_true_r in F1.
    now apply negb_false_iff in F1.
  - intros Hin. rewrite Hin, andb_true_r in F2.
    now apply negb_false_iff in F2.
Qed.

Lemma analyzeMatch_returned_witness :
  exists found,
    analyzeMatch rejectingHost
      {| documentUri := "a.py"; documentLanguageId := "python";
         documentText := "# total of x" |}
      0 2 "total" "# total of x" ["# total of x"] DEFAULT_SEARCH_CONFIG
    = Ok (Some found) /\
    SearchMatch.category found = COMMENT /\
    SearchMatch.line found = 0.
Proof.
  eexists. split; [reflexivity|]. split; [reflexivity|].
  eapply (analyzeMatch_returned rejectingHost
            {| documentUri := "a.py"; documentLanguageId := "python";
               documentText := "# total of x" |}
            0 2 "total" "# total of x" ["# total of x"]
            DEFAULT_SEARCH_CONFIG).
  reflexivity.
Defined.

(* ================================================================== *)
(** * A literal search reports occurrences of the term *)

Lemma substring_in_range (s : string) (a b : nat) :
  a <= b -> b <= length s ->
  JS.substring s (Z.of_nat a) (Z.of_nat b) = JS.take (b - a) (JS.drop a s).
Proof.
  intros Hab Hb. unfold JS.substring, JS.clamp.
  rewrite !Nat2Z.id.
  replace (Nat.min a (length s)) with a by lia.
  replace (Nat.min b (length s)) with b by lia.
  now rewrite Nat.min_l, Nat.max_r by lia.
Qed.

Lemma occursAt_substring (term line : string) (start : nat) :
  occursAt term line start ->
  JS.substring line (Z.of_nat start) (Z.of_nat (start + length term)) = term.
Proof.
  intros Hocc. pose proof (occursAt_bound _ _ _ Hocc) as Hb.
  destruct Hocc as (pre & post & -> & <-).
  rewrite substring_in_range by lia.
  rewrite drop_append by lia.
  replace (JS.drop (length pre) pre) with EmptyString.
  - simpl. rewrite take_append by lia.
    replace (length pre + length term - length pre - length term) with 0
      by lia.
    destruct post; simpl; apply append_empty.
  - clear. induction pre as [|c pre IH]; simpl; [reflexivity | exact IH].
Qed.

Lemma startsWith_length_list (chars : list ascii) :
  length (string_of_list_ascii chars) = List.length chars.
Proof. induction chars as [|c l IH]; simpl; [reflexivity | now rewrite IH]. Qed.

Lemma searchAt_literal (len : nat) (term : string) (from : nat) :
  forall rest pos start stop,
    searchAt len (literalOf term) rest pos from = Some (start, stop) ->
    exists offset,
      start = pos + offset /\ occursAt term rest offset /\
      stop = start + length term.
Proof.
  assert (Hlen : List.length (list_ascii_of_string term) = length term).
  { rewrite <- startsWith_length_list.
    now rewrite string_of_list_ascii_of_string. }
  unfold literalOf.
  induction rest as [|c rest IH]; intros pos start stop; cbn [searchAt];
    rewrite rmatch_literal, string_of_list_ascii_of_string.
  - destruct (Nat.leb_spec from pos); [|discriminate].
    destruct (JS.startsWith EmptyString term) eqn:E; [|discriminate].
    unfold acceptAll. intros [= <- <-]. exists 0.
    split; [lia|]. split; [now apply occursAt_0|].
    apply occursAt_0 in E. apply occursAt_bound in E.
    simpl in E. lia.
  - destruct (if from <=? pos
              then if JS.startsWith (String c rest) term
                   then acceptAll
                          (JS.drop (List.length (list_ascii_of_string term))
                             (String c rest)) []
                   else None
              else None) as [[rest' caps]|] eqn:E.
    + destruct (Nat.leb_spec from pos); [|discriminate].
      destruct (JS.startsWith (String c rest) term) eqn:Es; [|discriminate].
      unfold acceptAll in E. injection E as <- <-.
      intros [= <- <-]. exists 0.
      split; [lia|]. split; [now apply occursAt_0|].
      apply occursAt_0 in Es. apply occursAt_bound in Es.
      match goal with
      | |- context [match ?x with 0 => S ?a | S l => _ end] =>
          change (match x with 0 => S a | S l => a - l end) with (S a - x)
      end.
      rewrite drop_length, Hlen.
      change (length (String c rest)) with (S (length rest)) in *. lia.
    + intros H. apply IH in H.
      destruct H as (offset & -> & Hocc & ->).
      exists (S offset). split; [lia|]. split; [|lia].
      now apply occursAt_S.
Qed.

Section FindMatchesAll.

Variable searchFrom : string -> nat -> option (nat * nat).
Variable line : string.
Variable good : FoundMatch -> Prop.
Hypothesis search_good :
  forall from start stop,
    searchFrom line from = Some (start, stop) ->
    good {| index := start;
            matchText :=
              JS.substring line (Z.of_nat start) (Z.of_nat stop) |}.

(** A property of every result of the search holds of every match the
    loop collects. *)
Lemma findMatches_loop_all :
  forall fuel lastIndex acc found,
    findMatches_loop searchFrom fuel line lastIndex acc = Some found ->
    Forall good acc -> Forall good found.
Proof.
  induction fuel as [|fuel IH]; intros lastIndex acc found; [discriminate|].
  cbn [findMatches_loop]. unfold execGlobal.
  destruct (length line <? lastIndex); [now intros [= <-]|].
  destruct (searchFrom line lastIndex) as [[start stop]|] eqn:E;
    [|now intros [= <-]].
  intros H Hacc. apply IH in H; [assumption|].
  apply Forall_app. split; [assumption|].
  constructor; [|constructor]. now apply search_good with lastIndex.
Qed.

Lemma findMatches_all : Forall good (findMatches searchFrom line).
Proof.
  unfold findMatches.
  destruct (findMatches_loop searchFrom (length line + 2) line 0 [])
    as [found|] eqn:E; [|constructor].
  apply (findMatches_loop_all _ _ _ _ E). constructor.
Qed.

End FindMatchesAll.

(** X18. In a case-sensitive literal search, every match that
    [findMatches] reports for a line is an occurrence of the search term:
    the term occurs in the line at the reported index, and the reported
    text is the term. *)
Theorem findMatches_literal_occurrences (searchTerm line : string) :
  Forall
    (fun found =>
       occursAt searchTerm line (index found) /\
       matchText found = searchTerm)
    (findMatches (regexSearch (literalOf searchTerm)) line).
Proof.
  apply findMatches_all. intros from start stop H. cbn [index matchText].
  unfold regexSearch in H. apply searchAt_literal in H.
  destruct H as (offset & -> & Hocc & ->). simpl.
  split; [assumption|]. now apply occursAt_substring.
Qed.

(* ================================================================== *)
(** * The previews of a line *)





(** X20. The preview of the tree view: the trimmed line when it is no
    longer than the limit, and otherwise its first [maxLength - 3]
    characters followed by three dots.  The preview never exceeds the
    larger of the limit and 3: below a limit of 3 a long line is shown as
    the three dots alone. *)
Theorem TreeViewProvider_formatLinePreview_spec (lineText : string)
  (maxLength : Z) :
  let trimmed := JS.trim lineText in
  let preview := TreeViewProvider.formatLinePreview lineText maxLength in
  preview
  = (if (Z.of_nat (length trimmed) <=? maxLength)%Z then trimmed
     else (JS.take (Z.to_nat (maxLength - 3)) trimmed ++ "...")%string) /\
  (Z.of_nat (length preview) <= Z.max maxLength 3)%Z.
Proof.
  cbv zeta. unfold TreeViewProvider.formatLinePreview.
  set (trimmed := JS.trim lineText).
  destruct (Z.leb_spec (Z.of_nat (length trimmed)) maxLength) as [Hfit | Hlong].
  - split; [reflexivity | lia].
  - rewrite substring_0. unfold JS.clamp.
    replace (Nat.min (Z.to_nat (maxLength - 3)) (length trimmed))
      with (Z.to_nat (maxLength - 3)) by lia.
    split; [reflexivity|].
    rewrite append_length, take_length. simpl. lia.
Qed.

(* ================================================================== *)
(** * The results of a search *)

Lemma categoryEqb_eq (a b : UsageCategory) :
  categoryEqb a b = true <-> a = b.
Proof.
  unfold categoryEqb. rewrite Nat.eqb_eq. split.
  - destruct a, b; simpl; intros E; try reflexivity; discriminate E.
  - intros ->. reflexivity.
Qed.

Lemma categoryEqb_refl (a : UsageCategory) : categoryEqb a a = true.
Proof. now apply categoryEqb_eq. Qed.

Lemma categoryEqb_neq (a b : UsageCategory) :
  categoryEqb a b = false <-> a <> b.
Proof.
  rewrite <- categoryEqb_eq. destruct (categoryEqb a b); split; congruence.
Qed.

Lemma mapGet_None {V : Type} (key : UsageCategory) (m : CategoryMap V) :
  ~ In key (map fst m) -> mapGet key m = None.
Proof.
  induction m as [|[k v] m IH]; simpl; intros Hn; [reflexivity|].
  destruct (categoryEqb k key) eqn:E.
  - apply categoryEqb_eq in E. tauto.
  - apply IH. tauto.
Qed.

Lemma mapGet_mapSet {V : Type} (key key' : UsageCategory) (value : V)
  (m : CategoryMap V) :
  mapGet key' (mapSet key value m)
  = if categoryEqb key key' then Some value else mapGet key' m.
Proof.
  induction m as [|[k v] m IH]; simpl.
  - reflexivity.
  - destruct (categoryEqb k key) eqn:E; simpl.
    + apply categoryEqb_eq in E. subst k.
      destruct (categoryEqb key key'); reflexivity.
    + destruct (categoryEqb k key') eqn:E'.
      * apply categoryEqb_eq in E'. subst k.
        destruct (categoryEqb key key') eqn:E2; [|reflexivity].
        apply categoryEqb_eq in E2. subst key'.
        now rewrite categoryEqb_refl in E.
      * exact IH.
Qed.

Lemma matchesOf_mapSet (key key' : UsageCategory)
  (value : list SearchMatch.t) (m : CategoryMap (list SearchMatch.t)) :
  matchesOf key' (mapSet key value m)
  = if categoryEqb key key' then value else matchesOf key' m.
Proof.
  unfold matchesOf. rewrite mapGet_mapSet.
  destruct (categoryEqb key key'); reflexivity.
Qed.

Lemma mapSet_keys {V : Type} (key : UsageCategory) (value : V)
  (m : CategoryMap V) :
  In key (map fst m) -> map fst (mapSet key value m) = map fst m.
Proof.
  induction m as [|[k v] m IH]; simpl; intros Hin; [contradiction|].
  destruct (categoryEqb k key) eqn:E; simpl.
  - reflexivity.
  - f_equal. apply IH. destruct Hin as [->|Hin]; [|exact Hin].
    now rewrite categoryEqb_refl in E.
Qed.

Lemma mapSet_fresh {V : Type} (key : UsageCategory) (value : V)
  (m : CategoryMap V) :
  ~ In key (map fst m) -> mapSet key value m = m ++ [(key, value)].
Proof.
  induction m as [|[k v] m IH]; simpl; intros Hn; [reflexivity|].
  destruct (categoryEqb k key) eqn:E.
  - apply categoryEqb_eq in E. tauto.
  - f_equal. apply IH. tauto.
Qed.

Lemma mapSet_In {V : Type} (key : UsageCategory) (value : V)
  (m : CategoryMap V) (k : UsageCategory) (v : V) :
  In (k, v) (mapSet key value m) ->
  (k = key /\ v = value) \/ In (k, v) m.
Proof.
  induction m as [|[k0 v0] m IH]; simpl.
  - intros [[= <- <-]|[]]. now left.
  - destruct (categoryEqb k0 key) eqn:E; simpl.
    + apply categoryEqb_eq in E. subst k0.
      intros [[= <- <-]|Hin]; [now left | now right; right].
    + intros [Heq|Hin]; [now right; left|].
      destruct (IH Hin) as [?|?]; [now left | now right; right].
Qed.

(** Replacing the array of a category changes the number of stored
    matches by the difference of the lengths. *)
Lemma storedMatches_mapSet (key : UsageCategory)
  (value : list SearchMatch.t) (m : CategoryMap (list SearchMatch.t)) :
  storedMatches (mapSet key value m) + List.length (matchesOf key m)
  = storedMatches m + List.length value.
Proof.
  unfold storedMatches, matchesOf.
  induction m as [|[k v] m IH]; simpl.
  - lia.
  - destruct (categoryEqb k key) eqn:E; simpl; lia.
Qed.

Lemma In_matchesOf (key : UsageCategory)
  (m : CategoryMap (list SearchMatch.t)) (x : SearchMatch.t) :
  In x (matchesOf key m) -> exists l, In (key, l) m /\ In x l.
Proof.
  unfold matchesOf.
  induction m as [|[k v] m IH]; simpl; [contradiction|].
  destruct (categoryEqb k key) eqn:E.
  - apply categoryEqb_eq in E. subst k. intros Hin. exists v. tauto.
  - intros Hin. destruct (IH Hin) as (l & Hl & Hx). exists l. tauto.
Qed.

(** What an iteration of a loop keeps, the loop keeps. *)
Lemma forEach_invariant {A B : Type} (P : A -> Prop)
  (body : A -> B -> result A) (items : list B) :
  (forall state item state',
      In item items -> P state -> body state item = Ok state' -> P state') ->
  forall state state',
    P state -> forEach body items state = Ok state' -> P state'.
Proof.
  induction items as [|item items IH]; simpl; intros Hbody state state' HP.
  - now intros [= <-].
  - destruct (body state item) as [state1|e] eqn:Hb; [|discriminate].
    cbn [bind]. apply IH.
    + intros s i s' Hi. apply Hbody. now right.
    + apply (Hbody state item); auto.
Qed.

(** A loop whose iterations do not throw does not throw. *)
Lemma forEach_total {A B : Type} (body : A -> B -> result A)
  (items : list B) :
  (forall state item,
      In item items -> exists state', body state item = Ok state') ->
  forall state, exists state', forEach body items state = Ok state'.
Proof.
  induction items as [|item items IH]; simpl; intros Hbody state.
  - now exists state.
  - destruct (Hbody state item) as [state1 ->]; [now left|].
    cbn [bind]. apply IH. intros s i Hi. apply Hbody. now right.
Qed.

(** The fields of a match [analyzeMatch] returns. *)
Lemma analyzeMatch_fields
  (host : string -> result (string -> bool)) (document : TextDocument)
  (lineNumber columnIndex : nat) (searchTerm lineText : string)
  (allLines : list string) (config : SearchConfiguration)
  (found : SearchMatch.t) :
  analyzeMatch host document lineNumber columnIndex searchTerm lineText
    allLines config = Ok (Some found) ->
  SearchMatch.line found = lineNumber /\
  SearchMatch.column found = columnIndex /\
  SearchMatch.lineText found = lineText /\
  SearchMatch.searchTerm found = searchTerm /\
  SearchMatch.file found = documentUri document.
Proof.
  unfold analyzeMatch.
  destruct (getMatchContext _ _ _ _) as [context|]; [|discriminate].
  cbn [bind].
  destruct (_ && _); [discriminate|].
  destruct (_ && _); [discriminate|].
  destruct (categorizeMatch _ _ _ _ _ _ _ _); [|discriminate].
  cbn [bind]. intros [= <-]. repeat split.
Qed.

Lemma In_numbered (lines : list string) (lineNumber : nat) (line : string) :
  In (lineNumber, line) (combine (seq 0 (List.length lines)) lines) ->
  nth_error lines lineNumber = Some line.
Proof.
  enough (G : forall start,
             In (lineNumber, line)
               (combine (seq start (List.length lines)) lines) ->
             start <= lineNumber /\
             nth_error lines (lineNumber - start) = Some line).
  { intros Hin. destruct (G 0 Hin) as [_ Hn].
    now rewrite Nat.sub_0_r in Hn. }
  induction lines as [|l lines IH]; simpl; intros start Hin; [contradiction|].
  destruct Hin as [[= <- <-]|Hin].
  - rewrite Nat.sub_diag. split; [lia | reflexivity].
  - destruct (IH (S start) Hin) as [Hle Hn]. split; [lia|].
    replace (lineNumber - start) with (S (lineNumber - S start)) by lia.
    exact Hn.
Qed.

Lemma In_allCategories (category : UsageCategory) :
  In category allCategories.
Proof. destruct category; simpl; tauto. Qed.

Lemma recordMatch_invariant
  (host : string -> result (string -> bool)) (document : TextDocument)
  (searchTerm : string) (config : SearchConfiguration)
  (lines : list string) (lineNumber : nat) (line : string)
  (results : CategorizedResults) (found : FoundMatch)
  (results' : CategorizedResults) :
  nth_error lines lineNumber = Some line ->
  documentInvariant document searchTerm lines results ->
  recordMatch host document searchTerm config lines lineNumber line results
    found = Ok results' ->
  documentInvariant document searchTerm lines results'.
Proof.
  intros Hline (Hkeys & Htotal & Hrec & Hterm & Hfiles & Htime).
  unfold recordMatch.
  destruct (analyzeMatch _ _ _ _ _ _ _ _) as [[searchMatch|]|] eqn:Ha;
    cbn [bind]; [| |discriminate].
  2:{ intros [= <-]. repeat split; assumption. }
  intros [= <-].
  apply analyzeMatch_fields in Ha.
  destruct Ha as (Hl & _ & Ht & Hs & Hf).
  set (category := SearchMatch.category searchMatch).
  unfold documentInvariant.
  cbn [categories totalMatches resultsSearchTerm searchedFiles searchTime].
  repeat split; try assumption.
  - rewrite mapSet_keys; [exact Hkeys|].
    rewrite Hkeys. apply In_allCategories.
  - pose proof (storedMatches_mapSet category
                  (matchesOf category (categories results) ++ [searchMatch])
                  (categories results)) as Hs'.
    rewrite length_app in Hs'. simpl in Hs'. lia.
  - intros c matches Hin. apply mapSet_In in Hin.
    destruct Hin as [[-> ->]|Hin]; [|now apply Hrec].
    apply Forall_app. split.
    + apply Forall_forall. intros x Hx.
      apply In_matchesOf in Hx. destruct Hx as (l & Hl' & Hx).
      specialize (Hrec _ _ Hl'). rewrite Forall_forall in Hrec.
      now apply Hrec.
    + constructor; [|constructor].
      unfold recorded. rewrite Hl, Ht, Hs, Hf. repeat split. exact Hline.
Qed.

Lemma emptyResults_invariant (document : TextDocument)
  (searchTerm : string) (lines : list string) :
  documentInvariant document searchTerm lines (emptyResults searchTerm).
Proof.
  unfold documentInvariant. repeat split.
  intros category matches Hin. simpl in Hin.
  repeat (destruct Hin as [[= <- <-]|Hin]; [constructor|]).
  contradiction.
Qed.

Lemma searchInDocument_invariant
  (host : string -> result (string -> bool))
  (engine : SearchPattern -> string -> nat -> option (nat * nat))
  (document : TextDocument) (searchTerm : string)
  (config : SearchConfiguration) (results : CategorizedResults) :
  searchInDocument host engine document searchTerm config = Ok results ->
  documentInvariant document searchTerm
    (JS.split newline (documentText document)) results.
Proof.
  unfold searchInDocument.
  destruct (createSearchPattern host searchTerm config) as [pattern|];
    [|discriminate].
  cbn [bind].
  apply forEach_invariant; [|apply emptyResults_invariant].
  intros state [lineNumber line] state' Hin Hinv. unfold searchLine.
  apply In_numbered in Hin.
  apply forEach_invariant; [|exact Hinv].
  intros s found s' _. now apply recordMatch_invariant.
Qed.

(** X21. The results [searchInDocument] returns hold the fourteen
    categories in the order of the enumeration; [totalMatches] is the
    number of matches stored under them; and every match is stored under
    its own category, names the document and the search term, and
    carries the text of the line of the document its line number
    designates.  [searchedFiles] and [searchTime] are left at zero. *)
Theorem searchInDocument_results
  (host : string -> result (string -> bool))
  (engine : SearchPattern -> string -> nat -> option (nat * nat))
  (document : TextDocument) (searchTerm : string)
  (config : SearchConfiguration) (results : CategorizedResults) :
  searchInDocument host engine document searchTerm config = Ok results ->
  map fst (categories results) = allCategories /\
  totalMatches results = storedMatches (categories results) /\
  (forall category matches,
      In (category, matches) (categories results) ->
      Forall (recorded document searchTerm
                (JS.split newline (documentText document)) category)
        matches) /\
  resultsSearchTerm results = searchTerm /\
  searchedFiles results = 0 /\
  searchTime results = 0%Z.
Proof. apply searchInDocument_invariant. Qed.

Lemma createSearchPattern_ok
  (host : string -> result (string -> bool)) (searchTerm : string)
  (config : SearchConfiguration) :
  exists pattern, createSearchPattern host searchTerm config = Ok pattern.
Proof.
  assert (Hesc : newRegExp host (escapeRegExp searchTerm)
                 = Ok (Compiled (literalOf searchTerm))).
  { unfold newRegExp. now rewrite parse_escaped. }
  unfold createSearchPattern. cbv zeta.
  destruct (newRegExp host
              (if negb (useRegex config) then escapeRegExp searchTerm
               else searchTerm)) as [object|e];
    [eexists; reflexivity|].
  rewrite Hesc. cbn [bind]. eexists; reflexivity.
Qed.

Lemma isComponentUsage_outside_react
  (host : string -> result (string -> bool))
  (line searchTerm languageId : string) :
  languageId <> "typescriptreact" ->
  languageId <> "javascriptreact" ->
  languageId <> "vue" ->
  isComponentUsage host line searchTerm languageId = Ok false.
Proof.
  intros H1 H2 H3. apply String.eqb_neq in H1, H2, H3.
  unfold isComponentUsage. now rewrite H1, H2, H3.
Qed.

(** Outside the component languages, [analyzeMatch] does not throw for a
    line of the file. *)
Lemma analyzeMatch_ok_outside_react
  (host : string -> result (string -> bool)) (document : TextDocument)
  (lineNumber columnIndex : nat) (searchTerm lineText : string)
  (allLines : list string) (config : SearchConfiguration) :
  documentLanguageId document <> "typescriptreact" ->
  documentLanguageId document <> "javascriptreact" ->
  documentLanguageId document <> "vue" ->
  lineNumber < List.length allLines ->
  exists outcome,
    analyzeMatch host document lineNumber columnIndex searchTerm lineText
      allLines config = Ok outcome.
Proof.
  intros H1 H2 H3 Hrange.
  destruct (getMatchContext_ok lineText (Z.of_nat columnIndex) allLines
              (Z.of_nat lineNumber) ltac:(lia))
    as (fn & cls & imported & _ & _ & _ & Hctx).
  unfold analyzeMatch. rewrite Hctx. cbn [bind].
  destruct (_ && _); [eexists; reflexivity|].
  destruct (_ && _); [eexists; reflexivity|].
  match goal with
  | |- context [categorizeMatch ?h ?l ?c ?t ?x ?a ?n ?g] =>
      destruct (categorizeMatch_total_or_throws h l c t x a n g)
        as [(category & ->)|(e & He & _)]
  end.
  - cbn [bind]. eexists; reflexivity.
  - rewrite isComponentUsage_outside_react in He by assumption.
    discriminate He.
Qed.

(** X22. In a document whose language is none of [typescriptreact],
    [javascriptreact] and [vue], [searchInDocument] returns results: no
    search term, configuration or text makes it throw. *)
Theorem searchInDocument_total_outside_react
  (host : string -> result (string -> bool))
  (engine : SearchPattern -> string -> nat -> option (nat * nat))
  (document : TextDocument) (searchTerm : string)
  (config : SearchConfiguration) :
  documentLanguageId document <> "typescriptreact" ->
  documentLanguageId document <> "javascriptreact" ->
  documentLanguageId document <> "vue" ->
  exists results,
    searchInDocument host engine document searchTerm config = Ok results.
Proof.
  intros H1 H2 H3. unfold searchInDocument.
  destruct (createSearchPattern_ok host searchTerm config) as [pattern ->].
  cbn [bind]. apply forEach_total.
  intros state [lineNumber line] Hin. unfold searchLine.
  apply In_numbered in Hin.
  assert (Hrange : lineNumber
                   < List.length (JS.split newline (documentText document))).
  { apply nth_error_Some. now rewrite Hin. }
  apply forEach_total. intros s found _. unfold recordMatch.
  destruct (analyzeMatch_ok_outside_react host document lineNumber
              (index found) searchTerm line
              (JS.split newline (documentText document)) config
              H1 H2 H3 Hrange) as [[searchMatch|] ->];
    cbn [bind]; eexists; reflexivity.
Qed.

Lemma searchInDocument_total_outside_react_witness :
  exists results,
    searchInDocument rejectingHost compiledEngine
      {| documentUri := "a.ts"; documentLanguageId := "typescript";
         documentText := "const total = 1;" |}
      "(" sampleConfig = Ok results.
Proof.
  apply (searchInDocument_total_outside_react rejectingHost compiledEngine
           {| documentUri := "a.ts"; documentLanguageId := "typescript";
              documentText := "const total = 1;" |}
           "(" sampleConfig); discriminate.
Defined.


Lemma getSearchStats_fold (m : CategoryMap (list SearchMatch.t))
  (stats : CategoryMap nat) :
  NoDup (map fst stats ++ map fst m) ->
  fold_left
    (fun stats entry =>
       let (category, matches) := entry : UsageCategory * list SearchMatch.t in
       if 0 <? List.length matches
       then mapSet category (List.length matches) stats
       else stats)
    m stats
  = stats
    ++ map (fun entry => (fst entry, List.length (snd entry)))
         (filter (fun entry => 0 <? List.length (snd entry)) m).
Proof.
  revert stats. induction m as [|[k v] m IH]; intros stats Hnd.
  - simpl. now rewrite app_nil_r.
  - cbn [fold_left filter map fst snd]. cbn [map fst] in Hnd.
    assert (Hk : ~ In k (map fst stats)).
    { intros Hin. apply NoDup_remove_2 in Hnd. apply Hnd.
      apply in_or_app. now left. }
    assert (Hrest : NoDup (map fst stats ++ map fst m)).
    { now apply NoDup_remove_1 in Hnd. }
    destruct (0 <? List.length v).
    + rewrite IH.
      * rewrite (mapSet_fresh k (List.length v) stats Hk).
        now rewrite <- app_assoc.
      * rewrite (mapSet_fresh k (List.length v) stats Hk).
        rewrite map_app. cbn [map fst]. rewrite <- app_assoc. exact Hnd.
    + now apply IH.
Qed.

Lemma list_sum_filter_positive (lengths : list nat) :
  list_sum (filter (fun n => 0 <? n) lengths) = list_sum lengths.
Proof.
  induction lengths as [|n lengths IH]; [reflexivity|].
  cbn [filter]. destruct (Nat.ltb_spec 0 n); simpl; lia.
Qed.

(** X23. For results whose map holds each category once,
    [getSearchStats] lists the categories that have matches, in the order
    of the map, each with the number of its matches; a category without
    matches has no entry.  The counts add up to the number of matches the
    results store. *)
Theorem getSearchStats_spec (results : CategorizedResults) :
  NoDup (map fst (categories results)) ->
  getSearchStats results
  = map (fun entry => (fst entry, List.length (snd entry)))
      (filter (fun entry => 0 <? List.length (snd entry))
         (categories results)) /\
  list_sum (map snd (getSearchStats results))
  = storedMatches (categories results).
Proof.
  intros Hnd.
  assert (E : getSearchStats results
              = map (fun entry => (fst entry, List.length (snd entry)))
                  (filter (fun entry => 0 <? List.length (snd entry))
                     (categories results))).
  { unfold getSearchStats. now rewrite getSearchStats_fold. }
  split; [exact E|]. rewrite E. unfold storedMatches.
  rewrite <- (list_sum_filter_positive
                (map (fun entry => List.length (snd entry))
                   (categories results))).
  f_equal. clear.
  induction (categories results) as [|[k v] m IH]; [reflexivity|].
  cbn [filter map fst snd]. destruct (0 <? List.length v); simpl;
    now rewrite IH.
Qed.

Lemma storedMatches_cons (category : UsageCategory)
  (matches : list SearchMatch.t) (m : CategoryMap (list SearchMatch.t)) :
  storedMatches ((category, matches) :: m)
  = List.length matches + storedMatches m.
Proof. reflexivity. Qed.

Lemma filterResultsByCategory_fold (results : CategorizedResults)
  (requested : list UsageCategory) (filtered : CategorizedResults) :
  NoDup (map fst (categories filtered) ++ requested) ->
  let step :=
    fun filteredResults category =>
      let matches := matchesOf category (categories results) in
      if 0 <? List.length matches
      then {| resultsSearchTerm := resultsSearchTerm filteredResults;
              totalMatches :=
                totalMatches filteredResults + List.length matches;
              categories :=
                mapSet category matches (categories filteredResults);
              searchedFiles := searchedFiles filteredResults;
              searchTime := searchTime filteredResults |}
      else filteredResults in
  let kept :=
    map (fun category => (category, matchesOf category (categories results)))
      (filter
         (fun category =>
            0 <? List.length (matchesOf category (categories results)))
         requested) in
  fold_left step requested filtered
  = {| resultsSearchTerm := resultsSearchTerm filtered;
       totalMatches := totalMatches filtered + storedMatches kept;
       categories := categories filtered ++ kept;
       searchedFiles := searchedFiles filtered;
       searchTime := searchTime filtered |}.
Proof.
  cbv zeta. revert filtered.
  induction requested as [|c requested IH]; intros filtered Hnd.
  - simpl. rewrite app_nil_r. unfold storedMatches. simpl.
    rewrite Nat.add_0_r. now destruct filtered.
  - cbn [fold_left filter].
    assert (Hc : ~ In c (map fst (categories filtered))).
    { intros Hin. apply NoDup_remove_2 in Hnd. apply Hnd.
      apply in_or_app. now left. }
    assert (Hrest : NoDup (map fst (categories filtered) ++ requested)).
    { now apply NoDup_remove_1 in Hnd. }
    destruct (0 <? List.length (matchesOf c (categories results))).
    + rewrite IH;
        cbn [categories totalMatches resultsSearchTerm searchedFiles
             searchTime];
        rewrite (mapSet_fresh c _ (categories filtered) Hc).
      * cbn [map]. f_equal.
        -- rewrite storedMatches_cons. lia.
        -- now rewrite <- app_assoc.
      * rewrite map_app. cbn [map fst]. rewrite <- app_assoc. exact Hnd.
    + now apply IH.
Qed.

(** X24. For a list of requested categories without repetition,
    [filterResultsByCategory] keeps, in the order requested, the
    requested categories that have matches, each with its matches; a
    requested category without matches gets no entry.  [totalMatches] is
    the number of matches kept, and the search term, the number of files
    and the time are those of the results given. *)
Theorem filterResultsByCategory_spec (results : CategorizedResults)
  (requested : list UsageCategory) :
  NoDup requested ->
  let filtered := filterResultsByCategory results requested in
  categories filtered
  = map (fun category => (category, matchesOf category (categories results)))
      (filter
         (fun category =>
            0 <? List.length (matchesOf category (categories results)))
         requested) /\
  totalMatches filtered = storedMatches (categories filtered) /\
  resultsSearchTerm filtered = resultsSearchTerm results /\
  searchedFiles filtered = searchedFiles results /\
  searchTime filtered = searchTime results.
Proof.
  intros Hnd. cbv zeta. unfold filterResultsByCategory.
  rewrite filterResultsByCategory_fold by exact Hnd.
  cbn [categories totalMatches resultsSearchTerm searchedFiles searchTime
       app].
  repeat split.
Qed.

Lemma firstn_min_length {A : Type} (n : nat) (l : list A) :
  firstn (Nat.min n (List.length l)) l = firstn n l.
Proof.
  destruct (Nat.le_ge_cases n (List.length l)) as [H|H].
  - now rewrite Nat.min_l.
  - rewrite Nat.min_r by exact H. rewrite firstn_all.
    symmetry. now apply firstn_all2.
Qed.


(** [a.slice(0, n)] for a positive [n]: the first [n] elements. *)
Lemma slice_prefix {A : Type} (a : list A) (n : Z) :
  (0 <= n)%Z -> JS.slice a 0 n = firstn (Z.to_nat n) a.
Proof.
  intros Hn. unfold JS.slice. cbv zeta.
  replace (0 <? 0)%Z with false by reflexivity.
  replace (n <? 0)%Z with false by (symmetry; apply Z.ltb_ge; exact Hn).
  replace (Z.to_nat (Z.min 0 (Z.of_nat (List.length a)))) with 0 by lia.
  cbn [skipn].
  replace (Z.to_nat (Z.min n (Z.of_nat (List.length a))
                     - Z.min 0 (Z.of_nat (List.length a))))
    with (Nat.min (Z.to_nat n) (List.length a)) by lia.
  apply firstn_min_length.
Qed.

(** What a step of the merge stores under each category. *)
Lemma mergeCategory_matchesOf (config : SearchConfiguration)
  (results : CategorizedResults) (key : UsageCategory)
  (matches : list SearchMatch.t) (category : UsageCategory) :
  matchesOf category
    (categories (mergeCategory config results (key, matches)))
  = if categoryEqb key category
    then (matchesOf key (categories results)
          ++ firstn
               (Z.to_nat
                  (maxResultsPerCategory config
                   - Z.of_nat
                       (List.length (matchesOf key (categories results)))))
               matches)
    else matchesOf category (categories results).
Proof.
  unfold mergeCategory. cbv zeta.
  destruct (Z.ltb_spec 0
              (maxResultsPerCategory config
               - Z.of_nat (List.length (matchesOf key (categories results)))))
    as [Hpos|Hfull].
  - cbn [categories]. rewrite matchesOf_mapSet.
    now rewrite slice_prefix by lia.
  - destruct (categoryEqb key category) eqn:E; [|reflexivity].
    apply categoryEqb_eq in E. subst category.
    replace (Z.to_nat _) with 0 by lia. cbn [firstn].
    now rewrite app_nil_r.
Qed.

Lemma mergeCategory_total (config : SearchConfiguration)
  (results : CategorizedResults)
  (entry : UsageCategory * list SearchMatch.t) :
  totalMatches (mergeCategory config results entry)
  + storedMatches (categories results)
  = totalMatches results
    + storedMatches (categories (mergeCategory config results entry)).
Proof.
  destruct entry as [key matches]. unfold mergeCategory. cbv zeta.
  destruct (0 <? _)%Z; [|lia].
  cbn [categories totalMatches].
  pose proof (storedMatches_mapSet key
                (matchesOf key (categories results)
                 ++ JS.slice matches 0
                      (maxResultsPerCategory config
                       - Z.of_nat
                           (List.length
                              (matchesOf key (categories results)))))
                (categories results)) as H.
  rewrite length_app in H. lia.
Qed.



Lemma matchesOf_head (key category : UsageCategory)
  (matches : list SearchMatch.t) (m : CategoryMap (list SearchMatch.t)) :
  matchesOf category ((key, matches) :: m)
  = if categoryEqb key category then matches else matchesOf category m.
Proof.
  unfold matchesOf. cbn [mapGet]. now destruct (categoryEqb key category).
Qed.

Lemma matchesOf_absent (category : UsageCategory)
  (m : CategoryMap (list SearchMatch.t)) :
  ~ In category (map fst m) -> matchesOf category m = [].
Proof. intros H. unfold matchesOf. now rewrite mapGet_None. Qed.

Lemma mergeResults_matchesOf (config : SearchConfiguration)
  (entries : CategoryMap (list SearchMatch.t)) :
  NoDup (map fst entries) ->
  forall (results : CategorizedResults) (category : UsageCategory),
    matchesOf category
      (categories (fold_left (mergeCategory config) entries results))
    = (matchesOf category (categories results)
       ++ firstn
            (Z.to_nat
               (maxResultsPerCategory config
                - Z.of_nat
                    (List.length
                       (matchesOf category (categories results)))))
            (matchesOf category entries)).
Proof.
  induction entries as [|[key matches] entries IH]; intros Hnd results c.
  - cbn [fold_left]. unfold matchesOf at 4. cbn [mapGet].
    rewrite firstn_nil. now rewrite app_nil_r.
  - cbn [fold_left]. cbn [map fst] in Hnd. inversion Hnd as [|? ? Hk Hnd'].
    subst. rewrite IH by exact Hnd'.
    rewrite mergeCategory_matchesOf, matchesOf_head.
    destruct (categoryEqb key c) eqn:E.
    + apply categoryEqb_eq in E. subst c.
      rewrite (matchesOf_absent key entries Hk). rewrite firstn_nil.
      now rewrite app_nil_r.
    + reflexivity.
Qed.

(** X25. Merging the results of a file into the results of the
    workspace, where the file's results hold each category once: every
    category keeps the matches it had and receives, after them, the first
    matches of the file for that category, as many as fit below
    [maxResultsPerCategory]; a category that is full, or a limit that is
    zero or negative, receives none.  [totalMatches] grows by the number
    of matches stored, and a category within the limit stays within
    it. *)
Theorem mergeResults_spec (config : SearchConfiguration)
  (results fileResults : CategorizedResults) :
  NoDup (map fst (categories fileResults)) ->
  let merged := mergeResults config results fileResults in
  (forall category,
      let existing := matchesOf category (categories results) in
      matchesOf category (categories merged)
      = (existing
         ++ firstn
              (Z.to_nat
                 (maxResultsPerCategory config
                  - Z.of_nat (List.length existing)))
              (matchesOf category (categories fileResults))) /\
      ((Z.of_nat (List.length existing)
        <= maxResultsPerCategory config)%Z ->
       (Z.of_nat (List.length (matchesOf category (categories merged)))
        <= maxResultsPerCategory config)%Z)) /\
  totalMatches merged + storedMatches (categories results)
  = totalMatches results + storedMatches (categories merged).
Proof.
  intros Hnd. cbv zeta. unfold mergeResults. split.
  - intros c. rewrite mergeResults_matchesOf by exact Hnd.
    split; [reflexivity|]. intros Hle.
    rewrite length_app, length_firstn. lia.
  - revert results. clear Hnd.
    induction (categories fileResults) as [|entry entries IH];
      intros results; cbn [fold_left]; [lia|].
    pose proof (mergeCategory_total config results entry).
    specialize (IH (mergeCategory config results entry)). lia.
Qed.






Lemma split_nonempty (sep : ascii) (s : string) : JS.split sep s <> [].
Proof.
  destruct s as [|c s]; simpl; [discriminate|].
  destruct (Ascii.eqb c sep); [discriminate|].
  destruct (JS.split sep s); discriminate.
Qed.

Lemma split_no_separator (sep : ascii) (s : string) :
  ~ In sep (list_ascii_of_string s) -> JS.split sep s = [s].
Proof.
  induction s as [|c s IH]; simpl; intros Hn; [reflexivity|].
  destruct (Ascii.eqb_spec c sep) as [->|_]; [tauto|].
  rewrite IH by tauto. reflexivity.
Qed.

Lemma split_append (sep : ascii) (a b : string) :
  JS.split sep (a ++ String sep b) = JS.split sep a ++ JS.split sep b.
Proof.
  induction a as [|c a IH]; simpl.
  - now rewrite Ascii.eqb_refl.
  - destruct (Ascii.eqb c sep); [now rewrite IH|].
    rewrite IH. pose proof (split_nonempty sep a) as Hne.
    destruct (JS.split sep a) as [|w ws]; [contradiction | reflexivity].
Qed.

Lemma pop_last {A : Type} (a : list A) (x : A) : pop (a ++ [x]) = Some x.
Proof. unfold pop. now rewrite rev_unit. Qed.

Lemma In_chars_append (c : ascii) (a b : string) :
  In c (list_ascii_of_string (a ++ b))
  <-> In c (list_ascii_of_string a) \/ In c (list_ascii_of_string b).
Proof. induction a as [|x a IH]; simpl; [tauto | rewrite IH; tauto]. Qed.

(** X27. [getFileName] returns the part of the path after its last
    slash, when that part is not empty.  A path without a slash is
    returned whole, with the backslashes it may hold: the alternative
    that splits at backslashes is only reached when the part after the
    last slash is empty.  A path that ends with a slash and holds no
    backslash is returned whole too. *)
Theorem getFileName_spec (dir name : string) :
  ~ In "/"%char (list_ascii_of_string name) ->
  getFileName (Some name) = name /\
  (name <> "" ->
   getFileName (Some (dir ++ String "/" name)%string) = name) /\
  (~ In "\"%char (list_ascii_of_string dir) ->
   getFileName (Some (dir ++ "/")%string) = (dir ++ "/")%string).
Proof.
  intros Hname. split; [|split].
  - unfold getFileName. rewrite split_no_separator by exact Hname.
    cbn [pop rev app]. destruct name as [|c name]; reflexivity.
  - intros Hne. unfold getFileName.
    rewrite split_append, (split_no_separator _ name Hname), pop_last.
    destruct name as [|c name]; [contradiction | reflexivity].
  - intros Hdir. unfold getFileName.
    rewrite split_append. change (JS.split "/" "") with [""].
    rewrite pop_last. cbn [orString].
    rewrite split_no_separator.
    + cbn [pop rev app]. now destruct (dir ++ "/")%string.
    + rewrite In_chars_append. simpl. intros [H|[H|[]]]; [tauto|].
      discriminate H.
Qed.

Lemma getFileName_spec_witness :
  ~ In "/"%char (list_ascii_of_string "C:\src\app.ts") /\
  getFileName (Some "C:\src\app.ts") = "C:\src\app.ts" /\
  getFileName (Some "/home/src/app.ts") = "app.ts".
Proof.
  assert (H : ~ In "/"%char (list_ascii_of_string "C:\src\app.ts")).
  { simpl. intuition discriminate. }
  split; [exact H|]. split.
  - exact (proj1 (getFileName_spec "" "C:\src\app.ts" H)).
  - reflexivity.
Defined.

Lemma NoDup_allCategories : NoDup allCategories.
Proof.
  unfold allCategories.
  repeat (constructor; [simpl; intuition discriminate|]). constructor.
Qed.

Lemma sampleResults_keys : map fst (categories sampleResults) = allCategories.
Proof. vm_compute. reflexivity. Qed.

Lemma getSearchStats_spec_witness :
  NoDup (map fst (categories sampleResults)) /\
  getSearchStats sampleResults = [(IMPORT, 1); (VARIABLE_DECLARATION, 1)] /\
  list_sum (map snd (getSearchStats sampleResults))
  = storedMatches (categories sampleResults).
Proof.
  assert (H : NoDup (map fst (categories sampleResults))).
  { rewrite sampleResults_keys. exact NoDup_allCategories. }
  split; [exact H|]. split; [vm_compute; reflexivity|].
  apply (getSearchStats_spec sampleResults H).
Defined.

Lemma filterResultsByCategory_spec_witness :
  NoDup [IMPORT; EXPORT] /\
  map fst (categories (filterResultsByCategory sampleResults [IMPORT; EXPORT]))
  = [IMPORT] /\
  totalMatches (filterResultsByCategory sampleResults [IMPORT; EXPORT])
  = storedMatches
      (categories (filterResultsByCategory sampleResults [IMPORT; EXPORT])).
Proof.
  assert (H : NoDup [IMPORT; EXPORT]).
  { repeat (constructor; [simpl; intuition discriminate|]). constructor. }
  split; [exact H|]. split; [vm_compute; reflexivity|].
  apply (filterResultsByCategory_spec sampleResults [IMPORT; EXPORT] H).
Defined.

Lemma mergeResults_spec_witness :
  NoDup (map fst (categories sampleResults)) /\
  List.length
    (matchesOf IMPORT
       (categories
          (mergeResults sampleConfig
             (mergeResults sampleConfig (emptyResults "total")
                sampleResults)
             sampleResults))) = 2 /\
  totalMatches
    (mergeResults sampleConfig (emptyResults "total") sampleResults)
  + storedMatches (categories (emptyResults "total"))
  = totalMatches (emptyResults "total")
    + storedMatches
        (categories
           (mergeResults sampleConfig (emptyResults "total")
              sampleResults)).
Proof.
  assert (H : NoDup (map fst (categories sampleResults))).
  { rewrite sampleResults_keys. exact NoDup_allCategories. }
  split; [exact H|]. split; [vm_compute; reflexivity|].
  apply (mergeResults_spec sampleConfig (emptyResults "total")
           sampleResults H).
Defined.

Lemma searchInDocument_results_witness :
  searchInDocument rejectingHost compiledEngine sampleDocument "total"
    sampleConfig = Ok sampleResults /\
  totalMatches sampleResults = 2 /\
  map fst (categories sampleResults) = allCategories.
Proof.
  assert (H : searchInDocument rejectingHost compiledEngine sampleDocument
                "total" sampleConfig = Ok sampleResults).
  { vm_compute. reflexivity. }
  split; [exact H|]. split; [vm_compute; reflexivity|].
  apply (searchInDocument_results rejectingHost compiledEngine
           sampleDocument "total" sampleConfig sampleResults H).
Defined.
